(** * Verification of the WSDM'21 DGL hands-on tutorial notebooks

    The notebooks define a handful of PyTorch modules on top of the Deep
    Graph Library (DGL) and a few training and evaluation routines.  This
    development embeds

    - the DGL feature stores and the two message passing primitives the
      notebooks call ([update_all] with [copy_u]/[mean], [apply_edges] with
      [u_dot_v]), as executable functions over rational tensors;
    - the modules [SAGEConv] (stochastic and full-graph), [SAGEConvForBoth]
      and [DotPredictor], in a state-and-exception monad over one graph;
    - the routines [train], [evaluate], [inference] and the link-prediction
      training loop, as programs over an interface of library calls.

    Tensor entries are rationals: rounding of floating point numbers is not
    modelled. *)

From Stdlib Require Import QArith Qabs ZArith List Lia Lqa Bool.
From stdpp Require Import base option list gmap strings.

Local Open Scope nat_scope.

(** ** Exceptions and results *)

(** The exceptions of Python, PyTorch and DGL that the modelled code can
    meet.  None of them is declared by the notebooks. *)
Inductive exn : Type :=
  | DGLError | KeyError | IndexError | RuntimeError | TypeError
  | ValueError | AssertionError | OtherError (code : nat).

Inductive result (A : Type) : Type :=
  | Ok (a : A)
  | Raise (e : exn).
Arguments Ok {A} a.
Arguments Raise {A} e.

Definition rbind {A B} (r : result A) (k : A -> result B) : result B :=
  match r with
  | Ok a => k a
  | Raise e => Raise e
  end.

(** ** Tensors *)

Abbreviation row := (list Q) (only parsing).

(** A two-dimensional tensor: its second dimension and its rows. *)
Record tensor : Type := Tensor { ncols : nat; rows : list row }.

Definition nrows (t : tensor) : nat := length (rows t).

Definition vadd (a b : row) : row := zip_with Qplus a b.
Definition vdiv (a : row) (n : nat) : row :=
  map (fun q => (q / inject_Z (Z.of_nat n))%Q) a.
Definition vzero (c : nat) : row := replicate c 0%Q.
Definition dot (a b : row) : Q := fold_left Qplus (zip_with Qmult a b) 0%Q.

(** [torch.cat([a, b], dim=1)] *)
Definition cat1 (a b : tensor) : result tensor :=
  if nrows a =? nrows b
  then Ok (Tensor (ncols a + ncols b) (zip_with (@app Q) (rows a) (rows b)))
  else Raise RuntimeError.

(** [nn.Linear(in_features, out_features)]: [weight] has [out_features] rows. *)
Record Linear : Type := MkLinear {
  in_features : nat;
  out_features : nat;
  weight : list row;
  bias : row
}.

Definition linear_row (l : Linear) (x : row) : row :=
  zip_with Qplus (map (dot x) (weight l)) (bias l).

Definition linear (l : Linear) (x : tensor) : result tensor :=
  if ncols x =? in_features l
  then Ok (Tensor (out_features l) (map (linear_row l) (rows x)))
  else Raise RuntimeError.

(** ** Graphs and their feature stores (DGL) *)

Module DGL.

(** The structure of a graph: a homogeneous graph on [n] nodes, or a message
    flow graph (a block) with [s] source and [d] destination nodes.  An edge
    is a pair (source, destination). *)
Inductive topology : Type :=
  | Homogeneous (n : nat) (es : list (nat * nat))
  | MFG (s d : nat) (es : list (nat * nat)).

Definition num_src_nodes (t : topology) : nat :=
  match t with Homogeneous n _ => n | MFG s _ _ => s end.
Definition num_dst_nodes (t : topology) : nat :=
  match t with Homogeneous n _ => n | MFG _ d _ => d end.
Definition edges (t : topology) : list (nat * nat) :=
  match t with Homogeneous _ es => es | MFG _ _ es => es end.
Definition is_block (t : topology) : bool :=
  match t with Homogeneous _ _ => false | MFG _ _ _ => true end.


(** The feature dictionaries.  A homogeneous graph has one node frame,
    [nframe_src], of which [srcdata], [dstdata] and [ndata] are all views; a
    block has a source frame and a destination frame. *)
Record frames : Type := Frames {
  nframe_src : gmap string tensor;
  nframe_dst : gmap string tensor;
  eframe : gmap string tensor
}.

Record graph : Type := Graph { topo : topology; data : frames }.

(** Computations on one graph object: they may change the object and may
    raise; what was written before an exception stays written. *)
Definition M (A : Type) : Type := graph -> result A * graph.

Definition ret {A} (a : A) : M A := fun g => (Ok a, g).
Definition bind {A B} (m : M A) (k : A -> M B) : M B :=
  fun g => match m g with
           | (Ok a, g') => k a g'
           | (Raise e, g') => (Raise e, g')
           end.
Definition lift {A} (r : result A) : M A := fun g => (r, g).
Definition raise {A} (e : exn) : M A := fun g => (Raise e, g).

Declare Scope graph_scope.
Delimit Scope graph_scope with graph.
Notation "'do' x <- c ; k" := (bind c (fun x => k))
  (at level 10, x name, c at level 99, k at level 200) : graph_scope.
Notation "c >> k" := (bind c (fun _ => k))
  (at level 100, k at level 200, right associativity) : graph_scope.
Local Open Scope graph_scope.

Definition with_src (f : gmap string tensor -> gmap string tensor) (d : frames) :=
  Frames (f (nframe_src d)) (nframe_dst d) (eframe d).
Definition with_dst (f : gmap string tensor -> gmap string tensor) (d : frames) :=
  Frames (nframe_src d) (f (nframe_dst d)) (eframe d).
Definition with_edge (f : gmap string tensor -> gmap string tensor) (d : frames) :=
  Frames (nframe_src d) (nframe_dst d) (f (eframe d)).

(** The frame that [dstdata] views. *)
Definition dst_view (g : graph) : gmap string tensor :=
  if is_block (topo g) then nframe_dst (data g) else nframe_src (data g).

(** [g.srcdata[key] = t] *)
Definition set_srcdata (key : string) (t : tensor) : M unit := fun g =>
  if nrows t =? num_src_nodes (topo g)
  then (Ok tt, Graph (topo g) (with_src (insert key t) (data g)))
  else (Raise DGLError, g).

(** [g.dstdata[key] = t] *)
Definition set_dstdata (key : string) (t : tensor) : M unit := fun g =>
  if nrows t =? num_dst_nodes (topo g)
  then (Ok tt,
        Graph (topo g)
          (if is_block (topo g) then with_dst (insert key t) (data g)
           else with_src (insert key t) (data g)))
  else (Raise DGLError, g).

(** [g.ndata[key] = t]; a block has two node types and rejects it. *)
Definition set_ndata (key : string) (t : tensor) : M unit := fun g =>
  if is_block (topo g) then (Raise AssertionError, g)
  else set_srcdata key t g.

(** [g.srcdata[key]] *)
Definition get_srcdata (key : string) : M tensor := fun g =>
  match nframe_src (data g) !! key with
  | Some t => (Ok t, g)
  | None => (Raise KeyError, g)
  end.

(** [g.dstdata[key]] *)
Definition get_dstdata (key : string) : M tensor := fun g =>
  match dst_view g !! key with
  | Some t => (Ok t, g)
  | None => (Raise KeyError, g)
  end.

(** [g.ndata[key]] read as a tensor.  On a block the view yields a
    dictionary keyed by node type, which the consumer of the tensor rejects
    with a [TypeError]. *)
Definition get_ndata (key : string) : M tensor := fun g =>
  if is_block (topo g) then (Raise TypeError, g)
  else match nframe_src (data g) !! key with
       | Some t => (Ok t, g)
       | None => (Raise KeyError, g)
       end.

(** [g.edata[key]] *)
Definition get_edata (key : string) : M tensor := fun g =>
  match eframe (data g) !! key with
  | Some t => (Ok t, g)
  | None => (Raise KeyError, g)
  end.

(** [with g.local_scope(): body].  DGL's context manager swaps in copies of
    the frames, yields, and puts the saved frames back after the body; it has
    no [finally], so an exception in the body leaves the copies in place. *)
Definition local_scope {A} (body : M A) : M A := fun g =>
  let saved := data g in
  match body g with
  | (Ok a, g') => (Ok a, Graph (topo g') saved)
  | (Raise e, g') => (Raise e, g')
  end.

(** *** Message passing *)

(** [update_all] with the builtins [copy_u] and [mean] is DGL's: the
    message of an edge is the feature of its source and a destination takes
    the average of the messages it receives (the notebook says as much).
    DGL computes it with a sparse kernel: starting from zeros, every edge
    (u, v) adds row [u] of [x] to row [v] of the output. *)
Definition scatter_step (x : list row) (acc : list row) (e : nat * nat) : list row :=
  match x !! fst e, acc !! snd e with
  | Some xu, Some av => <[snd e := vadd av xu]> acc
  | _, _ => acc
  end.

Definition copy_u_sum (x : list row) (c : nat) (d : nat) (es : list (nat * nat)) : list row :=
  fold_left (scatter_step x) es (replicate d (vzero c)).

Definition in_degree (es : list (nat * nat)) (v : nat) : nat :=
  length (List.filter (fun e => snd e =? v) es).

(** The mean reducer divides the sums by the in-degrees clamped to 1. *)
Definition copy_u_mean (x : tensor) (d : nat) (es : list (nat * nat)) : tensor :=
  Tensor (ncols x)
    (imap (fun v r => vdiv r (Nat.max (in_degree es v) 1))
          (copy_u_sum (rows x) (ncols x) d es)).

(** [g.update_all(fn.copy_u(src, 'm'), fn.mean('m', out))]; the kernel
    rejects a feature without columns. *)
Definition update_all_copy_u_mean (src out : string) : M unit := fun g =>
  match nframe_src (data g) !! src with
  | None => (Raise KeyError, g)
  | Some x =>
      if ncols x =? 0 then (Raise DGLError, g)
      else
        let z := copy_u_mean x (num_dst_nodes (topo g)) (edges (topo g)) in
        (Ok tt,
         Graph (topo g)
           (if is_block (topo g) then with_dst (insert out z) (data g)
            else with_src (insert out z) (data g)))
  end.

(** [g.apply_edges(fn.u_dot_v(lhs, rhs, out))]; the kernel rejects features
    of different widths and features without columns. *)
Definition u_dot_v (x y : tensor) (es : list (nat * nat)) : tensor :=
  Tensor 1
    (map (fun e => [dot (default [] (rows x !! fst e)) (default [] (rows y !! snd e))]) es).

Definition apply_edges_u_dot_v (lhs rhs out : string) : M unit := fun g =>
  match nframe_src (data g) !! lhs, dst_view g !! rhs with
  | Some x, Some y =>
      if (ncols x =? ncols y) && negb (ncols x =? 0)
      then (Ok tt,
            Graph (topo g)
              (with_edge (insert out (u_dot_v x y (edges (topo g)))) (data g)))
      else (Raise DGLError, g)
  | _, _ => (Raise KeyError, g)
  end.

End DGL.

(** ** The modules of the message passing notebook *)

Module L4.
Import DGL.
Local Open Scope graph_scope.

(** The argument [h] of a forward pass: one tensor, or a pair
    (source features, destination features). *)
Inductive feat : Type :=
  | Single (h : tensor)
  | Pair (h_src h_dst : tensor).

(** The cells that handle a message flow graph directly:
    [mfg.srcdata['x'] = torch.zeros(...)] followed by [mfg.dstdata['feat']],
    and [mfg.srcdata['h'] = h] followed by [mfg.update_all(fn.copy_u('h',
    'm'), fn.mean('m', 'h'))] and [mfg.dstdata['h']]. *)
Definition cell_assign : M tensor := fun mfg =>
  (set_srcdata "x"
     (Tensor (num_dst_nodes (topo mfg))
        (replicate (num_src_nodes (topo mfg)) (vzero (num_dst_nodes (topo mfg))))) >>
   get_dstdata "feat") mfg.

Definition cell_update_all (h : tensor) : M tensor :=
  set_srcdata "h" h >>
  update_all_copy_u_mean "h" "h" >>
  get_dstdata "h".

(** [class SAGEConv] for training with neighbor sampling. *)
Module Stochastic.
Record SAGEConv : Type := { linear_ : Linear }.

Definition forward (self : SAGEConv) (h : tensor * tensor) : M tensor :=
  local_scope (
    let '(h_src, h_dst) := h in
    set_srcdata "h" h_src >>
    set_dstdata "h" h_dst >>
    update_all_copy_u_mean "h" "h_N" >>
    do h_N <- get_dstdata "h_N";
    do h_total <- lift (cat1 h_dst h_N);
    lift (linear (linear_ self) h_total)).
End Stochastic.

(** [class SAGEConv] for full-graph training only. *)
Module FullGraph.
Record SAGEConv : Type := { linear_ : Linear }.

Definition forward (self : SAGEConv) (h : tensor) : M tensor :=
  local_scope (
    set_ndata "h" h >>
    update_all_copy_u_mean "h" "h_N" >>
    do h_N <- get_ndata "h_N";
    do h_total <- lift (cat1 h h_N);
    lift (linear (linear_ self) h_total)).
End FullGraph.

(** [class SAGEConvForBoth] *)
Module ForBoth.
Record SAGEConvForBoth : Type := { linear_ : Linear }.

Definition forward (self : SAGEConvForBoth) (h : feat) : M tensor :=
  local_scope (
    let '(h_src, h_dst) :=
      match h with
      | Pair h_src h_dst => (h_src, h_dst)
      | Single h => (h, h)
      end in
    set_srcdata "h" h_src >>
    update_all_copy_u_mean "h" "h_N" >>
    do h_N <- get_ndata "h_N";
    do h_total <- lift (cat1 h_dst h_N);
    lift (linear (linear_ self) h_total)).
End ForBoth.

End L4.

(** ** The score predictor of the link prediction notebook *)

Module DotPredictor.
Import DGL.
Local Open Scope graph_scope.

(** [t[:, 0]] *)
Definition column0 (t : tensor) : result (list Q) :=
  if ncols t =? 0 then Raise IndexError
  else Ok (map (fun r => default 0%Q (head r)) (rows t)).

(** [class DotPredictor] *)
Definition forward (h : tensor) : M (list Q) :=
  local_scope (
    set_ndata "h" h >>
    apply_edges_u_dot_v "h" "h" "score" >>
    do score <- get_edata "score";
    lift (column0 score)).

End DotPredictor.

(** ** Scalars returned by accuracy computations *)

(** A mean over an empty selection is not a number. *)
Inductive scalar : Type :=
  | NaN
  | Fin (q : Q).

Definition Qltb (a b : Q) : bool := negb (Qle_bool b a).

(** [a < b] on scalars: false as soon as one side is not a number. *)
Definition scalar_ltb (a b : scalar) : bool :=
  match a, b with
  | Fin x, Fin y => Qltb x y
  | _, _ => false
  end.

(** Index of the first maximal entry of a row ([argmax]). *)
Fixpoint argmax_from (best : Q) (besti i : nat) (r : row) : nat :=
  match r with
  | [] => besti
  | q :: r' =>
      if Qltb best q then argmax_from q i (S i) r'
      else argmax_from best besti (S i) r'
  end.

Definition argmax (r : row) : nat :=
  match r with
  | [] => 0
  | q :: r' => argmax_from q 0 1 r'
  end.

(** [t.argmax(1)]; there is no maximum along an empty dimension, which
    PyTorch reports with an [IndexError] and NumPy with a [ValueError]. *)
Definition argmax1 (e : exn) (t : tensor) : result (list nat) :=
  if ncols t =? 0 then Raise e else Ok (map argmax (rows t)).

(** [xs[mask]] for a boolean mask. *)
Fixpoint select {A} (xs : list A) (mask : list bool) : list A :=
  match xs, mask with
  | x :: xs', b :: mask' => if b then x :: select xs' mask' else select xs' mask'
  | _, _ => []
  end.

Definition mask_select {A} (xs : list A) (mask : list bool) : result (list A) :=
  if length xs =? length mask then Ok (select xs mask) else Raise IndexError.

Definition mask_rows (t : tensor) (mask : list bool) : result tensor :=
  rbind (mask_select (rows t) mask) (fun rs => Ok (Tensor (ncols t) rs)).

(** [xs[idx]] for an index tensor. *)
Fixpoint gather {A} (xs : list A) (idx : list nat) : result (list A) :=
  match idx with
  | [] => Ok []
  | i :: idx' =>
      match xs !! i with
      | None => Raise IndexError
      | Some x => rbind (gather xs idx') (fun r => Ok (x :: r))
      end
  end.

Definition gather_rows (t : tensor) (idx : list nat) : result tensor :=
  rbind (gather (rows t) idx) (fun rs => Ok (Tensor (ncols t) rs)).

(** Number of positions at which two label lists agree. *)
Definition count_eq (a b : list nat) : nat :=
  length (List.filter (fun p => fst p =? snd p) (combine a b)).

(** [(a == b).float().mean()] and [sklearn.metrics.accuracy_score]. *)
Definition mean_eq (a b : list nat) : scalar :=
  match a with
  | [] => NaN
  | _ => Fin (inject_Z (Z.of_nat (count_eq a b)) / inject_Z (Z.of_nat (length a)))
  end.

Definition accuracy_score (y_true y_pred : list nat) : result scalar :=
  if length y_true =? length y_pred then Ok (mean_eq y_true y_pred)
  else Raise ValueError.

(** [F.relu] *)
Definition relu (t : tensor) : tensor :=
  Tensor (ncols t) (map (map (fun q => if Qltb 0 q then q else 0%Q)) (rows t)).

(** [t[:n]] *)
Definition take_rows (n : nat) (t : tensor) : tensor :=
  Tensor (ncols t) (take n (rows t)).

(** ** Programs over the library interface *)

Inductive optimizer : Type := Adam | LBFGS.

(** What [model.state_dict()] returns; its content belongs to PyTorch. *)
Definition state_dict := list (string * tensor).

(** A minibatch of the edge data loader, and one of the node data loader. *)
Record edge_batch : Type := EdgeBatch {
  pos_graph : DGL.graph;
  neg_graph : DGL.graph;
  e_mfgs : list DGL.graph
}.
Record node_batch : Type := NodeBatch { n_mfgs : list DGL.graph }.

Inductive message : Type :=
  | MsgEpoch (e : nat) (loss : Q) (val_acc best_val_acc test_acc best_test_acc : scalar)
  | MsgConverges (i : nat)
  | MsgEval (epoch : nat) (valid_acc test_acc : scalar).

(** The calls into PyTorch, DGL, tqdm and the Python runtime whose results
    the notebooks do not determine. *)
Inductive op : Type :=
  | NewOptimizer (o : optimizer)
  | GraphConv (layer : string) (g : DGL.topology) (x : tensor)
  | DglSAGEConv (layer : string) (g : DGL.graph) (h_src h_dst : tensor)
  | CrossEntropy (input : tensor) (target : list nat)
  | BCEWithLogits (score label : list Q)
  | ZeroGrad (o : optimizer)
  | Backward (loss : Q)
  | OptStep (o : optimizer)
  | Print (m : message)
  | SetPostfix (loss : Q)
  | NewLinear (i o : nat)
  | Classifier (x : tensor)
  | EdgeDataLoaderIter
  | NodeDataLoaderIter
  | ModelEval
  | ModelTrain
  | StateDict
  | TorchSave (sd : state_dict) (path : string).

Definition reply (o : op) : Type :=
  match o with
  | GraphConv _ _ _ | DglSAGEConv _ _ _ _ | Classifier _ => tensor
  | CrossEntropy _ _ | BCEWithLogits _ _ => Q
  | EdgeDataLoaderIter => list edge_batch
  | NodeDataLoaderIter => list node_batch
  | StateDict => state_dict
  | _ => unit
  end.

(** A program: a tree of library calls.  [StepWith closure k] is
    [opt.step(closure)], where the library decides when and how often it
    runs the closure.  [TryExcept body handler k] is
    [try: body / except Exception as e: handler(e)] followed by [k]: the one
    construct with which a program can catch an exception, retry, or raise
    another exception in its place. *)
Inductive prog (A : Type) : Type :=
  | Ret (a : A)
  | Throw (e : exn)
  | Call (o : op) (k : reply o -> prog A)
  | StepWith (closure : prog Q) (k : unit -> prog A)
  | TryExcept {B : Type} (body : prog B) (handler : exn -> prog B) (k : B -> prog A).
Arguments Ret {A} a.
Arguments Throw {A} e.
Arguments Call {A} o k.
Arguments StepWith {A} closure k.
Arguments TryExcept {A B} body handler k.

Fixpoint pbind {A B} (p : prog A) (f : A -> prog B) : prog B :=
  match p with
  | Ret a => f a
  | Throw e => Throw e
  | Call o k => Call o (fun r => pbind (k r) f)
  | StepWith c k => StepWith c (fun r => pbind (k r) f)
  | TryExcept body handler k => TryExcept body handler (fun r => pbind (k r) f)
  end.

Definition call (o : op) : prog (reply o) := Call o Ret.
Definition plift {A} (r : result A) : prog A :=
  match r with Ok a => Ret a | Raise e => Throw e end.

Declare Scope prog_scope.
Delimit Scope prog_scope with prog.
Notation "'let*' x := c 'in' k" := (pbind c (fun x => k))
  (at level 10, x name, c at level 99, k at level 200) : prog_scope.
Notation "c ;; k" := (pbind c (fun _ => k))
  (at level 100, k at level 200, right associativity) : prog_scope.

(** The library as the programs see it: a world [W] that holds the
    parameters, gradients, optimizer state, random state and files, one
    transition per call, and [opt.step], which is handed the closure. *)
Record library (W : Type) : Type := Library {
  lib_call : forall o : op, W -> result (reply o) * W;
  lib_step : (W -> result Q * W) -> W -> result unit * W
}.
Arguments lib_call {W} l o w.
Arguments lib_step {W} l closure w.

(** What a run leaves behind: each library call the program makes, with its
    outcome; each [opt.step(closure)]; and each exception raised by a tensor
    operation.  The calls the closure makes while the optimizer runs it
    happen inside [opt.step] and are not listed. *)
Inductive event : Type :=
  | EvCall (o : op) (r : result (reply o))
  | EvStep (r : result unit)
  | EvThrow (e : exn).

Fixpoint run {W : Type} {A : Type} (L : library W) (p : prog A) (w : W)
    : result A * W * list event :=
  match p with
  | Ret a => (Ok a, w, [])
  | Throw e => (Raise e, w, [EvThrow e])
  | Call o k =>
      match lib_call L o w with
      | (Ok r, w') =>
          let '(res, w'', log) := run L (k r) w' in
          (res, w'', EvCall o (Ok r) :: log)
      | (Raise e, w') => (Raise e, w', [EvCall o (Raise e)])
      end
  | StepWith c k =>
      match lib_step L (fun w0 => fst (run L c w0)) w with
      | (Ok u, w') =>
          let '(res, w'', log) := run L (k u) w' in
          (res, w'', EvStep (Ok u) :: log)
      | (Raise e, w') => (Raise e, w', [EvStep (Raise e)])
      end
  | TryExcept body handler k =>
      let '(rb, w1, l1) :=
        match run L body w with
        | (Ok b, w1, l1) => (Ok b, w1, l1)
        | (Raise e, w1, l1) =>
            let '(r, w2, l2) := run L (handler e) w1 in (r, w2, l1 ++ l2)
        end in
      match rb with
      | Ok b => let '(res, w2, l2) := run L (k b) w1 in (res, w2, l1 ++ l2)
      | Raise e => (Raise e, w1, l1)
      end
  end.

(** [for x in xs: s = body(x, s)] *)
Fixpoint foldM {S X} (body : X -> S -> prog S) (xs : list X) (s : S) : prog S :=
  match xs with
  | [] => Ret s
  | x :: xs' => pbind (body x s) (foldM body xs')
  end.

(** [l[i]] on a Python list. *)
Definition index {A} (l : list A) (i : nat) : result A :=
  match l !! i with
  | Some a => Ok a
  | None => Raise IndexError
  end.

(** [torch.cat(ts)] along the first dimension. *)
Definition cat0 (ts : list tensor) : result tensor :=
  match ts with
  | [] => Raise RuntimeError
  | t :: ts' =>
      if forallb (fun t' => ncols t' =? ncols t) ts'
      then Ok (Tensor (ncols t) (concat (map rows ts)))
      else Raise RuntimeError
  end.

(** ** Node classification notebook *)

Module NodeClassification.
Local Open Scope prog_scope.

(** The Cora graph: its structure and the entries of [g.ndata]. *)
Record cora : Type := Cora {
  structure : DGL.topology;
  feat : tensor;
  label : list nat;
  train_mask : list bool;
  val_mask : list bool;
  test_mask : list bool
}.

(** [class GCN] *)
Definition GCN_forward (g : DGL.topology) (in_feat : tensor) : prog tensor :=
  let* h := call (GraphConv "conv1" g in_feat) in
  let h := relu h in
  let* h := call (GraphConv "conv2" g h) in
  Ret h.

Record locals : Type := Locals { best_val_acc : scalar; best_test_acc : scalar }.

(** [(pred[mask] == labels[mask]).float().mean()] *)
Definition masked_acc (pred labels : list nat) (mask : list bool) : result scalar :=
  rbind (mask_select pred mask) (fun p =>
  rbind (mask_select labels mask) (fun l =>
  Ok (mean_eq p l))).

(** The body of [for e in range(100)]. *)
Definition epoch (model : DGL.topology -> tensor -> prog tensor) (g : cora)
    (e : nat) (st : locals) : prog locals :=
  let features := feat g in
  let labels := label g in
  let* logits := model (structure g) features in
  let* pred := plift (argmax1 IndexError logits) in
  let* logits_train := plift (mask_rows logits (train_mask g)) in
  let* labels_train := plift (mask_select labels (train_mask g)) in
  let* loss := call (CrossEntropy logits_train labels_train) in
  let* train_acc := plift (masked_acc pred labels (train_mask g)) in
  let* val_acc := plift (masked_acc pred labels (val_mask g)) in
  let* test_acc := plift (masked_acc pred labels (test_mask g)) in
  let st :=
    if scalar_ltb (best_val_acc st) val_acc
    then Locals val_acc test_acc
    else st in
  call (ZeroGrad Adam) ;;
  call (Backward loss) ;;
  call (OptStep Adam) ;;
  (if e mod 5 =? 0
   then call (Print (MsgEpoch e loss val_acc (best_val_acc st) test_acc (best_test_acc st)))
   else Ret tt) ;;
  Ret st.

(** [train(g, model)] up to and including epoch [n - 1], with the local
    variables it ends in. *)
Definition train_epochs (n : nat) (g : cora)
    (model : DGL.topology -> tensor -> prog tensor) : prog locals :=
  call (NewOptimizer Adam) ;;
  foldM (epoch model g) (seq 0 n) (Locals (Fin 0) (Fin 0)).

Definition train (g : cora) (model : DGL.topology -> tensor -> prog tensor) : prog unit :=
  train_epochs 100 g model ;; Ret tt.

End NodeClassification.

(** ** Link prediction notebook *)

Module LinkPrediction.
Local Open Scope prog_scope.

(** The globals of the notebook that the routines read. *)
Record globals : Type := Globals {
  node_features : tensor;
  node_labels : list nat;
  num_classes : nat;
  train_nids : list nat;
  valid_nids : list nat;
  test_nids : list nat
}.

Definition best_model_path : string := "model.pt".

(** [class Model], built from two [dgl.nn.SAGEConv] layers. *)
Definition Model_forward (mfgs : list DGL.graph) (x : tensor) : prog tensor :=
  let* mfg0 := plift (index mfgs 0) in
  let h_dst := take_rows (DGL.num_dst_nodes (DGL.topo mfg0)) x in
  let* h := call (DglSAGEConv "conv1" mfg0 x h_dst) in
  let h := relu h in
  let* mfg1 := plift (index mfgs 1) in
  let h_dst := take_rows (DGL.num_dst_nodes (DGL.topo mfg1)) h in
  let* h := call (DglSAGEConv "conv2" mfg1 h h_dst) in
  Ret h.

(** [predictor(g, h)]: the graph object of the minibatch is dropped after
    the call. *)
Definition predictor (g : DGL.graph) (h : tensor) : prog (list Q) :=
  plift (fst (DotPredictor.forward h g)).

(** [mfgs[0].srcdata['feat']] *)
Definition input_features (mfgs : list DGL.graph) : result tensor :=
  rbind (index mfgs 0) (fun mfg0 => fst (DGL.get_srcdata "feat" mfg0)).

(** [inference(model, graph, node_features)] with the notebook's model. *)
Definition inference : prog tensor :=
  let* batches := call NodeDataLoaderIter in
  let* result :=
    foldM (fun (b : node_batch) (result : list tensor) =>
             let* inputs := plift (input_features (n_mfgs b)) in
             let* out := Model_forward (n_mfgs b) inputs in
             Ret (result ++ [out]))
          batches [] in
  plift (cat0 result).

(** [compute_loss] and [closure], local to [evaluate]. *)
Definition compute_loss (emb : tensor) (label train_nids : list nat) : prog Q :=
  let* x := plift (gather_rows emb train_nids) in
  let* pred := call (Classifier x) in
  let* y := plift (gather label train_nids) in
  call (CrossEntropy pred y).

Definition closure (emb : tensor) (label train_nids : list nat) : prog Q :=
  let* loss := compute_loss emb label train_nids in
  call (ZeroGrad LBFGS) ;;
  call (Backward loss) ;;
  Ret loss.

(** [np.abs(loss - prev_loss) < 1e-4]; [None] is the initial infinity. *)
Definition converged (loss : Q) (prev_loss : option Q) : bool :=
  match prev_loss with
  | None => false
  | Some p => Qltb (Qabs (loss - p)) (1 # 10000)
  end.

(** [for i in range(1000)] with its [break]: [n] iterations are left and
    [i] is the current one. *)
Fixpoint fit (emb : tensor) (label train_nids : list nat)
    (n i : nat) (prev_loss : option Q) : prog unit :=
  match n with
  | 0 => Ret tt
  | S n' =>
      StepWith (closure emb label train_nids) (fun _ =>
      let* loss := compute_loss emb label train_nids in
      if converged loss prev_loss
      then call (Print (MsgConverges i))
      else fit emb label train_nids n' (S i) (Some loss))
  end.

(** [sklearn.metrics.accuracy_score(label[nids], pred[nids].argmax(1))] *)
Definition accuracy_on (pred : tensor) (label nids : list nat) : result scalar :=
  rbind (gather label nids) (fun y_true =>
  rbind (gather_rows pred nids) (fun p =>
  rbind (argmax1 ValueError p) (fun y_pred =>
  accuracy_score y_true y_pred))).

(** [evaluate(emb, label, train_nids, valid_nids, test_nids)] *)
Definition evaluate (num_classes : nat) (emb : tensor)
    (label train_nids valid_nids test_nids : list nat) : prog (scalar * scalar) :=
  call (NewLinear (ncols emb) num_classes) ;;
  call (NewOptimizer LBFGS) ;;
  fit emb label train_nids 1000 0 None ;;
  let* pred := call (Classifier emb) in
  let* valid_acc := plift (accuracy_on pred label valid_nids) in
  let* test_acc := plift (accuracy_on pred label test_nids) in
  Ret (valid_acc, test_acc).

(** The body of [for step, (input_nodes, pos_graph, neg_graph, mfgs) in
    enumerate(tq)]; the loop variable that survives an iteration is
    [best_accuracy]. *)
Definition training_step (G : globals) (epoch : nat)
    (sb : nat * edge_batch) (best_accuracy : scalar) : prog scalar :=
  let '(step, b) := sb in
  let* inputs := plift (input_features (e_mfgs b)) in
  let* outputs := Model_forward (e_mfgs b) inputs in
  let* pos_score := predictor (pos_graph b) outputs in
  let* neg_score := predictor (neg_graph b) outputs in
  let score := pos_score ++ neg_score in
  let label := map (fun _ => 1%Q) pos_score ++ map (fun _ => 0%Q) neg_score in
  let* loss := call (BCEWithLogits score label) in
  call (ZeroGrad Adam) ;;
  call (Backward loss) ;;
  call (OptStep Adam) ;;
  call (SetPostfix loss) ;;
  if (step + 1) mod 500 =? 0
  then
    call ModelEval ;;
    let* emb := inference in
    let* accs := evaluate (num_classes G) emb (node_labels G)
                   (train_nids G) (valid_nids G) (test_nids G) in
    let '(valid_acc, test_acc) := accs in
    call (Print (MsgEval epoch valid_acc test_acc)) ;;
    let* best_accuracy :=
      (if scalar_ltb best_accuracy valid_acc
       then
         let* sd := call StateDict in
         call (TorchSave sd best_model_path) ;;
         Ret valid_acc
       else Ret best_accuracy) in
    call ModelTrain ;;
    Ret best_accuracy
  else Ret best_accuracy.

(** [enumerate(xs)] *)
Definition enumerate {A} (xs : list A) : list (nat * A) := imap (fun i x => (i, x)) xs.

(** The body of [for epoch in range(1)]. *)
Definition training_epoch (G : globals) (epoch : nat) (best_accuracy : scalar) : prog scalar :=
  let* tq := call EdgeDataLoaderIter in
  foldM (training_step G epoch) (enumerate tq) best_accuracy.

(** The training cell, with the final value of [best_accuracy]. *)
Definition training_loop (G : globals) : prog scalar :=
  foldM (training_epoch G) (seq 0 1) (Fin 0).

End LinkPrediction.

(** ** The classes the notebooks declare *)

Module Inventory.

(** A class named in a constructor call: one imported from PyTorch or DGL,
    or one declared in the same notebook. *)
Inductive class_ref : Type :=
  | Lib (qualname : string)
  | Own (name : string).

(** The message, reduce and edge functions handed to DGL: a builtin of
    [dgl.function], or a function written by the caller. *)
Inductive fn_ref : Type :=
  | DglFn (name : string)
  | UserFn (name : string).

(** The statements of a [forward] body, by what they call. *)
#[local] Unset Elimination Schemes.
Inductive stmt : Type :=
  | SubmoduleCall (attr : string)
  | UpdateAll (message_func reduce_func : fn_ref)
  | ApplyEdges (func : fn_ref)
  | FeatureWrite (view key : string)
  | FeatureRead (view key : string)
  | TensorOp (name : string)
  | LocalScope (body : list stmt).
#[local] Set Elimination Schemes.

Record class_def : Type := ClassDef {
  notebook : string;
  cname : string;
  init : list (string * class_ref);
  forward : list stmt
}.

Definition two_conv_forward : list stmt :=
  [ TensorOp "slice"; SubmoduleCall "conv1"; TensorOp "F.relu";
    TensorOp "slice"; SubmoduleCall "conv2" ].

Definition GCN : class_def :=
  ClassDef "node_classification" "GCN"
    [ ("conv1", Lib "dgl.nn.GraphConv"); ("conv2", Lib "dgl.nn.GraphConv") ]
    [ SubmoduleCall "conv1"; TensorOp "F.relu"; SubmoduleCall "conv2" ].

Definition L2_Model : class_def :=
  ClassDef "link_prediction" "Model"
    [ ("conv1", Lib "dgl.nn.SAGEConv"); ("conv2", Lib "dgl.nn.SAGEConv") ]
    two_conv_forward.

Definition DotPredictor : class_def :=
  ClassDef "link_prediction" "DotPredictor" []
    [ LocalScope
        [ FeatureWrite "ndata" "h";
          ApplyEdges (DglFn "u_dot_v");
          FeatureRead "edata" "score"; TensorOp "slice" ] ].

Definition SAGEConv_stochastic : class_def :=
  ClassDef "L4_message_passing" "SAGEConv"
    [ ("linear", Lib "torch.nn.Linear") ]
    [ LocalScope
        [ FeatureWrite "srcdata" "h"; FeatureWrite "dstdata" "h";
          UpdateAll (DglFn "copy_u") (DglFn "mean");
          FeatureRead "dstdata" "h_N"; TensorOp "torch.cat";
          SubmoduleCall "linear" ] ].

Definition L4_Model : class_def :=
  ClassDef "L4_message_passing" "Model"
    [ ("conv1", Own "SAGEConv"); ("conv2", Own "SAGEConv") ]
    two_conv_forward.

Definition SAGEConv_full : class_def :=
  ClassDef "L4_message_passing" "SAGEConv"
    [ ("linear", Lib "torch.nn.Linear") ]
    [ LocalScope
        [ FeatureWrite "ndata" "h";
          UpdateAll (DglFn "copy_u") (DglFn "mean");
          FeatureRead "ndata" "h_N"; TensorOp "torch.cat";
          SubmoduleCall "linear" ] ].

Definition SAGEConvForBoth : class_def :=
  ClassDef "L4_message_passing" "SAGEConvForBoth"
    [ ("linear", Lib "torch.nn.Linear") ]
    [ LocalScope
        [ FeatureWrite "srcdata" "h";
          UpdateAll (DglFn "copy_u") (DglFn "mean");
          FeatureRead "ndata" "h_N"; TensorOp "torch.cat";
          SubmoduleCall "linear" ] ].

(** Every subclass of [nn.Module] in the notebooks, in order of
    appearance. *)
Definition classes : list class_def :=
  [ GCN; L2_Model; DotPredictor;
    SAGEConv_stochastic; L4_Model; SAGEConv_full; SAGEConvForBoth ].

(** The class an [Own] reference resolves to: the latest declaration of that
    name that precedes the use in the same notebook. *)
Definition resolve (before : list class_def) (nb name : string) : option class_def :=
  last (List.filter (fun c => String.eqb (notebook c) nb && String.eqb (cname c) name) before).

(** The library layers that aggregate over neighbours. *)
Definition lib_aggregates (qualname : string) : bool :=
  String.eqb qualname "dgl.nn.GraphConv" || String.eqb qualname "dgl.nn.SAGEConv".

(** Statements of a body, with the bodies of [with] blocks spliced in. *)
Fixpoint flatten (s : stmt) : list stmt :=
  match s with
  | LocalScope body => s :: flat_map flatten body
  | _ => [s]
  end.

Definition statements (c : class_def) : list stmt := flat_map flatten (forward c).

(** Calls of the aggregation primitive [update_all] written in the body. *)
Definition direct_aggregations (c : class_def) : nat :=
  length (List.filter (fun s => match s with UpdateAll _ _ => true | _ => false end)
            (statements c)).

(** Aggregations one call of the submodule [attr] performs: one for a
    library layer that aggregates, none for another library layer, and for a
    class of the notebook the ones its own forward writes. *)
Definition layer_aggregations (before : list class_def) (c : class_def) (attr : string) : nat :=
  match List.find (fun p => String.eqb (fst p) attr) (init c) with
  | Some (_, Lib q) => if lib_aggregates q then 1 else 0
  | Some (_, Own n) =>
      match resolve before (notebook c) n with
      | Some c' => direct_aggregations c'
      | None => 0
      end
  | None => 0
  end.

Definition calls_of (c : class_def) (attr : string) : nat :=
  length (List.filter (fun s => match s with
                              | SubmoduleCall a => String.eqb a attr
                              | _ => false
                              end) (statements c)).

(** Functions written by the notebooks that are handed to [update_all] or
    [apply_edges]. *)
Definition user_functions (c : class_def) : list string :=
  flat_map (fun s => match s with
                     | UpdateAll m r =>
                         match m with UserFn n => [n] | _ => [] end ++
                         match r with UserFn n => [n] | _ => [] end
                     | ApplyEdges f => match f with UserFn n => [n] | _ => [] end
                     | _ => []
                     end) (statements c).

(** A two-layer module: two submodules, each called once in [forward], each
    call performing one aggregation of the library. *)
Definition two_layer (before : list class_def) (c : class_def) : bool :=
  (length (init c) =? 2) &&
  forallb (fun p => (calls_of c (fst p) =? 1) &&
                    (layer_aggregations before c (fst p) =? 1)) (init c) &&
  (direct_aggregations c =? 0).

(** A single convolution: one linear submodule and one [update_all]. *)
Definition single_conv (c : class_def) : bool :=
  (length (init c) =? 1) &&
  forallb (fun p => match snd p with
                    | Lib q => String.eqb q "torch.nn.Linear"
                    | Own _ => false
                    end && (calls_of c (fst p) =? 1)) (init c) &&
  (direct_aggregations c =? 1).

(** [classes] with, for each class, the declarations that precede it. *)
Definition with_context : list (list class_def * class_def) :=
  imap (fun i c => (take i classes, c)) classes.

End Inventory.

(** ** Mean aggregation *)




(** ** Sample inputs *)

Module Sample.

(** A block with three source and two destination nodes; destination 0
    hears from sources 0 and 1, destination 1 from source 2. *)
Definition block : DGL.graph :=
  DGL.Graph (DGL.MFG 3 2 [(0, 0); (1, 0); (2, 1)]) (DGL.Frames ∅ ∅ ∅).

Definition block_src : tensor := Tensor 1 [[1%Q]; [3%Q]; [5%Q]].
Definition block_dst : tensor := Tensor 1 [[1%Q]; [3%Q]].

(** Sums its two inputs. *)
Definition add2 : Linear := MkLinear 2 1 [[1%Q; 1%Q]] [0%Q].

(** A directed triangle with one stored node feature. *)
Definition triangle : DGL.graph :=
  DGL.Graph (DGL.Homogeneous 3 [(0, 1); (1, 2); (2, 0)])
    (DGL.Frames {[ "feat" := Tensor 1 [[7%Q]; [8%Q]; [9%Q]] ]} ∅ ∅).

Definition triangle_h : tensor := Tensor 1 [[1%Q]; [2%Q]; [3%Q]].

(** A two-node graph for [train]: node 0 is the training and validation
    node, with label 1; node 1 is the test node, with label 0. *)
Definition two_nodes : NodeClassification.cora :=
  NodeClassification.Cora (DGL.Homogeneous 2 [(0, 1); (1, 0)])
    (Tensor 1 [[1%Q]; [2%Q]]) [1; 0]
    [true; false] [true; false] [false; true].

(** Minibatches for the link prediction loop: two stacked blocks over the
    same three nodes, and the triangle as positive and negative graph. *)
Definition mfg : DGL.graph :=
  DGL.Graph (DGL.MFG 3 3 [(0, 1); (1, 2); (2, 0)])
    (DGL.Frames {[ "feat" := Tensor 1 [[7%Q]; [8%Q]; [9%Q]] ]} ∅ ∅).

Definition ebatch : edge_batch := EdgeBatch triangle triangle [mfg; mfg].
Definition nbatch : node_batch := NodeBatch [mfg; mfg].

Definition globals : LinkPrediction.globals :=
  LinkPrediction.Globals (Tensor 1 [[7%Q]; [8%Q]; [9%Q]]) [1; 0; 0] 2 [0] [0] [1; 2].

(** A library with canned answers.  Its world counts the losses computed
    so far.  Layers and classifiers answer every input row with [out]; a
    loss is 0, or the number of losses computed before it when [drift] is
    set; the data loaders yield [steps] copies of the sample minibatch;
    [opt.step] runs its closure once. *)
Definition canned_call (out : row) (drift : bool) (steps : nat) (o : op)
    : nat -> result (reply o) * nat :=
  match o return nat -> result (reply o) * nat with
  | NewOptimizer _ => fun w => (Ok tt, w)
  | GraphConv _ _ x => fun w => (Ok (Tensor (length out) (map (fun _ => out) (rows x))), w)
  | DglSAGEConv _ _ _ h_dst => fun w => (Ok (Tensor (length out) (map (fun _ => out) (rows h_dst))), w)
  | CrossEntropy _ _ =>
      fun w => (Ok (if drift then inject_Z (Z.of_nat w) else 0%Q), S w)
  | BCEWithLogits _ _ => fun w => (Ok 0%Q, w)
  | ZeroGrad _ => fun w => (Ok tt, w)
  | Backward _ => fun w => (Ok tt, w)
  | OptStep _ => fun w => (Ok tt, w)
  | Print _ => fun w => (Ok tt, w)
  | SetPostfix _ => fun w => (Ok tt, w)
  | NewLinear _ _ => fun w => (Ok tt, w)
  | Classifier x => fun w => (Ok (Tensor (length out) (map (fun _ => out) (rows x))), w)
  | EdgeDataLoaderIter => fun w => (Ok (replicate steps ebatch), w)
  | NodeDataLoaderIter => fun w => (Ok [nbatch], w)
  | ModelEval => fun w => (Ok tt, w)
  | ModelTrain => fun w => (Ok tt, w)
  | StateDict => fun w => (Ok [("conv1.weight", Tensor 1 [[1%Q]])], w)
  | TorchSave _ _ => fun w => (Ok tt, w)
  end.

Definition canned_step (closure : nat -> result Q * nat) (w : nat) : result unit * nat :=
  match closure w with
  | (Ok _, w') => (Ok tt, w')
  | (Raise e, w') => (Raise e, w')
  end.

Definition canned (out : row) (drift : bool) (steps : nat) : library nat :=
  Library nat (canned_call out drift steps) canned_step.

(** A library in which the first graph convolution fails. *)
Definition failing : library nat :=
  Library nat
    (fun o => match o return nat -> result (reply o) * nat with
              | GraphConv _ _ _ => fun w => (Raise DGLError, w)
              | o' => canned_call [1%Q; 0%Q] false 0 o'
              end)
    canned_step.

End Sample.

(** ** Frame conditions *)

(** A computation that leaves the structure of the graph alone. *)
Definition keeps_topology {A} (m : DGL.M A) : Prop :=
  forall g, DGL.topo (snd (m g)) = DGL.topo g.

(** What a forward pass may do to its graph: on return the graph object is
    what it was, feature dictionaries included; when it raises, the
    structure at least is what it was. *)
Definition frame_ok {A} (m : DGL.M A) (g : DGL.graph) : Prop :=
  match m g with
  | (Ok _, g') => g' = g
  | (Raise _, g') => DGL.topo g' = DGL.topo g
  end.

(** ** Reading an event log *)

(** The exception an event carries, if it records a failure. *)
Definition failure_of (ev : event) : option exn :=
  match ev with
  | EvCall _ (Raise e) => Some e
  | EvStep (Raise e) => Some e
  | EvThrow e => Some e
  | _ => None
  end.

Definition failures (log : list event) : list exn := omap failure_of log.

(** An outcome in which nothing was intercepted: a normal return has seen
    no failure; an exception at the caller is the one carried by the last
    event, which is the only failure of the run. *)
Definition propagates {A W} (out : result A * W * list event) : Prop :=
  match out with
  | (Ok _, _, log) => failures log = []
  | (Raise e, _, log) =>
      exists log0 ev,
        log = log0 ++ [ev] /\ failure_of ev = Some e /\ failures log0 = []
  end.

Definition is_print (ev : event) : bool :=
  match ev with
  | EvCall (Print _) _ => true
  | _ => false
  end.

Definition without_prints (log : list event) : list event :=
  List.filter (fun ev => negb (is_print ev)) log.

(** ** One epoch of [train] on the GCN *)

(** The library calls of one epoch, given what the two convolutions and the
    loss returned: the loss is taken on the rows and labels that
    [train_mask] selects, then come [zero_grad], [backward] and [step]. *)
Definition epoch_trace (g : NodeClassification.cora) (r : tensor * tensor * Q) : list event :=
  let '(h1, logits, loss) := r in
  [ EvCall (GraphConv "conv1" (NodeClassification.structure g) (NodeClassification.feat g)) (Ok h1);
    EvCall (GraphConv "conv2" (NodeClassification.structure g) (relu h1)) (Ok logits);
    EvCall (CrossEntropy
              (Tensor (ncols logits) (select (rows logits) (NodeClassification.train_mask g)))
              (select (NodeClassification.label g) (NodeClassification.train_mask g)))
           (Ok loss);
    EvCall (ZeroGrad Adam) (Ok tt);
    EvCall (Backward loss) (Ok tt);
    EvCall (OptStep Adam) (Ok tt) ].

(** Validation and test accuracy of the predictions read off [logits]. *)
Definition accs_of (g : NodeClassification.cora) (logits : tensor) : result (scalar * scalar) :=
  rbind (argmax1 IndexError logits) (fun pred =>
  rbind (NodeClassification.masked_acc pred (NodeClassification.label g)
           (NodeClassification.val_mask g)) (fun v =>
  rbind (NodeClassification.masked_acc pred (NodeClassification.label g)
           (NodeClassification.test_mask g)) (fun t =>
  Ok (v, t)))).

Definition update_best (st : NodeClassification.locals) (a : scalar * scalar)
    : NodeClassification.locals :=
  if scalar_ltb (NodeClassification.best_val_acc st) (fst a)
  then NodeClassification.Locals (fst a) (snd a)
  else st.

(** ** Best-so-far bookkeeping *)

(** [a < b] between numbers; nothing is below or above a NaN. *)
Definition slt (a b : scalar) : Prop :=
  match a, b with
  | Fin x, Fin y => (x < y)%Q
  | _, _ => False
  end.

Definition is_fin (a : scalar) : Prop :=
  match a with Fin _ => True | NaN => False end.

(** What [train] holds after the epochs whose (validation, test) accuracies
    are [accs]: either no validation accuracy exceeded 0 and both variables
    still hold their initial 0, or they hold the accuracies of the first
    epoch whose validation accuracy is maximal. *)
Definition best_so_far (accs : list (scalar * scalar)) (st : NodeClassification.locals) : Prop :=
  (st = NodeClassification.Locals (Fin 0) (Fin 0) /\
   forall a, In a accs -> ~ slt (Fin 0) (fst a))
  \/
  (exists i v t,
     accs !! i = Some (v, t) /\
     st = NodeClassification.Locals v t /\
     slt (Fin 0) v /\
     (forall j a, j < i -> accs !! j = Some a -> slt (fst a) v) /\
     (forall a, In a accs -> ~ slt v (fst a))).

(** The same without the initial 0: the variables hold the accuracies of
    the first epoch whose validation accuracy is maximal. *)
Definition first_maximum (accs : list (scalar * scalar)) (st : NodeClassification.locals) : Prop :=
  exists i v t,
    accs !! i = Some (v, t) /\
    st = NodeClassification.Locals v t /\
    (forall j a, j < i -> accs !! j = Some a -> slt (fst a) v) /\
    (forall a, In a accs -> ~ slt v (fst a)).

(** ** Programs that catch nothing *)

(** [catch_free p]: neither [p] nor a closure it hands to the optimizer
    contains a [try]. *)
Fixpoint catch_free {A : Type} (p : prog A) : Prop :=
  match p with
  | Ret _ | Throw _ => True
  | Call _ k => forall r, catch_free (k r)
  | StepWith closure k => catch_free closure /\ forall u, catch_free (k u)
  | TryExcept _ _ _ => False
  end.

(** ** Calls a program never makes *)

(** [avoids P p]: no call that [p] itself makes satisfies [P]. *)
Fixpoint avoids {A : Type} (P : op -> bool) (p : prog A) : Prop :=
  match p with
  | Ret _ | Throw _ => True
  | Call o k => P o = false /\ forall r, avoids P (k r)
  | StepWith _ k => forall u, avoids P (k u)
  | TryExcept body handler k =>
      avoids P body /\ (forall e, avoids P (handler e)) /\ forall b, avoids P (k b)
  end.

Definition log_avoids (P : op -> bool) (log : list event) : Prop :=
  Forall (fun ev => match ev with EvCall o _ => P o = false | _ => True end) log.

Definition is_eval_print (o : op) : bool :=
  match o with Print (MsgEval _ _ _) => true | _ => false end.

Definition is_save (o : op) : bool :=
  match o with TorchSave _ _ => true | _ => false end.

Definition is_new_linear (o : op) : bool :=
  match o with NewLinear _ _ => true | _ => false end.

(** Reports of an evaluation and writes of a checkpoint. *)
Definition loud (o : op) : bool := is_eval_print o || is_save o.

(** ** The optimisation loop of [evaluate] *)

(** One iteration that ran to its convergence test: [opt.step(closure)],
    then the loss recomputed on the training rows [x] with labels [y]. *)
Definition iter_trace (x : tensor) (y : list nat) (it : tensor * Q) : list event :=
  [ EvStep (Ok tt);
    EvCall (Classifier x) (Ok (fst it));
    EvCall (CrossEntropy (fst it) y) (Ok (snd it)) ].

(** The loss of iteration [k] and the one it is compared with. *)
Definition loss_pair (prev : option Q) (losses : list Q) (k : nat) : option (Q * option Q) :=
  match losses !! k with
  | Some l => Some (l, match k with 0 => prev | S k' => losses !! k' end)
  | None => None
  end.

(** The loop left after [length losses] iterations: no iteration before
    the last met the convergence test; the last met it when the loop
    stopped early, and otherwise all [n] iterations were used. *)
Definition early_stop (prev : option Q) (losses : list Q) (n : nat) (stopped : bool) : Prop :=
  length losses <= n /\
  (forall k l p, S k < length losses -> loss_pair prev losses k = Some (l, p) ->
                 LinkPrediction.converged l p = false) /\
  (if stopped
   then exists l p, loss_pair prev losses (length losses - 1) = Some (l, p) /\
                    LinkPrediction.converged l p = true
   else length losses = n /\
        forall l p, loss_pair prev losses (length losses - 1) = Some (l, p) ->
                    LinkPrediction.converged l p = false).

(** The fraction of the nodes [nids] whose predicted class, the first
    maximal entry of their row of [pred], is their label. *)
Definition probe_accuracy (pred : tensor) (label nids : list nat) : scalar :=
  mean_eq (map (fun i => default 0 (label !! i)) nids)
          (map (fun i => argmax (default [] (rows pred !! i))) nids).

(** What [evaluate] hands to [opt.step], in terms of the training rows [x]
    and the training labels [y]: the predictions for [x], their loss against
    [y], and a backward pass of that loss. *)
Definition training_closure (x : tensor) (y : list nat) : prog Q :=
  (let* pred := call (Classifier x) in
   let* loss := call (CrossEntropy pred y) in
   call (ZeroGrad LBFGS) ;;
   call (Backward loss) ;;
   Ret loss)%prog.

(** One iteration of the probe from world [w] to world [w']: the optimizer
    steps with that closure, then the classifier is applied to [x] and the
    loss against [y] is taken; [it] holds what these two calls returned. *)
Definition probe_iteration {W : Type} (L : library W) (x : tensor) (y : list nat)
    (w : W) (it : tensor * Q) (w' : W) : Prop :=
  exists w1 w2,
    lib_step L (fun w0 => fst (run L (training_closure x y) w0)) w = (Ok tt, w1) /\
    lib_call L (Classifier x) w1 = (Ok (fst it), w2) /\
    lib_call L (CrossEntropy (fst it) y) w2 = (Ok (snd it), w').

Fixpoint probe_iterations {W : Type} (L : library W) (x : tensor) (y : list nat)
    (w : W) (its : list (tensor * Q)) (w' : W) : Prop :=
  match its with
  | [] => w' = w
  | it :: its' =>
      exists w1, probe_iteration L x y w it w1 /\ probe_iterations L x y w1 its' w'
  end.

(** ** Reading evaluations and checkpoints off a log *)

(** Whether a checkpoint is written before the next evaluation report. *)
Fixpoint saved_next (log : list event) : bool :=
  match log with
  | [] => false
  | EvCall o _ :: rest =>
      if is_save o then true
      else if is_eval_print o then false
      else saved_next rest
  | _ :: rest => saved_next rest
  end.

(** The validation accuracies reported, in order, each with whether a
    checkpoint was written in response. *)
Fixpoint evaluations (log : list event) : list (scalar * bool) :=
  match log with
  | [] => []
  | EvCall (Print (MsgEval _ v _)) _ :: rest => (v, saved_next rest) :: evaluations rest
  | _ :: rest => evaluations rest
  end.

(** The files written: path and content of each [torch.save]. *)
Fixpoint file_writes (log : list event) : list (string * state_dict) :=
  match log with
  | [] => []
  | EvCall (TorchSave sd path) _ :: rest => (path, sd) :: file_writes rest
  | _ :: rest => file_writes rest
  end.

(** What [model.state_dict()] returned. *)
Fixpoint state_dicts (log : list event) : list state_dict :=
  match log with
  | [] => []
  | EvCall StateDict (Ok sd) :: rest => sd :: state_dicts rest
  | _ :: rest => state_dicts rest
  end.

(** The bookkeeping of the training loop replayed on the reported
    accuracies: each one with the outcome of [best_accuracy < valid_acc]. *)
Fixpoint annotate (best : scalar) (vs : list scalar) : list (scalar * bool) :=
  match vs with
  | [] => []
  | v :: vs' =>
      (v, scalar_ltb best v) :: annotate (if scalar_ltb best v then v else best) vs'
  end.

Fixpoint running_best (best : scalar) (vs : list scalar) : scalar :=
  match vs with
  | [] => best
  | v :: vs' => running_best (if scalar_ltb best v then v else best) vs'
  end.

(** Every file written is the checkpoint, and holds a value that
    [model.state_dict()] returned. *)
Definition only_checkpoints (log : list event) : Prop :=
  Forall (fun f => fst f = LinkPrediction.best_model_path /\ In (snd f) (state_dicts log))
         (file_writes log).

(** A checkpoint follows a report exactly when the reported accuracy
    exceeds [floor] and every accuracy reported before it. *)
Definition saved_on_strict_improvement (floor : scalar) (evs : list (scalar * bool)) : Prop :=
  forall i v s,
    evs !! i = Some (v, s) ->
    s = true <->
    (slt floor v /\ forall j a, j < i -> evs !! j = Some a -> slt (fst a) v).

(** The same without a floor. *)
Definition saved_on_new_maximum (evs : list (scalar * bool)) : Prop :=
  forall i v s,
    evs !! i = Some (v, s) ->
    s = true <-> (forall j a, j < i -> evs !! j = Some a -> slt (fst a) v).


(** ** Control that depends on data *)

Definition returns {A W : Type} (out : result A * W * list event) : Prop :=
  exists a, fst (fst out) = Ok a.

(** The number of library calls a program makes before it returns is the
    same whatever the library answers. *)
Definition data_independent {A : Type} (p : prog A) : Prop :=
  forall (W : Type) (L1 L2 : library W) (w1 w2 : W),
    returns (run L1 p w1) -> returns (run L2 p w2) ->
    length (snd (run L1 p w1)) = length (snd (run L2 p w2)).

(** What the second convolution of the model returned, call by call. *)
Fixpoint model_outputs (log : list event) : list tensor :=
  match log with
  | [] => []
  | EvCall (DglSAGEConv layer _ _ _) (Ok t) :: rest =>
      if String.eqb layer "conv2" then t :: model_outputs rest else model_outputs rest
  | _ :: rest => model_outputs rest
  end.

(** ** The two-layer model of the message passing notebook *)

Module L4Model.
Import DGL.

(** [class Model], built from two of the notebook's own [SAGEConv]. *)
Record Model : Type := { conv1 : L4.Stochastic.SAGEConv; conv2 : L4.Stochastic.SAGEConv }.

(** [Model.forward(mfgs, x)] on a list of distinct graph objects; the list is
    returned with what the two convolutions left in its elements. *)
Definition forward (self : Model) (x : tensor) (mfgs : list graph)
    : result tensor * list graph :=
  match mfgs !! 0 with
  | None => (Raise IndexError, mfgs)
  | Some mfg0 =>
      let h_dst := take_rows (num_dst_nodes (topo mfg0)) x in
      match L4.Stochastic.forward (conv1 self) (x, h_dst) mfg0 with
      | (Raise e, mfg0') => (Raise e, <[0 := mfg0']> mfgs)
      | (Ok h, mfg0') =>
          let mfgs := <[0 := mfg0']> mfgs in
          let h := relu h in
          match mfgs !! 1 with
          | None => (Raise IndexError, mfgs)
          | Some mfg1 =>
              let h_dst := take_rows (num_dst_nodes (topo mfg1)) h in
              let '(r, mfg1') := L4.Stochastic.forward (conv2 self) (h, h_dst) mfg1 in
              (r, <[1 := mfg1']> mfgs)
          end
      end
  end.

End L4Model.

(** The score of every edge: the dot product of the rows of its two ends. *)
Definition edge_scores (h : tensor) (es : list (nat * nat)) : list Q :=
  map (fun e => dot (default [] (rows h !! fst e)) (default [] (rows h !! snd e))) es.

(** ** Counting on a log *)

(** The number of [opt.step(closure)] a run made. *)
Definition optimizer_steps (log : list event) : nat :=
  length (List.filter (fun ev => match ev with EvStep _ => true | _ => false end) log).

Definition is_classifier (o : op) : bool :=
  match o with Classifier _ => true | _ => false end.




(** The steps of the training loop after which an evaluation is due. *)
Definition evaluation_due (sb : nat * edge_batch) : bool := (fst sb + 1) mod 500 =? 0.

(** ** More sample inputs *)

Module Sample2.

(** A second block, whose two source nodes are the destination nodes of
    [Sample.block]. *)
Definition block2 : DGL.graph :=
  DGL.Graph (DGL.MFG 2 1 [(0, 0); (1, 0)]) (DGL.Frames ∅ ∅ ∅).

Definition model : L4Model.Model :=
  {| L4Model.conv1 := {| L4.Stochastic.linear_ := Sample.add2 |};
     L4Model.conv2 := {| L4.Stochastic.linear_ := Sample.add2 |} |}.

(** A model that tries its two convolutions a second time when they fail. *)
Definition retrying (g : DGL.topology) (x : tensor) : prog tensor :=
  TryExcept (NodeClassification.GCN_forward g x)
    (fun _ => NodeClassification.GCN_forward g x) Ret.


End Sample2.

(** * Properties *)

Section Aggregation.
Variable x : list row.

Lemma scatter_step_length acc e :
  length (DGL.scatter_step x acc e) = length acc.
Proof.
  unfold DGL.scatter_step.
  destruct (x !! e.1); [|done].
  destruct (acc !! e.2); [|done].
  by rewrite length_insert.
Qed.

End Aggregation.




(** ** The stochastic SAGEConv *)

Example sageconv_block :
  fst (L4.Stochastic.forward {| L4.Stochastic.linear_ := Sample.add2 |}
         (Sample.block_src, Sample.block_dst) Sample.block)
  = Ok (Tensor 1 [[(6 # 2)%Q]; [8%Q]]).
Proof. vm_compute. reflexivity. Qed.




(** ** Full-graph SAGEConv and SAGEConvForBoth *)

Example sageconv_full_triangle :
  fst (L4.FullGraph.forward {| L4.FullGraph.linear_ := Sample.add2 |}
         Sample.triangle_h Sample.triangle)
  = Ok (Tensor 1 [[4%Q]; [3%Q]; [5%Q]]).
Proof. vm_compute. reflexivity. Qed.

(** On a block the two modules fail at different statements. *)
Example forboth_differs_on_block :
  fst (L4.ForBoth.forward {| L4.ForBoth.linear_ := Sample.add2 |}
         (L4.Single Sample.block_src) Sample.block) = Raise TypeError /\
  fst (L4.FullGraph.forward {| L4.FullGraph.linear_ := Sample.add2 |}
         Sample.block_src Sample.block) = Raise AssertionError.
Proof. split; vm_compute; reflexivity. Qed.

(** C4. On a homogeneous graph and a single input tensor, SAGEConvForBoth
    and the full-graph SAGEConv with the same linear layer compute the same
    output (and leave the graph in the same state). *)
Theorem C4_forboth_refines_full
    (both : L4.ForBoth.SAGEConvForBoth) (full : L4.FullGraph.SAGEConv)
    (g : DGL.graph) (h : tensor) :
  L4.ForBoth.linear_ both = L4.FullGraph.linear_ full ->
  DGL.is_block (DGL.topo g) = false ->
  L4.ForBoth.forward both (L4.Single h) g = L4.FullGraph.forward full h g.
Proof.
  intros Hlin Hhomo.
  unfold L4.ForBoth.forward, L4.FullGraph.forward, DGL.local_scope, DGL.bind.
  unfold DGL.set_ndata. rewrite Hhomo, Hlin. reflexivity.
Qed.

Lemma C4_forboth_refines_full_witness :
  L4.ForBoth.forward {| L4.ForBoth.linear_ := Sample.add2 |}
    (L4.Single Sample.triangle_h) Sample.triangle =
  L4.FullGraph.forward {| L4.FullGraph.linear_ := Sample.add2 |}
    Sample.triangle_h Sample.triangle.
Proof.
  apply (C4_forboth_refines_full {| L4.ForBoth.linear_ := Sample.add2 |}
           {| L4.FullGraph.linear_ := Sample.add2 |}
           Sample.triangle Sample.triangle_h); reflexivity.
Defined.

(** ** Feature writes stay inside the local scope *)

Create HintDb topo discriminated.

Lemma keeps_ret {A} (a : A) : keeps_topology (DGL.ret a).
Proof. intros g. reflexivity. Qed.

Lemma keeps_lift {A} (r : result A) : keeps_topology (DGL.lift r).
Proof. intros g. reflexivity. Qed.

Lemma keeps_bind {A B} (m : DGL.M A) (k : A -> DGL.M B) :
  keeps_topology m -> (forall a, keeps_topology (k a)) -> keeps_topology (DGL.bind m k).
Proof.
  intros Hm Hk g. unfold DGL.bind. specialize (Hm g).
  destruct (m g) as [[a|e] g']; simpl in *; [|done].
  rewrite Hk. done.
Qed.

Lemma keeps_set_srcdata key t : keeps_topology (DGL.set_srcdata key t).
Proof. intros g. unfold DGL.set_srcdata. by case_match. Qed.

Lemma keeps_set_dstdata key t : keeps_topology (DGL.set_dstdata key t).
Proof. intros g. unfold DGL.set_dstdata. by case_match. Qed.

Lemma keeps_set_ndata key t : keeps_topology (DGL.set_ndata key t).
Proof.
  intros g. unfold DGL.set_ndata. case_match; [done|]. apply keeps_set_srcdata.
Qed.

Lemma keeps_get_dstdata key : keeps_topology (DGL.get_dstdata key).
Proof. intros g. unfold DGL.get_dstdata. by case_match. Qed.

Lemma keeps_get_ndata key : keeps_topology (DGL.get_ndata key).
Proof. intros g. unfold DGL.get_ndata. by repeat case_match. Qed.

Lemma keeps_get_edata key : keeps_topology (DGL.get_edata key).
Proof. intros g. unfold DGL.get_edata. by case_match. Qed.

Lemma keeps_update_all src out : keeps_topology (DGL.update_all_copy_u_mean src out).
Proof. intros g. unfold DGL.update_all_copy_u_mean. by repeat case_match. Qed.

Lemma keeps_apply_edges lhs rhs out :
  keeps_topology (DGL.apply_edges_u_dot_v lhs rhs out).
Proof. intros g. unfold DGL.apply_edges_u_dot_v. by repeat case_match. Qed.

#[local] Hint Resolve keeps_ret keeps_lift keeps_bind keeps_set_srcdata
  keeps_set_dstdata keeps_set_ndata keeps_get_dstdata keeps_get_ndata
  keeps_get_edata keeps_update_all keeps_apply_edges : topo.

Ltac keeps :=
  repeat (apply keeps_bind; [auto with topo | intros ?]); auto with topo.

(** Leaving a local scope normally puts the saved dictionaries back. *)
Lemma local_scope_frame {A} (body : DGL.M A) (g : DGL.graph) :
  keeps_topology body -> frame_ok (DGL.local_scope body) g.
Proof.
  intros Hbody. unfold frame_ok, DGL.local_scope. specialize (Hbody g).
  destruct (body g) as [[a|e] g']; simpl in *; [|done].
  rewrite Hbody. by destruct g.
Qed.

(** Without the scope the dot predictor would leave its features behind. *)
Example dot_predictor_body_writes :
  DGL.data (snd (DGL.bind (DGL.set_ndata "h" Sample.triangle_h)
                   (fun _ => DGL.apply_edges_u_dot_v "h" "h" "score") Sample.triangle))
  <> DGL.data Sample.triangle.
Proof. vm_compute. discriminate. Qed.

Example dot_predictor_triangle :
  DotPredictor.forward Sample.triangle_h Sample.triangle
  = (Ok [2%Q; 6%Q; 3%Q], Sample.triangle).
Proof. vm_compute. reflexivity. Qed.

Example sageconv_block_returns :
  snd (L4.Stochastic.forward {| L4.Stochastic.linear_ := Sample.add2 |}
         (Sample.block_src, Sample.block_dst) Sample.block) = Sample.block.
Proof. vm_compute. reflexivity. Qed.

(** The cells that work on a graph outside a scope do leave features
    behind. *)
Example cell_update_all_writes :
  DGL.dst_view (snd (L4.cell_update_all Sample.block_src Sample.block)) !! "h"
  = Some (Tensor 1 [[(4 # 2)%Q]; [5%Q]]).
Proof. vm_compute. reflexivity. Qed.

(** C5. Nothing the notebooks do to a graph touches its structure: the
    cells that assign features and pass messages, and the forward passes of
    DotPredictor and of the SAGEConv modules, only read and write the
    feature dictionaries.  When the forward pass of DotPredictor or of the
    stochastic SAGEConv returns, the node and edge feature dictionaries of
    the graph are what they were before the call: every write happened
    inside [g.local_scope()]. *)
Theorem C5_forward_keeps_graph
    (self : L4.Stochastic.SAGEConv) (full : L4.FullGraph.SAGEConv)
    (both : L4.ForBoth.SAGEConvForBoth)
    (g : DGL.graph) (h h_src h_dst : tensor) (hs : L4.feat) :
  (frame_ok (DotPredictor.forward h) g /\
   frame_ok (L4.Stochastic.forward self (h_src, h_dst)) g) /\
  (frame_ok (L4.FullGraph.forward full h) g /\
   frame_ok (L4.ForBoth.forward both hs) g) /\
  (keeps_topology L4.cell_assign /\ keeps_topology (L4.cell_update_all h)).
Proof.
  repeat split.
  - apply local_scope_frame. keeps.
  - apply local_scope_frame. keeps.
  - apply local_scope_frame. keeps.
  - apply local_scope_frame. destruct hs; keeps.
  - intros g0. unfold L4.cell_assign.
    match goal with |- context [DGL.bind ?m ?k] => apply (keeps_bind m k) end; keeps.
  - unfold L4.cell_update_all. keeps.
Qed.

(** ** Running programs *)

Section Run.
Context {W : Type} (L : library W).

Lemma run_pbind {A B} (p : prog A) (f : A -> prog B) (w : W) :
  run L (pbind p f) w =
  match run L p w with
  | (Ok a, w1, l1) => let '(r, w2, l2) := run L (f a) w1 in (r, w2, l1 ++ l2)
  | (Raise e, w1, l1) => (Raise e, w1, l1)
  end.
Proof.
  revert B f w.
  induction p as [A a|A e|A o k IH|A c _ k IH|A X body _ handler _ k IH]
    using prog_ind; intros B f w; simpl.
  - by destruct (run L (f a) w) as [[r w2] l2].
  - done.
  - destruct (lib_call L o w) as [[r|e] w1]; [|done].
    rewrite IH. destruct (run L (k r) w1) as [[[a|e] w2] l2]; [|done].
    by destruct (run L (f a) w2) as [[r' w3] l3].
  - destruct (lib_step L _ w) as [[u|e] w1]; [|done].
    rewrite IH. destruct (run L (k u) w1) as [[[a|e] w2] l2]; [|done].
    by destruct (run L (f a) w2) as [[r' w3] l3].
  - destruct (run L body w) as [[[x|e] w1] l1]; simpl.
    + rewrite IH. destruct (run L (k x) w1) as [[[a|e] w2] l2]; [|done].
      destruct (run L (f a) w2) as [[r' w3] l3]. by rewrite app_assoc.
    + destruct (run L (handler e) w1) as [[[x|e'] w2] l2]; simpl; [|done].
      rewrite IH. destruct (run L (k x) w2) as [[[a|e'] w3] l3]; [|done].
      destruct (run L (f a) w3) as [[r' w4] l4]. by rewrite app_assoc.
Qed.

Lemma run_pbind_ok {A B} (p : prog A) (f : A -> prog B) w b w2 log :
  run L (pbind p f) w = (Ok b, w2, log) ->
  exists a w1 l1 l2,
    run L p w = (Ok a, w1, l1) /\ run L (f a) w1 = (Ok b, w2, l2) /\ log = l1 ++ l2.
Proof.
  rewrite run_pbind. destruct (run L p w) as [[[a|e] w1] l1]; [|done].
  destruct (run L (f a) w1) as [[r w2'] l2] eqn:E. intros [= -> -> <-].
  by exists a, w1, l1, l2.
Qed.

Lemma run_call_ok (o : op) w (r : reply o) w' log :
  run L (call o) w = (Ok r, w', log) ->
  lib_call L o w = (Ok r, w') /\ log = [EvCall o (Ok r)].
Proof.
  unfold call. simpl. destruct (lib_call L o w) as [[r0|e] w1]; [|done].
  by intros [= -> -> <-].
Qed.

Lemma run_plift_ok {A} (r : result A) w (a : A) w' log :
  run L (plift r) w = (Ok a, w', log) -> r = Ok a /\ w' = w /\ log = [].
Proof. destruct r; simpl; [|done]. by intros [= -> -> <-]. Qed.

Lemma failures_app l1 l2 : failures (l1 ++ l2) = failures l1 ++ failures l2.
Proof. unfold failures. apply omap_app. Qed.

(** An outcome is known from its result. *)
Lemma outcome_eta {A} (out : result A * W * list event) (r : result A) :
  fst (fst out) = r -> out = (r, snd (fst out), snd out).
Proof. destruct out as [[r' w] l]. simpl. by intros ->. Defined.

(** A program without [try] intercepts no failure. *)
Lemma run_propagates {A} (p : prog A) (w : W) :
  catch_free p -> propagates (run L p w).
Proof.
  revert w.
  induction p as [A a|A e|A o k IH|A c _ k IH|A X body _ handler _ k _]
    using prog_ind; intros w Hfree; simpl in *; [| | | |done].
  - done.
  - by exists [], (EvThrow e).
  - destruct (lib_call L o w) as [[r|e] w1].
    + specialize (IH r w1 (Hfree r)).
      destruct (run L (k r) w1) as [[[a|e] w2] l2]; simpl in *.
      * done.
      * destruct IH as (log0 & ev & -> & Hev & Hnone).
        by exists (EvCall o (Ok r) :: log0), ev.
    + by exists [], (EvCall o (Raise e)).
  - destruct Hfree as [_ Hfree].
    destruct (lib_step L _ w) as [[u|e] w1].
    + specialize (IH u w1 (Hfree u)).
      destruct (run L (k u) w1) as [[[a|e] w2] l2]; simpl in *.
      * done.
      * destruct IH as (log0 & ev & -> & Hev & Hnone).
        by exists (EvStep (Ok u) :: log0), ev.
    + by exists [], (EvStep (Raise e)).
Qed.
End Run.

(** ** Programs without [try] *)

Lemma catch_free_pbind {A B} (p : prog A) (f : A -> prog B) :
  catch_free p -> (forall a, catch_free (f a)) -> catch_free (pbind p f).
Proof.
  intros Hp Hf.
  induction p as [A a|A e|A o k IH|A c _ k IH|A X body _ handler _ k _]
    using prog_ind; simpl in *.
  - apply Hf.
  - done.
  - intros r. by apply IH.
  - destruct Hp as [Hc Hk]. split; [done|]. intros u. by apply IH.
  - done.
Qed.

Lemma catch_free_call (o : op) : catch_free (call o).
Proof. by intros r. Qed.

Lemma catch_free_plift {A} (r : result A) : catch_free (plift r).
Proof. by destruct r. Qed.

Lemma catch_free_foldM {S X} (body : X -> S -> prog S) (xs : list X) (s : S) :
  (forall x s', catch_free (body x s')) -> catch_free (foldM body xs s).
Proof.
  intros Hbody. revert s. induction xs as [|x xs IH]; intros s; simpl; [done|].
  by apply catch_free_pbind.
Qed.

Ltac no_try :=
  repeat first
    [ apply catch_free_plift
    | apply catch_free_call
    | apply catch_free_pbind; [|intros ?]
    | apply catch_free_foldM; intros ? ?
    | exact I ].

Lemma catch_free_epoch model g e st :
  (forall s x, catch_free (model s x)) ->
  catch_free (NodeClassification.epoch model g e st).
Proof.
  intros Hmodel. unfold NodeClassification.epoch.
  apply catch_free_pbind; [apply Hmodel|intros logits].
  no_try. destruct (e mod 5 =? 0); no_try.
Qed.

Lemma catch_free_train model g :
  (forall s x, catch_free (model s x)) ->
  catch_free (NodeClassification.train g model).
Proof.
  intros Hmodel. unfold NodeClassification.train, NodeClassification.train_epochs.
  apply catch_free_pbind; [|by intros].
  apply catch_free_pbind; [apply catch_free_call|intros _].
  apply catch_free_foldM. intros e st. by apply catch_free_epoch.
Qed.

Lemma catch_free_Model_forward mfgs x : catch_free (LinkPrediction.Model_forward mfgs x).
Proof. unfold LinkPrediction.Model_forward. no_try. Qed.

Lemma catch_free_inference : catch_free LinkPrediction.inference.
Proof.
  unfold LinkPrediction.inference.
  apply catch_free_pbind; [apply catch_free_call|intros batches].
  apply catch_free_pbind; [|intros ?; apply catch_free_plift].
  apply catch_free_foldM. intros b acc.
  apply catch_free_pbind; [apply catch_free_plift|intros ?].
  apply catch_free_pbind; [apply catch_free_Model_forward|intros ?]. exact I.
Qed.

Lemma catch_free_compute_loss emb label tr :
  catch_free (LinkPrediction.compute_loss emb label tr).
Proof. unfold LinkPrediction.compute_loss. no_try. Qed.

Lemma catch_free_closure emb label tr : catch_free (LinkPrediction.closure emb label tr).
Proof.
  unfold LinkPrediction.closure.
  apply catch_free_pbind; [apply catch_free_compute_loss|intros loss]. no_try.
Qed.

Lemma catch_free_fit emb label tr n :
  forall i prev, catch_free (LinkPrediction.fit emb label tr n i prev).
Proof.
  induction n as [|n IH]; intros i prev; simpl; [done|].
  split; [apply catch_free_closure|intros _].
  apply catch_free_pbind; [apply catch_free_compute_loss|intros loss].
  destruct (LinkPrediction.converged loss prev); [apply catch_free_call|apply IH].
Qed.

Lemma catch_free_evaluate nc emb label tr va te :
  catch_free (LinkPrediction.evaluate nc emb label tr va te).
Proof.
  unfold LinkPrediction.evaluate.
  apply catch_free_pbind; [apply catch_free_call|intros _].
  apply catch_free_pbind; [apply catch_free_call|intros _].
  apply catch_free_pbind; [apply catch_free_fit|intros _].
  no_try.
Qed.

Lemma catch_free_training_step G epoch sb best :
  catch_free (LinkPrediction.training_step G epoch sb best).
Proof.
  destruct sb as [step b].
  unfold LinkPrediction.training_step, LinkPrediction.predictor.
  apply catch_free_pbind; [apply catch_free_plift|intros inputs].
  apply catch_free_pbind; [apply catch_free_Model_forward|intros outputs].
  no_try. destruct ((step + 1) mod 500 =? 0); [|exact I].
  apply catch_free_pbind; [apply catch_free_call|intros _].
  apply catch_free_pbind; [apply catch_free_inference|intros emb].
  apply catch_free_pbind; [apply catch_free_evaluate|intros [v t]].
  apply catch_free_pbind; [apply catch_free_call|intros _].
  apply catch_free_pbind; [|intros ?; no_try].
  destruct (scalar_ltb best v); [|exact I]. no_try.
Qed.

Lemma catch_free_training_loop G : catch_free (LinkPrediction.training_loop G).
Proof.
  unfold LinkPrediction.training_loop.
  apply catch_free_foldM. intros epoch best. unfold LinkPrediction.training_epoch.
  apply catch_free_pbind; [apply catch_free_call|intros tq].
  apply catch_free_foldM. intros sb best'. apply catch_free_training_step.
Qed.

(** A handler is what stands between a failure and the caller. *)
Example a_try_would_intercept :
  ~ propagates (run (Sample.canned [1%Q; 0%Q] false 0)
                  (TryExcept (Throw DGLError) (fun _ => Ret tt) Ret) 0).
Proof. simpl. discriminate. Qed.

(** With a model that retries, [train] raises after two failures. *)
Example train_with_retrying_model :
  ~ propagates (run Sample.failing
                  (NodeClassification.train Sample.two_nodes Sample2.retrying) 0).
Proof.
  vm_compute. intros (log0 & ev & Hlog & _ & Hnone).
  change (?a :: ?b :: [?c]) with ([a; b] ++ [c]) in Hlog.
  apply app_inj_tail in Hlog as [<- _]. discriminate Hnone.
Qed.

(** C8. Neither [train], given a model that catches nothing, nor the
    link-prediction training loop contains a [try]: they catch no
    exception, retry nothing and raise no exception in place of another.
    So in every run, whatever the library does, a return has met no
    failure, and a run that raises [e] stopped at its first failure, which
    is the last event of the run and carries that same [e]. *)
Theorem C8_failures_propagate {W : Type} (L : library W) (w : W)
    (g : NodeClassification.cora)
    (model : DGL.topology -> tensor -> prog tensor)
    (G : LinkPrediction.globals) :
  (forall s x, catch_free (model s x)) ->
  (catch_free (NodeClassification.train g model) /\
   propagates (run L (NodeClassification.train g model) w)) /\
  (catch_free (LinkPrediction.training_loop G) /\
   propagates (run L (LinkPrediction.training_loop G) w)).
Proof.
  intros Hmodel.
  pose proof (catch_free_train model g Hmodel) as Htrain.
  pose proof (catch_free_training_loop G) as Hloop.
  split; (split; [done|by apply run_propagates]).
Qed.

Lemma C8_failures_propagate_witness :
  (catch_free (NodeClassification.train Sample.two_nodes NodeClassification.GCN_forward) /\
   propagates (run Sample.failing
                 (NodeClassification.train Sample.two_nodes
                    NodeClassification.GCN_forward) 0)) /\
  (catch_free (LinkPrediction.training_loop Sample.globals) /\
   propagates (run Sample.failing (LinkPrediction.training_loop Sample.globals) 0)).
Proof.
  apply (C8_failures_propagate Sample.failing 0 Sample.two_nodes
           NodeClassification.GCN_forward Sample.globals).
  intros s x. simpl. intros r r0. exact I.
Defined.

(** ** The epochs of [train] *)

Lemma mask_select_ok {A} (xs : list A) mask r :
  mask_select xs mask = Ok r -> r = select xs mask.
Proof. unfold mask_select. case_match; [|done]. by intros [= <-]. Qed.

Lemma mask_rows_ok t mask r :
  mask_rows t mask = Ok r -> r = Tensor (ncols t) (select (rows t) mask).
Proof.
  unfold mask_rows. destruct (mask_select (rows t) mask) as [rs|e] eqn:E; [|done].
  apply mask_select_ok in E as ->. by intros [= <-].
Qed.

Ltac run_step H :=
  match type of H with
  | context [lib_call ?L ?o ?w] =>
      let E := fresh "Ecall" in
      destruct (lib_call L o w) as [[?|?] ?] eqn:E;
      cbn [run pbind call plift] in H; try discriminate H
  | context [plift ?r] =>
      let E := fresh "Epure" in
      destruct r eqn:E; cbn [run pbind call plift] in H; try discriminate H
  end.

Section Train.
Context {W : Type} (L : library W) (g : NodeClassification.cora).

Lemma epoch_ok (e : nat) st w st' w' log :
  run L (NodeClassification.epoch NodeClassification.GCN_forward g e st) w
    = (Ok st', w', log) ->
  exists h1 logits loss a,
    without_prints log = epoch_trace g (h1, logits, loss) /\
    accs_of g logits = Ok a /\
    st' = update_best st a.
Proof.
  unfold NodeClassification.epoch, NodeClassification.GCN_forward.
  cbn [run pbind call plift]. intros H.
  repeat run_step H.
  destruct (e mod 5 =? 0); cbn [run pbind call plift] in H; repeat run_step H.
  all: injection H as <- <- <-.
  all: repeat match goal with u : reply _ |- _ => progress cbn in u end.
  all: repeat match goal with u : unit |- _ => destruct u end.
  all: apply mask_rows_ok in Epure0 as ->; apply mask_select_ok in Epure1 as ->.
  all: eexists _, _, _, (_, _); split; [reflexivity|].
  all: split; [|reflexivity].
  all: unfold accs_of; rewrite Epure; cbn [rbind]; rewrite Epure3; cbn [rbind].
  all: rewrite Epure4; reflexivity.
Qed.
End Train.

Lemma without_prints_app l1 l2 :
  without_prints (l1 ++ l2) = without_prints l1 ++ without_prints l2.
Proof. unfold without_prints. apply List.filter_app. Qed.

Section Epochs.
Context {W : Type} (L : library W) (g : NodeClassification.cora).

Lemma epochs_ok (es : list nat) :
  forall st w st' w' log,
    run L (foldM (NodeClassification.epoch NodeClassification.GCN_forward g) es st) w
      = (Ok st', w', log) ->
    exists rs accs,
      length rs = length es /\
      without_prints log = flat_map (epoch_trace g) rs /\
      Forall2 (fun r a => accs_of g (snd (fst r)) = Ok a) rs accs /\
      st' = fold_left update_best accs st.
Proof.
  induction es as [|e es IH]; intros st w st' w' log H.
  - simpl in H. injection H as <- <- <-. by exists [], [].
  - cbn [foldM] in H.
    apply run_pbind_ok in H as (st1 & w1 & l1 & l2 & H1 & H2 & ->).
    apply epoch_ok in H1 as (h1 & logits & loss & a & Hlog & Ha & ->).
    apply IH in H2 as (rs & accs & Hlen & Hlog' & Haccs & ->).
    exists ((h1, logits, loss) :: rs), (a :: accs).
    split; [simpl; lia|]. split.
    + rewrite without_prints_app, Hlog, Hlog'. reflexivity.
    + split; [by constructor|reflexivity].
Qed.

Lemma train_epochs_ok (n : nat) w st' w' log :
  run L (NodeClassification.train_epochs n g NodeClassification.GCN_forward) w
    = (Ok st', w', log) ->
  exists rs accs,
    length rs = n /\
    without_prints log =
      EvCall (NewOptimizer Adam) (Ok tt) :: flat_map (epoch_trace g) rs /\
    Forall2 (fun r a => accs_of g (snd (fst r)) = Ok a) rs accs /\
    st' = fold_left update_best accs
            (NodeClassification.Locals (Fin 0) (Fin 0)).
Proof.
  unfold NodeClassification.train_epochs. intros H.
  apply run_pbind_ok in H as (u & w1 & l1 & l2 & H1 & H2 & ->).
  apply run_call_ok in H1 as [_ ->]. destruct u.
  apply epochs_ok in H2 as (rs & accs & Hlen & Hlog & Haccs & ->).
  exists rs, accs. rewrite length_seq in Hlen.
  split; [done|]. split; [|done].
  rewrite without_prints_app, Hlog. reflexivity.
Qed.
End Epochs.

Example train_two_nodes_returns :
  fst (fst (run (Sample.canned [1%Q; 0%Q] false 0)
              (NodeClassification.train Sample.two_nodes NodeClassification.GCN_forward) 0))
  = Ok tt.
Proof. vm_compute. reflexivity. Qed.

Example train_failure_reaches_caller :
  run Sample.failing
    (NodeClassification.train Sample.two_nodes NodeClassification.GCN_forward) 0
  = (Raise DGLError, 0,
     [ EvCall (NewOptimizer Adam) (Ok tt);
       EvCall (GraphConv "conv1" (DGL.Homogeneous 2 [(0, 1); (1, 0)])
                 (Tensor 1 [[1%Q]; [2%Q]])) (Raise DGLError) ]).
Proof. vm_compute. reflexivity. Qed.

(** C7. A run of [train(g, model)] on the GCN that returns went through
    exactly 100 epochs, and in each of them, once and in this order: the two
    graph convolutions, the cross-entropy loss on the rows of the logits and
    the labels that [train_mask] selects, [optimizer.zero_grad()],
    [loss.backward()] on that loss, and [optimizer.step()].  Apart from the
    progress lines printed, a run makes no other library call after creating
    the optimizer. *)
Theorem C7_train_epochs_in_order {W : Type} (L : library W)
    (g : NodeClassification.cora) (w w' : W) (log : list event) :
  run L (NodeClassification.train g NodeClassification.GCN_forward) w = (Ok tt, w', log) ->
  exists rs : list (tensor * tensor * Q),
    length rs = 100 /\
    without_prints log =
      EvCall (NewOptimizer Adam) (Ok tt) :: flat_map (epoch_trace g) rs.
Proof.
  unfold NodeClassification.train. intros H.
  apply run_pbind_ok in H as (st & w1 & l1 & l2 & H1 & H2 & ->).
  simpl in H2. injection H2 as <- <-.
  apply train_epochs_ok in H1 as (rs & accs & Hlen & Hlog & _ & _).
  exists rs. rewrite app_nil_r. done.
Qed.

Lemma C7_train_epochs_in_order_witness :
  exists rs : list (tensor * tensor * Q),
    length rs = 100 /\
    without_prints
      (snd (run (Sample.canned [1%Q; 0%Q] false 0)
              (NodeClassification.train Sample.two_nodes NodeClassification.GCN_forward) 0)) =
      EvCall (NewOptimizer Adam) (Ok tt) :: flat_map (epoch_trace Sample.two_nodes) rs.
Proof.
  apply (C7_train_epochs_in_order (Sample.canned [1%Q; 0%Q] false 0) Sample.two_nodes 0
           (snd (fst (run (Sample.canned [1%Q; 0%Q] false 0)
              (NodeClassification.train Sample.two_nodes NodeClassification.GCN_forward) 0)))).
  vm_compute. reflexivity.
Defined.

(** ** Best validation accuracy in [train] *)

Lemma Qltb_spec (x y : Q) : Qltb x y = true <-> (x < y)%Q.
Proof.
  unfold Qltb. rewrite negb_true_iff, <- not_true_iff_false, Qle_bool_iff.
  split; [apply Qnot_le_lt | apply Qlt_not_le].
Qed.

Lemma scalar_ltb_spec (a b : scalar) : scalar_ltb a b = true <-> slt a b.
Proof.
  destruct a as [|x], b as [|y]; simpl; try (split; [discriminate|tauto]).
  apply Qltb_spec.
Qed.

Lemma scalar_ltb_false (a b : scalar) : scalar_ltb a b = false <-> ~ slt a b.
Proof. rewrite <- scalar_ltb_spec. by destruct (scalar_ltb a b). Qed.

Lemma update_best_cases st a :
  (slt (NodeClassification.best_val_acc st) (fst a) /\
   update_best st a = NodeClassification.Locals (fst a) (snd a)) \/
  (~ slt (NodeClassification.best_val_acc st) (fst a) /\ update_best st a = st).
Proof.
  unfold update_best.
  destruct (scalar_ltb (NodeClassification.best_val_acc st) (fst a)) eqn:E.
  - left. by apply scalar_ltb_spec in E.
  - right. by apply scalar_ltb_false in E.
Qed.

Lemma update_best_nan accs st :
  Forall (fun a => fst a = NaN) accs -> fold_left update_best accs st = st.
Proof.
  intros H. revert st. induction H as [|[v t] accs Hv _ IH]; intros st; simpl; [done|].
  simpl in Hv. subst v. unfold update_best at 2. simpl.
  destruct (NodeClassification.best_val_acc st); apply IH.
Qed.

Lemma best_so_far_fin accs :
  Forall (fun a => is_fin (fst a)) accs ->
  best_so_far accs
    (fold_left update_best accs (NodeClassification.Locals (Fin 0) (Fin 0))).
Proof.
  induction accs as [|[v' t'] accs IH] using rev_ind; intros Hfin.
  - left. split; [done|]. intros a [].
  - apply Forall_app in Hfin as [Hfin Hv']. apply Forall_inv in Hv'. simpl in Hv'.
    destruct v' as [|q']; [done|].
    rewrite fold_left_app. simpl.
    assert (Hq : forall a, In a accs -> exists q, fst a = Fin q).
    { intros a Ha. rewrite List.Forall_forall in Hfin. specialize (Hfin a Ha).
      destruct (fst a) as [|q]; [done|]. by exists q. }
    destruct (IH Hfin) as [[-> Hlow]|(i & v & t & Hi & -> & Hpos & Hbefore & Hmax)];
      match goal with |- context [update_best ?st ?a] =>
        destruct (update_best_cases st a) as [[E ->]|[E ->]] end;
      cbn [fst snd NodeClassification.best_val_acc] in E.
    + right.
      exists (length accs), (Fin q'), t'. repeat split.
      * by rewrite list_lookup_middle.
      * done.
      * intros j a Hj Ha. rewrite lookup_app_l in Ha by done.
        apply list_elem_of_lookup_2, list_elem_of_In in Ha.
        destruct (Hq a Ha) as [q Hqa]. specialize (Hlow a Ha).
        rewrite Hqa in *. simpl in *. lra.
      * intros a Ha. apply in_app_or in Ha as [Ha|[<-|[]]]; simpl.
        -- destruct (Hq a Ha) as [q Hqa]. specialize (Hlow a Ha).
           rewrite Hqa in *. simpl in *. lra.
        -- lra.
    + left. split; [done|].
      intros a Ha. apply in_app_or in Ha as [Ha|[<-|[]]]; [by apply Hlow|done].
    + destruct v as [|q]; [done|]. right.
      exists (length accs), (Fin q'), t'. simpl in *. repeat split.
      * by rewrite list_lookup_middle.
      * lra.
      * intros j a Hj Ha. rewrite lookup_app_l in Ha by done.
        apply list_elem_of_lookup_2, list_elem_of_In in Ha.
        destruct (Hq a Ha) as [q0 Hqa]. specialize (Hmax a Ha).
        rewrite Hqa in *. simpl in *. lra.
      * intros a Ha. apply in_app_or in Ha as [Ha|[<-|[]]]; simpl.
        -- destruct (Hq a Ha) as [q0 Hqa]. specialize (Hmax a Ha).
           rewrite Hqa in *. simpl in *. lra.
        -- lra.
    + right.
      exists i, v, t. repeat split.
      * by apply lookup_app_l_Some.
      * done.
      * intros j a Hj Ha. apply (Hbefore j a Hj).
        rewrite lookup_app_l in Ha; [done|].
        apply lookup_lt_Some in Hi. lia.
      * intros a Ha. apply in_app_or in Ha as [Ha|[<-|[]]]; [by apply Hmax|done].
Qed.

Lemma select_nil {A} (xs : list A) (mask : list bool) :
  length xs = length mask -> select xs mask = [] <-> ~ In true mask.
Proof.
  revert mask. induction xs as [|x xs IH]; intros [|b mask] Hlen; simpl in *;
    try discriminate; [tauto|].
  injection Hlen as Hlen. specialize (IH mask Hlen).
  destruct b; split; try discriminate; try tauto.
  intros H [?|?]; [discriminate|tauto].
Qed.

Lemma mean_eq_fin (a b : list nat) : is_fin (mean_eq a b) <-> a <> [].
Proof. destruct a; simpl; split; try done. Qed.

Lemma masked_acc_fin pred labels mask v :
  NodeClassification.masked_acc pred labels mask = Ok v ->
  is_fin v <-> In true mask.
Proof.
  unfold NodeClassification.masked_acc, mask_select.
  destruct (length pred =? length mask) eqn:E1; [|done]. cbn [rbind].
  destruct (length labels =? length mask); [|done]. cbn [rbind].
  intros [= <-]. apply Nat.eqb_eq in E1.
  rewrite mean_eq_fin, (select_nil pred mask E1).
  destruct (in_dec bool_dec true mask); tauto.
Qed.

Lemma accs_of_fin g logits a :
  accs_of g logits = Ok a ->
  is_fin (fst a) <-> In true (NodeClassification.val_mask g).
Proof.
  unfold accs_of. destruct (argmax1 IndexError logits) as [pred|]; [|done]. cbn [rbind].
  destruct (NodeClassification.masked_acc pred _ (NodeClassification.val_mask g))
    as [v|] eqn:Ev; [|done]. cbn [rbind].
  destruct (NodeClassification.masked_acc pred _ (NodeClassification.test_mask g));
    [|done]. cbn [rbind].
  intros [= <-]. simpl. by apply masked_acc_fin in Ev.
Qed.

Lemma best_so_far_train (g : NodeClassification.cora)
    (rs : list (tensor * tensor * Q)) (accs : list (scalar * scalar)) :
  Forall2 (fun r a => accs_of g (snd (fst r)) = Ok a) rs accs ->
  best_so_far accs
    (fold_left update_best accs (NodeClassification.Locals (Fin 0) (Fin 0))).
Proof.
  intros H.
  destruct (in_dec bool_dec true (NodeClassification.val_mask g)) as [Hin|Hout].
  - apply best_so_far_fin.
    induction H as [|r a rs accs Ha _ IH]; constructor; [|done].
    by apply (accs_of_fin g _ a Ha).
  - assert (Hnan : Forall (fun a => fst a = NaN) accs).
    { induction H as [|r a rs accs Ha _ IH]; constructor; [|done].
      apply accs_of_fin in Ha. destruct (fst a); [done|]. simpl in Ha. tauto. }
    rewrite update_best_nan by done.
    left. split; [done|]. intros a Ha.
    rewrite List.Forall_forall in Hnan. rewrite (Hnan a Ha). simpl. tauto.
Qed.

(** ** Calls that are never made *)

Section Avoid.
Context {W : Type} (L : library W) (P : op -> bool).

Lemma avoids_pbind {A B} (p : prog A) (f : A -> prog B) :
  avoids P p -> (forall a, avoids P (f a)) -> avoids P (pbind p f).
Proof.
  intros Hp Hf.
  induction p as [A a|A e|A o k IH|A c _ k IH|A X body _ handler _ k IH]
    using prog_ind; simpl in *.
  - apply Hf.
  - done.
  - destruct Hp as [Ho Hk]. split; [done|]. intros r. by apply IH.
  - intros u. by apply IH.
  - destruct Hp as (Hb & Hh & Hk). split; [done|]. split; [done|].
    intros b. by apply IH.
Qed.

Lemma avoids_call (o : op) : P o = false -> avoids P (call o).
Proof. intros Ho. by split. Qed.

Lemma avoids_plift {A} (r : result A) : avoids P (plift r).
Proof. by destruct r. Qed.

Lemma avoids_foldM {S X} (body : X -> S -> prog S) (xs : list X) (s : S) :
  (forall x s', avoids P (body x s')) -> avoids P (foldM body xs s).
Proof.
  intros Hbody. revert s. induction xs as [|x xs IH]; intros s; simpl; [done|].
  by apply avoids_pbind.
Qed.

Lemma avoids_log {A} (p : prog A) (w : W) :
  avoids P p -> log_avoids P (snd (run L p w)).
Proof.
  revert w.
  induction p as [A a|A e|A o k IH|A c _ k IH|A X body IHb handler IHh k IH]
    using prog_ind; intros w Hp; simpl in *.
  - constructor.
  - by repeat constructor.
  - destruct Hp as [Ho Hk].
    destruct (lib_call L o w) as [[r|e] w1]; simpl.
    + specialize (IH r w1 (Hk r)).
      destruct (run L (k r) w1) as [[res w2] l2]. by constructor.
    + by repeat constructor.
  - destruct (lib_step L _ w) as [[u|e] w1]; simpl.
    + specialize (IH u w1 (Hp u)).
      destruct (run L (k u) w1) as [[res w2] l2]. by constructor.
    + by repeat constructor.
  - destruct Hp as (Hb & Hh & Hk).
    specialize (IHb w Hb).
    destruct (run L body w) as [[[x|e] w1] l1]; simpl in *.
    + specialize (IH x w1 (Hk x)).
      destruct (run L (k x) w1) as [[res w2] l2]. by apply Forall_app.
    + specialize (IHh e w1 (Hh e)).
      destruct (run L (handler e) w1) as [[[x|e'] w2] l2]; simpl in *.
      * specialize (IH x w2 (Hk x)).
        destruct (run L (k x) w2) as [[res w3] l3].
        apply Forall_app. split; [by apply Forall_app|done].
      * by apply Forall_app.
Qed.

Lemma avoids_run {A} (p : prog A) (w : W) res w' log :
  avoids P p -> run L p w = (res, w', log) -> log_avoids P log.
Proof. intros Hp Hrun. apply (avoids_log p w) in Hp. by rewrite Hrun in Hp. Qed.
End Avoid.

Ltac solve_avoids :=
  repeat first
    [ apply avoids_plift
    | apply avoids_call; reflexivity
    | apply avoids_pbind; [|intros ?]
    | apply avoids_foldM; intros ? ?
    | exact I ].

Lemma avoids_Model_forward P mfgs x :
  (forall l g a b, P (DglSAGEConv l g a b) = false) ->
  avoids P (LinkPrediction.Model_forward mfgs x).
Proof.
  intros HP. unfold LinkPrediction.Model_forward.
  repeat first [ apply avoids_plift | apply avoids_call; apply HP
               | apply avoids_pbind; [|intros ?] | exact I ].
Qed.

Lemma avoids_inference P :
  (forall l g a b, P (DglSAGEConv l g a b) = false) ->
  P NodeDataLoaderIter = false ->
  avoids P LinkPrediction.inference.
Proof.
  intros HP HN. unfold LinkPrediction.inference.
  apply avoids_pbind; [by apply avoids_call|intros batches].
  apply avoids_pbind; [|intros ?; apply avoids_plift].
  apply avoids_foldM. intros b acc.
  apply avoids_pbind; [apply avoids_plift|intros ?].
  apply avoids_pbind; [by apply avoids_Model_forward|intros ?]. exact I.
Qed.

Lemma avoids_compute_loss P emb label tr :
  (forall x, P (Classifier x) = false) ->
  (forall a b, P (CrossEntropy a b) = false) ->
  avoids P (LinkPrediction.compute_loss emb label tr).
Proof.
  intros H1 H2. unfold LinkPrediction.compute_loss.
  repeat first [ apply avoids_plift | apply avoids_call; first [apply H1|apply H2]
               | apply avoids_pbind; [|intros ?] ].
Qed.

Lemma avoids_fit P emb label tr n :
  (forall x, P (Classifier x) = false) ->
  (forall a b, P (CrossEntropy a b) = false) ->
  (forall i, P (Print (MsgConverges i)) = false) ->
  forall i prev, avoids P (LinkPrediction.fit emb label tr n i prev).
Proof.
  intros H1 H2 H3. induction n as [|n IH]; intros i prev; simpl; [done|].
  intros _. apply avoids_pbind; [by apply avoids_compute_loss|intros loss].
  destruct (LinkPrediction.converged loss prev); [|apply IH].
  apply avoids_call, H3.
Qed.

Lemma avoids_evaluate_loud nc emb label tr va te :
  avoids loud (LinkPrediction.evaluate nc emb label tr va te).
Proof.
  unfold LinkPrediction.evaluate.
  apply avoids_pbind; [by apply avoids_call|intros _].
  apply avoids_pbind; [by apply avoids_call|intros _].
  apply avoids_pbind; [by apply avoids_fit|intros _].
  solve_avoids.
Qed.

(** ** The optimisation loop of [evaluate] *)

Lemma loss_pair_cons prev loss losses k :
  loss_pair prev (loss :: losses) (S k) = loss_pair (Some loss) losses k.
Proof. unfold loss_pair. simpl. by destruct k. Qed.

Lemma early_stop_single_stop prev loss n :
  LinkPrediction.converged loss prev = true -> early_stop prev [loss] (S n) true.
Proof.
  intros Hc. split; [simpl; lia|]. split; [simpl; intros; lia|].
  by exists loss, prev.
Qed.

Lemma early_stop_single_end prev loss :
  LinkPrediction.converged loss prev = false -> early_stop prev [loss] 1 false.
Proof.
  intros Hc. split; [simpl; lia|]. split; [simpl; intros; lia|].
  split; [done|]. simpl. by intros l p [= <- <-].
Qed.

Lemma early_stop_cons prev loss losses n stopped :
  LinkPrediction.converged loss prev = false ->
  losses <> [] ->
  early_stop (Some loss) losses (S n) stopped ->
  early_stop prev (loss :: losses) (S (S n)) stopped.
Proof.
  intros Hc Hne (Hle & Hbefore & Hlast).
  assert (Hlen : 1 <= length losses) by (destruct losses; [done|simpl; lia]).
  split; [simpl; lia|]. split.
  - intros k l p Hk Hpair. destruct k as [|k].
    + unfold loss_pair in Hpair. simpl in Hpair. by injection Hpair as <- <-.
    + rewrite loss_pair_cons in Hpair. apply (Hbefore k); [|done].
      simpl in Hk. lia.
  - cbn [length].
    replace (S (length losses) - 1) with (S (length losses - 1)) by lia.
    rewrite loss_pair_cons.
    destruct stopped; [done|]. destruct Hlast as [Hn Hlast].
    split; [lia|done].
Qed.

Section Fit.
Context {W : Type} (L : library W).
Context (emb : tensor) (label tr : list nat).

Lemma compute_loss_ok w loss w' log :
  run L (LinkPrediction.compute_loss emb label tr) w = (Ok loss, w', log) ->
  exists x y pred,
    gather_rows emb tr = Ok x /\ gather label tr = Ok y /\
    log = [EvCall (Classifier x) (Ok pred); EvCall (CrossEntropy pred y) (Ok loss)].
Proof.
  unfold LinkPrediction.compute_loss. cbn [run pbind call plift]. intros H.
  repeat run_step H. injection H as <- <- <-.
  repeat match goal with u : reply _ |- _ => progress cbn in u end.
  by eexists _, _, _.
Qed.

Lemma fit_step n i prev w w' log :
  run L (LinkPrediction.fit emb label tr (S n) i prev) w = (Ok tt, w', log) ->
  exists x y pred loss w1 l2,
    gather_rows emb tr = Ok x /\ gather label tr = Ok y /\
    log = iter_trace x y (pred, loss) ++ l2 /\
    ((LinkPrediction.converged loss prev = true /\
      l2 = [EvCall (Print (MsgConverges i)) (Ok tt)]) \/
     (LinkPrediction.converged loss prev = false /\
      run L (LinkPrediction.fit emb label tr n (S i) (Some loss)) w1 = (Ok tt, w', l2))).
Proof.
  cbn [LinkPrediction.fit run]. intros H.
  destruct (lib_step L _ w) as [[[]|e] w0]; [|done].
  destruct (run L _ w0) as [[res w2] l] eqn:Hrest.
  injection H as -> -> <-.
  apply run_pbind_ok in Hrest as (loss & w1 & l1 & l2 & H1 & H2 & ->).
  apply compute_loss_ok in H1 as (x & y & pred & Hx & Hy & ->).
  exists x, y, pred, loss, w1, l2. repeat split; try done.
  destruct (LinkPrediction.converged loss prev); [left|right; done].
  split; [done|].
  apply (run_call_ok L (Print (MsgConverges i)) w1 tt) in H2 as [_ ->]. done.
Qed.

Lemma fit_ok n :
  forall i prev w w' log,
    run L (LinkPrediction.fit emb label tr (S n) i prev) w = (Ok tt, w', log) ->
    exists x y iters stopped,
      gather_rows emb tr = Ok x /\ gather label tr = Ok y /\ iters <> [] /\
      log = flat_map (iter_trace x y) iters ++
            (if stopped : bool
             then [EvCall (Print (MsgConverges (i + length iters - 1))) (Ok tt)]
             else []) /\
      early_stop prev (map snd iters) (S n) stopped.
Proof.
  induction n as [|n IH]; intros i prev w w' log H;
    apply fit_step in H
      as (x & y & pred & loss & w1 & l2 & Hx & Hy & -> & [[Hc ->]|[Hc H]]).
  - exists x, y, [(pred, loss)], true.
    split; [done|]. split; [done|]. split; [done|]. split.
    + simpl. by replace (i + 1 - 1) with i by lia.
    + by apply early_stop_single_stop.
  - simpl in H. injection H as <- <-.
    exists x, y, [(pred, loss)], false.
    split; [done|]. split; [done|]. split; [done|]. split; [done|].
    by apply early_stop_single_end.
  - exists x, y, [(pred, loss)], true.
    split; [done|]. split; [done|]. split; [done|]. split.
    + simpl. by replace (i + 1 - 1) with i by lia.
    + by apply early_stop_single_stop.
  - apply IH in H as (x' & y' & iters & stopped & Hx' & Hy' & Hne & -> & Hstop).
    rewrite Hx in Hx'. rewrite Hy in Hy'. injection Hx' as <-. injection Hy' as <-.
    assert (Hlen : 1 <= length iters) by (destruct iters; [done|simpl; lia]).
    exists x, y, ((pred, loss) :: iters), stopped.
    split; [done|]. split; [done|]. split; [done|]. split.
    + cbn [flat_map]. rewrite <- app_assoc. do 2 f_equal.
      destruct stopped; [|done].
      by replace (i + length ((pred, loss) :: iters) - 1)
           with (S i + length iters - 1) by (simpl; lia).
    + cbn [map snd]. apply early_stop_cons; [done| |done].
      by destruct iters.
Qed.
End Fit.

(** ** [evaluate] *)

Lemma gather_ok {A} (d : A) (xs : list A) (idx : list nat) (r : list A) :
  gather xs idx = Ok r -> r = map (fun i => default d (xs !! i)) idx.
Proof.
  revert r. induction idx as [|i idx IH]; intros r; simpl.
  - by intros [= <-].
  - destruct (xs !! i) as [x|]; [|done].
    destruct (gather xs idx) as [r'|]; [|done]. simpl.
    intros [= <-]. by rewrite (IH r').
Qed.

Lemma accuracy_on_ok pred label nids s :
  LinkPrediction.accuracy_on pred label nids = Ok s ->
  s = probe_accuracy pred label nids.
Proof.
  unfold LinkPrediction.accuracy_on, gather_rows, argmax1, accuracy_score.
  destruct (gather label nids) as [y_true|] eqn:E1; [|done]. cbn [rbind].
  destruct (gather (rows pred) nids) as [rs|] eqn:E2; [|done]. cbn [rbind ncols rows].
  destruct (ncols pred =? 0); [done|]. cbn [rbind].
  destruct (length y_true =? length (map argmax rs)); [|done].
  intros [= <-]. unfold probe_accuracy.
  rewrite (gather_ok 0 _ _ _ E1), (gather_ok [] _ _ _ E2).
  by rewrite map_map.
Qed.

Lemma probe_accuracy_fin pred label nids :
  is_fin (probe_accuracy pred label nids) <-> nids <> [].
Proof. unfold probe_accuracy. rewrite mean_eq_fin. by destruct nids. Qed.

Section Evaluate.
Context {W : Type} (L : library W).

Lemma evaluate_ok nc emb label tr va te w acc w' log :
  run L (LinkPrediction.evaluate nc emb label tr va te) w = (Ok acc, w', log) ->
  exists x y iters stopped pred,
    gather_rows emb tr = Ok x /\ gather label tr = Ok y /\ iters <> [] /\
    early_stop None (map snd iters) 1000 stopped /\
    log = EvCall (NewLinear (ncols emb) nc) (Ok tt)
          :: EvCall (NewOptimizer LBFGS) (Ok tt)
          :: flat_map (iter_trace x y) iters
          ++ (if stopped : bool
              then [EvCall (Print (MsgConverges (length iters - 1))) (Ok tt)]
              else [])
          ++ [EvCall (Classifier emb) (Ok pred)] /\
    acc = (probe_accuracy pred label va, probe_accuracy pred label te).
Proof.
  unfold LinkPrediction.evaluate. intros H.
  apply run_pbind_ok in H as (u1 & w1 & l1 & l2 & H1 & H & ->).
  apply run_call_ok in H1 as [_ ->].
  apply run_pbind_ok in H as (u2 & w2 & l2' & l3 & H2 & H & ->).
  apply run_call_ok in H2 as [_ ->].
  apply run_pbind_ok in H as (u3 & w3 & lfit & l4 & H3 & H & ->).
  destruct u1, u2, u3.
  apply fit_ok in H3 as (x & y & iters & stopped & Hx & Hy & Hne & -> & Hstop).
  cbn [run pbind call plift] in H.
  destruct (lib_call L (Classifier emb) w3) as [[pred|e] w4]; [|done].
  cbn [run pbind call plift] in H.
  repeat run_step H. injection H as <- <- <-.
  exists x, y, iters, stopped, pred.
  split; [done|]. split; [done|]. split; [done|]. split; [done|]. split.
  - cbn [app]. rewrite <- app_assoc. reflexivity.
  - f_equal; by apply accuracy_on_ok.
Qed.
End Evaluate.

Lemma log_avoids_app P l1 l2 :
  log_avoids P l1 -> log_avoids P l2 -> log_avoids P (l1 ++ l2).
Proof. intros H1 H2. by apply Forall_app. Qed.

Lemma log_avoids_flat_map {X} P (f : X -> list event) (xs : list X) :
  (forall x, log_avoids P (f x)) -> log_avoids P (flat_map f xs).
Proof.
  intros Hf. induction xs as [|x xs IH]; simpl; [constructor|].
  apply Forall_app. split; [apply Hf|apply IH].
Qed.

Example evaluate_sample :
  fst (fst (run (Sample.canned [1%Q; 0%Q] false 0)
              (LinkPrediction.evaluate 2 (Tensor 1 [[7%Q]; [8%Q]; [9%Q]])
                 [1; 0; 0] [0] [0] [1; 2]) 0))
  = Ok (Fin 0, Fin (2 # 2)).
Proof. vm_compute. reflexivity. Qed.

(** *** The probe, world by world *)

Lemma fit_S emb label tr n i prev :
  LinkPrediction.fit emb label tr (S n) i prev
  = StepWith (LinkPrediction.closure emb label tr) (fun _ =>
      pbind (LinkPrediction.compute_loss emb label tr) (fun loss =>
      if LinkPrediction.converged loss prev
      then call (Print (MsgConverges i))
      else LinkPrediction.fit emb label tr n (S i) (Some loss))).
Proof. reflexivity. Qed.

Lemma closure_training_rows emb label tr x y :
  gather_rows emb tr = Ok x -> gather label tr = Ok y ->
  LinkPrediction.closure emb label tr = training_closure x y.
Proof.
  intros Hx Hy. unfold LinkPrediction.closure, LinkPrediction.compute_loss.
  rewrite Hx, Hy. reflexivity.
Qed.

Section Probe.
Context {W : Type} (L : library W).
Context (emb : tensor) (label tr : list nat) (x : tensor) (y : list nat).
Hypothesis Hx : gather_rows emb tr = Ok x.
Hypothesis Hy : gather label tr = Ok y.

Lemma compute_loss_worlds w loss w' log :
  run L (LinkPrediction.compute_loss emb label tr) w = (Ok loss, w', log) ->
  exists pred w1,
    lib_call L (Classifier x) w = (Ok pred, w1) /\
    lib_call L (CrossEntropy pred y) w1 = (Ok loss, w') /\
    log = [EvCall (Classifier x) (Ok pred); EvCall (CrossEntropy pred y) (Ok loss)].
Proof.
  unfold LinkPrediction.compute_loss. rewrite Hx, Hy.
  cbn [run pbind call plift]. intros H.
  destruct (lib_call L (Classifier x) w) as [[pred|e] w1] eqn:E1; [|done].
  cbn [run pbind call plift] in H.
  destruct (lib_call L (CrossEntropy pred y) w1) as [[l|e] w2] eqn:E2; [|done].
  injection H as <- <- <-. by exists pred, w1.
Qed.

Lemma fit_step_worlds n i prev w w' log :
  run L (LinkPrediction.fit emb label tr (S n) i prev) w = (Ok tt, w', log) ->
  exists it w1 l2,
    probe_iteration L x y w it w1 /\
    log = iter_trace x y it ++ l2 /\
    ((LinkPrediction.converged (snd it) prev = true /\
      lib_call L (Print (MsgConverges i)) w1 = (Ok tt, w') /\
      l2 = [EvCall (Print (MsgConverges i)) (Ok tt)]) \/
     (LinkPrediction.converged (snd it) prev = false /\
      run L (LinkPrediction.fit emb label tr n (S i) (Some (snd it))) w1 = (Ok tt, w', l2))).
Proof.
  rewrite fit_S. cbn [run]. rewrite (closure_training_rows _ _ _ _ _ Hx Hy). intros H.
  destruct (lib_step L _ w) as [[[]|e] w0] eqn:Estep; [|done].
  destruct (run L _ w0) as [[res w2] l] eqn:Hrest.
  injection H as -> -> <-.
  apply run_pbind_ok in Hrest as (loss & w1 & l1 & l2 & H1 & H2 & ->).
  apply compute_loss_worlds in H1 as (pred & w3 & Ec & El & ->).
  exists (pred, loss), w1, l2. split; [by exists w0, w3|]. split; [done|].
  cbn [snd]. destruct (LinkPrediction.converged loss prev); [left|right; done].
  split; [done|].
  apply (run_call_ok L (Print (MsgConverges i)) w1 tt) in H2 as [H2 ->]. done.
Qed.

Lemma fit_worlds n :
  forall i prev w w' log,
    run L (LinkPrediction.fit emb label tr (S n) i prev) w = (Ok tt, w', log) ->
    exists iters stopped w3,
      iters <> [] /\
      probe_iterations L x y w iters w3 /\
      early_stop prev (map snd iters) (S n) stopped /\
      (if stopped : bool
       then lib_call L (Print (MsgConverges (i + length iters - 1))) w3 = (Ok tt, w')
       else w' = w3) /\
      log = flat_map (iter_trace x y) iters ++
            (if stopped
             then [EvCall (Print (MsgConverges (i + length iters - 1))) (Ok tt)]
             else []).
Proof.
  induction n as [|n IH]; intros i prev w w' log H;
    apply fit_step_worlds in H
      as (it & w1 & l2 & Hit & -> & [(Hc & Hprint & ->)|[Hc H]]).
  - exists [it], true, w1. split; [done|]. split; [by exists w1|].
    destruct it as [pred loss]. split; [by apply early_stop_single_stop|].
    cbn [length]. replace (i + 1 - 1) with i by lia. by split.
  - simpl in H. injection H as <- <-.
    exists [it], false, w1. split; [done|]. split; [by exists w1|].
    destruct it as [pred loss]. split; [by apply early_stop_single_end|]. by split.
  - exists [it], true, w1. split; [done|]. split; [by exists w1|].
    destruct it as [pred loss]. split; [by apply early_stop_single_stop|].
    cbn [length]. replace (i + 1 - 1) with i by lia. by split.
  - apply IH in H as (iters & stopped & w3 & Hne & Hits & Hstop & Hend & ->).
    assert (Hlen : 1 <= length iters) by (destruct iters; [done|simpl; lia]).
    exists (it :: iters), stopped, w3. split; [done|]. split; [by exists w1|].
    destruct it as [pred loss]. split.
    { cbn [map snd]. apply early_stop_cons; [done| |done]. by destruct iters. }
    replace (i + length ((pred, loss) :: iters) - 1)
      with (S i + length iters - 1) by (simpl; lia).
    split; [done|]. cbn [flat_map]. by rewrite <- app_assoc.
Qed.
End Probe.

(** C6. A call of [evaluate] that returns has created one linear classifier
    and one optimizer; it has then trained the classifier in iterations that
    touch [emb] and [label] through the rows [x = emb[train_nids]] and the
    labels [y = label[train_nids]] only: in each, the optimizer steps with a
    closure that takes the loss of the classifier on [x] against [y] and
    back-propagates it, and the loss on [x] against [y] is read again for
    the convergence test.  Its last library call asks the classifier for
    its predictions on all of [emb], and the pair it returns is the
    accuracy of the argmax of those predictions on [valid_nids] and on
    [test_nids]. *)
Theorem C6_evaluate_linear_probe {W : Type} (L : library W)
    (nc : nat) (emb : tensor) (label tr va te : list nat)
    (w w' : W) (acc : scalar * scalar) (log : list event) :
  run L (LinkPrediction.evaluate nc emb label tr va te) w = (Ok acc, w', log) ->
  exists x y iters stopped pred w1 w2 w3 w4,
    gather_rows emb tr = Ok x /\ gather label tr = Ok y /\
    lib_call L (NewLinear (ncols emb) nc) w = (Ok tt, w1) /\
    lib_call L (NewOptimizer LBFGS) w1 = (Ok tt, w2) /\
    iters <> [] /\
    probe_iterations L x y w2 iters w3 /\
    early_stop None (map snd iters) 1000 stopped /\
    (if stopped : bool
     then lib_call L (Print (MsgConverges (length iters - 1))) w3 = (Ok tt, w4)
     else w4 = w3) /\
    lib_call L (Classifier emb) w4 = (Ok pred, w') /\
    log = EvCall (NewLinear (ncols emb) nc) (Ok tt)
          :: EvCall (NewOptimizer LBFGS) (Ok tt)
          :: flat_map (iter_trace x y) iters
          ++ (if stopped
              then [EvCall (Print (MsgConverges (length iters - 1))) (Ok tt)]
              else [])
          ++ [EvCall (Classifier emb) (Ok pred)] /\
    log_avoids is_new_linear (tl log) /\
    acc = (probe_accuracy pred label va, probe_accuracy pred label te).
Proof.
  intros H.
  pose proof (evaluate_ok L _ _ _ _ _ _ _ _ _ _ H)
    as (x & y & _ & _ & _ & Hx & Hy & _).
  unfold LinkPrediction.evaluate in H.
  apply run_pbind_ok in H as (u1 & w1 & l1 & l2 & H1 & H & ->).
  apply run_call_ok in H1 as [H1 ->].
  apply run_pbind_ok in H as (u2 & w2 & l2' & l3 & H2 & H & ->).
  apply run_call_ok in H2 as [H2 ->].
  apply run_pbind_ok in H as (u3 & w3' & lfit & l4 & H3 & H & ->).
  cbn in u1, u2. destruct u1, u2, u3.
  apply (fit_worlds L emb label tr x y Hx Hy) in H3
    as (iters & stopped & w3 & Hne & Hits & Hstop & Hend & ->).
  cbn [run pbind call plift] in H.
  destruct (lib_call L (Classifier emb) w3') as [[pred|e] w5] eqn:Ecls; [|done].
  cbn [run pbind call plift] in H.
  repeat run_step H. injection H as <- <- <-.
  exists x, y, iters, stopped, pred, w1, w2, w3, w3'.
  split; [done|]. split; [done|]. split; [done|]. split; [done|].
  split; [done|]. split; [done|]. split; [done|].
  split; [destruct stopped; [exact Hend|done]|].
  split; [done|]. split; [|split].
  - cbn [app]. by rewrite <- app_assoc.
  - cbn [app tl]. constructor; [done|]. apply Forall_app. split.
    + apply Forall_app. split.
      * apply log_avoids_flat_map. intros it. by repeat constructor.
      * destruct stopped; by repeat constructor.
    + by repeat constructor.
  - f_equal; by apply accuracy_on_ok.
Qed.

Lemma C6_evaluate_linear_probe_witness :
  exists x y iters stopped pred w1 w2 w3 w4,
    gather_rows (Tensor 1 [[7%Q]; [8%Q]; [9%Q]]) [0] = Ok x /\
    gather [1; 0; 0] [0] = Ok y /\
    lib_call (Sample.canned [1%Q; 0%Q] false 0) (NewLinear 1 2) 0 = (Ok tt, w1) /\
    lib_call (Sample.canned [1%Q; 0%Q] false 0) (NewOptimizer LBFGS) w1 = (Ok tt, w2) /\
    iters <> [] /\
    probe_iterations (Sample.canned [1%Q; 0%Q] false 0) x y w2 iters w3 /\
    early_stop None (map snd iters) 1000 stopped /\
    (if stopped : bool
     then lib_call (Sample.canned [1%Q; 0%Q] false 0)
            (Print (MsgConverges (length iters - 1))) w3 = (Ok tt, w4)
     else w4 = w3) /\
    lib_call (Sample.canned [1%Q; 0%Q] false 0)
      (Classifier (Tensor 1 [[7%Q]; [8%Q]; [9%Q]])) w4
    = (Ok pred,
       snd (fst (run (Sample.canned [1%Q; 0%Q] false 0)
                   (LinkPrediction.evaluate 2 (Tensor 1 [[7%Q]; [8%Q]; [9%Q]])
                      [1; 0; 0] [0] [0] [1; 2]) 0))) /\
    snd (run (Sample.canned [1%Q; 0%Q] false 0)
           (LinkPrediction.evaluate 2 (Tensor 1 [[7%Q]; [8%Q]; [9%Q]])
              [1; 0; 0] [0] [0] [1; 2]) 0)
    = EvCall (NewLinear 1 2) (Ok tt)
      :: EvCall (NewOptimizer LBFGS) (Ok tt)
      :: flat_map (iter_trace x y) iters
      ++ (if stopped
          then [EvCall (Print (MsgConverges (length iters - 1))) (Ok tt)]
          else [])
      ++ [EvCall (Classifier (Tensor 1 [[7%Q]; [8%Q]; [9%Q]])) (Ok pred)] /\
    log_avoids is_new_linear
      (tl (snd (run (Sample.canned [1%Q; 0%Q] false 0)
                  (LinkPrediction.evaluate 2 (Tensor 1 [[7%Q]; [8%Q]; [9%Q]])
                     [1; 0; 0] [0] [0] [1; 2]) 0))) /\
    (Fin 0, Fin (2 # 2)) =
      (probe_accuracy pred [1; 0; 0] [0], probe_accuracy pred [1; 0; 0] [1; 2]).
Proof.
  apply (C6_evaluate_linear_probe (Sample.canned [1%Q; 0%Q] false 0)
           2 (Tensor 1 [[7%Q]; [8%Q]; [9%Q]]) [1; 0; 0] [0] [0] [1; 2] 0
           (snd (fst (run (Sample.canned [1%Q; 0%Q] false 0)
                        (LinkPrediction.evaluate 2 (Tensor 1 [[7%Q]; [8%Q]; [9%Q]])
                           [1; 0; 0] [0] [0] [1; 2]) 0)))).
  apply outcome_eta. vm_compute. reflexivity.
Defined.

(** ** The link-prediction training loop *)

Tactic Notation "peel" hyp(H) "as" ident(a) ident(w) ident(l) ident(H1) :=
  let l2 := fresh "rest" in
  apply run_pbind_ok in H as (a & w & l & l2 & H1 & H & ->).

Section Loop.
Context {W : Type} (L : library W) (G : LinkPrediction.globals).

Lemma training_step_ok epoch step b best w best' w' log :
  run L (LinkPrediction.training_step G epoch (step, b) best) w = (Ok best', w', log) ->
  (log_avoids loud log /\ best' = best /\ (step + 1) mod 500 <> 0) \/
  (exists pre v t tail,
     (step + 1) mod 500 = 0 /\
     log = pre ++ EvCall (Print (MsgEval epoch v t)) (Ok tt) :: tail /\
     log_avoids loud pre /\
     (is_fin v <-> LinkPrediction.valid_nids G <> []) /\
     ((scalar_ltb best v = false /\ best' = best /\
       tail = [EvCall ModelTrain (Ok tt)]) \/
      (scalar_ltb best v = true /\ best' = v /\
       exists sd, tail = [ EvCall StateDict (Ok sd);
                           EvCall (TorchSave sd LinkPrediction.best_model_path) (Ok tt);
                           EvCall ModelTrain (Ok tt) ]))).
Proof.
  unfold LinkPrediction.training_step. intros H.
  peel H as inputs w1 l1 H1. peel H as outputs w2 l2 H2.
  peel H as pos w3 l3 H3. peel H as neg w4 l4 H4.
  peel H as loss w5 l5 H5. peel H as u6 w6 l6 H6.
  peel H as u7 w7 l7 H7. peel H as u8 w8 l8 H8. peel H as u9 w9 l9 H9.
  assert (Hhead : log_avoids loud (l1 ++ l2 ++ l3 ++ l4 ++ l5 ++ l6 ++ l7 ++ l8 ++ l9)).
  { repeat apply log_avoids_app;
      match goal with
      | Hr : run L ?p _ = (_, _, ?l) |- log_avoids loud ?l =>
          apply (avoids_run L loud p _ _ _ _) in Hr; [exact Hr|]
      end;
      first [ apply avoids_plift | by apply avoids_call
            | by apply avoids_Model_forward
            | unfold LinkPrediction.predictor; apply avoids_plift ]. }
  destruct (Nat.eqb_spec ((step + 1) mod 500) 0) as [Emod|Emod].
  - peel H as u10 w10 l10 H10. peel H as emb w11 l11 H11.
    peel H as accs w12 l12 H12. destruct accs as [v t].
    peel H as u13 w13 l13 H13. peel H as best1 w14 l14 H14.
    peel H as u15 w15 l15 H15.
    simpl in H. injection H as -> <- <-.
    apply run_call_ok in H13 as [_ ->]. apply run_call_ok in H15 as [_ ->].
    cbn in u13, u15. destruct u13, u15.
    assert (Hpre : log_avoids loud
                     ((l1 ++ l2 ++ l3 ++ l4 ++ l5 ++ l6 ++ l7 ++ l8 ++ l9)
                      ++ l10 ++ l11 ++ l12)).
    { apply log_avoids_app; [exact Hhead|]. repeat apply log_avoids_app.
      - apply (avoids_run L loud _ _ _ _ _) in H10; [done|by apply avoids_call].
      - apply (avoids_run L loud _ _ _ _ _) in H11; [done|by apply avoids_inference].
      - apply (avoids_run L loud _ _ _ _ _) in H12; [done|].
        apply avoids_evaluate_loud. }
    apply evaluate_ok in H12
      as (x & y & iters & stopped & pred & _ & _ & _ & _ & _ & [= -> ->]).
    right.
    exists ((l1 ++ l2 ++ l3 ++ l4 ++ l5 ++ l6 ++ l7 ++ l8 ++ l9) ++ l10 ++ l11 ++ l12),
      (probe_accuracy pred (LinkPrediction.node_labels G) (LinkPrediction.valid_nids G)),
      (probe_accuracy pred (LinkPrediction.node_labels G) (LinkPrediction.test_nids G)),
      (l14 ++ [EvCall ModelTrain (Ok tt)]).
    split; [done|].
    split; [by repeat rewrite <- app_assoc|].
    split; [done|]. split; [apply probe_accuracy_fin|].
    destruct (scalar_ltb best _) eqn:E.
    + right. peel H14 as sd w16 l16 H16. peel H14 as u17 w17 l17 H17.
      simpl in H14. injection H14 as -> <- <-.
      apply run_call_ok in H16 as [_ ->]. apply run_call_ok in H17 as [_ ->].
      cbn in u17. destruct u17.
      split; [done|]. split; [done|]. by exists sd.
    + left. simpl in H14. injection H14 as -> <- <-. done.
  - left. simpl in H. injection H as -> <- <-.
    split; [by rewrite app_nil_r|done].
Qed.
End Loop.

(** *** Reading a log piecewise *)

Ltac by_event ev :=
  destruct ev as [o r| |]; simpl; try done;
  destruct o as [| | | | | | | |m| | | | | | | | |]; simpl; try done;
  try (destruct m; simpl; try done).

Lemma saved_next_quiet l1 l2 :
  log_avoids loud l1 -> saved_next (l1 ++ l2) = saved_next l2.
Proof.
  induction 1 as [|ev l1 Hev _ IH]; [done|].
  revert Hev. by_event ev.
Qed.

Lemma evaluations_quiet l1 l2 :
  log_avoids loud l1 -> evaluations (l1 ++ l2) = evaluations l2.
Proof.
  induction 1 as [|ev l1 Hev _ IH]; [done|].
  revert Hev. by_event ev.
Qed.

Lemma file_writes_app l1 l2 :
  file_writes (l1 ++ l2) = file_writes l1 ++ file_writes l2.
Proof.
  induction l1 as [|ev l1 IH]; [done|].
  by_event ev. by rewrite IH.
Qed.

Lemma file_writes_quiet l : log_avoids is_save l -> file_writes l = [].
Proof.
  induction 1 as [|ev l Hev _ IH]; [done|].
  revert Hev. by_event ev.
Qed.

Lemma state_dicts_app l1 l2 :
  state_dicts (l1 ++ l2) = state_dicts l1 ++ state_dicts l2.
Proof.
  induction l1 as [|ev l1 IH]; [done|].
  by_event ev. destruct r; simpl; [by rewrite IH|done].
Qed.

Lemma log_avoids_weaken (P Q : op -> bool) l :
  (forall o, P o = false -> Q o = false) -> log_avoids P l -> log_avoids Q l.
Proof.
  intros HPQ H. eapply Forall_impl; [exact H|].
  intros [o r| |]; [apply HPQ|done|done].
Qed.

Lemma loud_not_save o : loud o = false -> is_save o = false.
Proof. unfold loud. by intros [_ ?]%orb_false_iff. Qed.

(** *** Replaying the bookkeeping *)

Lemma annotate_fin vs :
  Forall is_fin vs ->
  forall best, is_fin best -> saved_on_strict_improvement best (annotate best vs).
Proof.
  induction 1 as [|v0 vs Hv0 Hvs IH]; intros best Hbest i v s Hi; [done|].
  destruct i as [|i]; simpl in Hi.
  - injection Hi as <- <-. rewrite scalar_ltb_spec.
    split; [|tauto]. intros Hlt. split; [done|]. intros; lia.
  - assert (Hbest' : is_fin (if scalar_ltb best v0 then v0 else best))
      by (by destruct (scalar_ltb best v0)).
    rewrite (IH _ Hbest' i v s Hi).
    destruct best as [|qb]; [done|]. destruct v0 as [|q0]; [done|].
    cbn [annotate]. clear Hi Hbest'.
    destruct (scalar_ltb (Fin qb) (Fin q0)) eqn:E; pose proof E as E';
      [apply scalar_ltb_spec in E'|apply scalar_ltb_false in E'];
      simpl in E'; split.
    + intros [Hlt Hall]. destruct v as [|q]; [done|]. simpl in Hlt.
      split; [simpl; lra|]. intros [|j] a Hj Ha; simpl in Ha.
      * injection Ha as <-. simpl. lra.
      * apply (Hall j a); [lia|done].
    + intros [Hlt Hall]. split.
      * apply (Hall 0 (Fin q0, true)); [lia|done].
      * intros j a Hj Ha. apply (Hall (S j) a); [lia|done].
    + intros [Hlt Hall]. destruct v as [|q]; [done|]. simpl in Hlt.
      split; [done|]. intros [|j] a Hj Ha; simpl in Ha.
      * injection Ha as <-. simpl. lra.
      * apply (Hall j a); [lia|done].
    + intros [Hlt Hall]. split; [done|].
      intros j a Hj Ha. apply (Hall (S j) a); [lia|done].
Qed.

Lemma annotate_nan_entries vs :
  Forall (fun v => v = NaN) vs ->
  forall best i v s, annotate best vs !! i = Some (v, s) -> v = NaN /\ s = false.
Proof.
  induction 1 as [|v0 vs -> Hvs IH]; intros best i v s Hi; [done|].
  assert (E : scalar_ltb best NaN = false) by (by destruct best).
  simpl in Hi. rewrite E in Hi. destruct i as [|i]; simpl in Hi.
  - by injection Hi as <- <-.
  - by apply (IH best i).
Qed.

Lemma annotate_nan vs :
  Forall (fun v => v = NaN) vs ->
  forall best, saved_on_strict_improvement best (annotate best vs).
Proof.
  intros Hvs best i v s Hi.
  destruct (annotate_nan_entries vs Hvs best i v s Hi) as [-> ->].
  split; [done|]. intros [Hlt _]. by destruct best.
Qed.

Lemma annotate_uniform (P : Prop) vs best :
  Forall (fun v => is_fin v <-> P) vs ->
  is_fin best ->
  saved_on_strict_improvement best (annotate best vs).
Proof.
  intros Hvs Hbest.
  destruct vs as [|v0 vs]; [by intros i v s Hi|].
  destruct v0 as [|q0].
  - apply annotate_nan. eapply Forall_impl; [exact Hvs|]. simpl.
    intros [|q] Hq; [done|]. apply Forall_inv in Hvs. simpl in *. tauto.
  - apply annotate_fin; [|done]. eapply Forall_impl; [exact Hvs|]. simpl.
    intros v Hv. apply Forall_inv in Hvs. simpl in *. tauto.
Qed.

(** [best_accuracy] never decreases. *)
Lemma running_best_mono vs :
  forall best, running_best best vs = best \/ slt best (running_best best vs).
Proof.
  induction vs as [|v vs IH]; intros best; simpl; [by left|].
  destruct (scalar_ltb best v) eqn:E; [|apply IH].
  apply scalar_ltb_spec in E. right.
  destruct (IH v) as [->|Hlt]; [done|].
  destruct best, v as [|qv]; try done.
  destruct (running_best (Fin qv) vs); simpl in *; [done|lra].
Qed.

Lemma only_checkpoints_app l1 l2 :
  only_checkpoints l1 -> only_checkpoints l2 -> only_checkpoints (l1 ++ l2).
Proof.
  unfold only_checkpoints. intros H1 H2.
  rewrite file_writes_app, state_dicts_app. apply Forall_app. split.
  - eapply Forall_impl; [exact H1|]. intros f [? ?]. split; [done|].
    apply in_or_app. by left.
  - eapply Forall_impl; [exact H2|]. intros f [? ?]. split; [done|].
    apply in_or_app. by right.
Qed.

Lemma only_checkpoints_quiet l : log_avoids loud l -> only_checkpoints l.
Proof.
  intros H. unfold only_checkpoints. rewrite file_writes_quiet; [constructor|].
  eapply log_avoids_weaken; [apply loud_not_save|done].
Qed.

Section Steps.
Context {W : Type} (L : library W) (G : LinkPrediction.globals).

Lemma steps_ok epoch (steps : list (nat * edge_batch)) :
  forall best w best' w' log,
    run L (foldM (LinkPrediction.training_step G epoch) steps best) w
      = (Ok best', w', log) ->
    saved_next log = false /\
    only_checkpoints log /\
    exists vs,
      Forall (fun v => is_fin v <-> LinkPrediction.valid_nids G <> []) vs /\
      evaluations log = annotate best vs /\
      best' = running_best best vs.
Proof.
  induction steps as [|[step b] steps IH]; intros best w best' w' log H.
  - simpl in H. injection H as <- <- <-.
    split; [done|]. split; [constructor|]. by exists [].
  - cbn [foldM] in H. peel H as best1 w1 l1 H1.
    apply IH in H as (Hnext & Hfiles & vs & Hvs & Hevs & ->).
    apply training_step_ok in H1
      as [(Hquiet & -> & _)
         |(pre & v & t & tail & _ & -> & Hquiet & Hfin
           & [(E & -> & ->)|(E & -> & sd & ->)])].
    + split; [by rewrite saved_next_quiet|].
      split; [by apply only_checkpoints_app; [apply only_checkpoints_quiet|]|].
      exists vs. by rewrite evaluations_quiet.
    + rewrite <- app_assoc. cbn [app].
      split; [by rewrite saved_next_quiet|]. split.
      * apply only_checkpoints_app; [by apply only_checkpoints_quiet|].
        apply (only_checkpoints_app [_; _]); [constructor|done].
      * exists (v :: vs). split; [by constructor|].
        rewrite evaluations_quiet by done. simpl. by rewrite E, Hnext, Hevs.
    + rewrite <- app_assoc. cbn [app].
      split; [by rewrite saved_next_quiet|]. split.
      * apply only_checkpoints_app; [by apply only_checkpoints_quiet|].
        apply (only_checkpoints_app [_; _; _; _]); [|done].
        by repeat constructor.
      * exists (v :: vs). split; [by constructor|].
        rewrite evaluations_quiet by done. simpl. by rewrite E, Hevs.
Qed.

Lemma training_loop_ok w best' w' log :
  run L (LinkPrediction.training_loop G) w = (Ok best', w', log) ->
  only_checkpoints log /\
  exists vs,
    Forall (fun v => is_fin v <-> LinkPrediction.valid_nids G <> []) vs /\
    evaluations log = annotate (Fin 0) vs /\
    best' = running_best (Fin 0) vs.
Proof.
  unfold LinkPrediction.training_loop. cbn [seq foldM]. intros H.
  peel H as best1 w1 l1 H1. simpl in H. injection H as -> <- <-.
  unfold LinkPrediction.training_epoch in H1.
  peel H1 as tq w0 l0 H0. apply run_call_ok in H0 as [_ ->].
  apply steps_ok in H1 as (_ & Hfiles & vs & Hvs & Hevs & ->).
  rewrite app_nil_r. split.
  - apply (only_checkpoints_app [_]); [constructor|done].
  - by exists vs.
Qed.
End Steps.

Example loop_reports_without_saving :
  evaluations (snd (run (Sample.canned [1%Q; 0%Q] false 500)
                      (LinkPrediction.training_loop Sample.globals) 0))
  = [(Fin 0, false)].
Proof. vm_compute. reflexivity. Qed.

Example loop_saves_first_then_not :
  evaluations (snd (run (Sample.canned [0%Q; 1%Q] false 1000)
                      (LinkPrediction.training_loop Sample.globals) 0))
  = [(Fin 1, true); (Fin 1, false)].
Proof. vm_compute. reflexivity. Qed.

(** C10, as it was claimed.  With a validation accuracy of 0 at the first
    evaluation no checkpoint is written, although that accuracy exceeds
    every earlier one (there is none); and [train] keeps [best_test_acc] at
    its initial 0 although the first epoch, which attains the maximal
    validation accuracy 0, has test accuracy 1. *)
Lemma C10_counterexample :
  ~ saved_on_new_maximum
      (evaluations (snd (run (Sample.canned [1%Q; 0%Q] false 500)
                           (LinkPrediction.training_loop Sample.globals) 0))) /\
  exists st,
    fst (fst (run (Sample.canned [1%Q; 0%Q] false 0)
                (NodeClassification.train_epochs 1 Sample.two_nodes
                   NodeClassification.GCN_forward) 0)) = Ok st /\
    accs_of Sample.two_nodes (Tensor 2 [[1%Q; 0%Q]; [1%Q; 0%Q]]) = Ok (Fin 0, Fin 1) /\
    ~ first_maximum [(Fin 0, Fin 1)] st.
Proof.
  split.
  - rewrite loop_reports_without_saving. intros H.
    destruct (H 0 (Fin 0) false eq_refl) as [_ H2].
    assert (false = true) as [=]. apply H2. intros; lia.
  - exists (NodeClassification.Locals (Fin 0) (Fin 0)).
    split; [vm_compute; reflexivity|]. split; [vm_compute; reflexivity|].
    intros (i & v & t & Hi & Hst & _).
    destruct i as [|i]; [|done]. simpl in Hi. injection Hi as <- <-.
    discriminate Hst.
Qed.

(** C10.  In the link-prediction loop a step leaves [best_accuracy] as it
    was or raises it, and a checkpoint is written after an evaluation
    exactly when the validation accuracy just computed exceeds 0 and every
    validation accuracy computed before.  In [train], after any number of
    epochs, either no validation accuracy has exceeded 0 and [best_val_acc]
    and [best_test_acc] are still 0, or they are the validation and test
    accuracy of the first epoch whose validation accuracy is maximal. *)
Theorem C10_best_so_far {W : Type} (L : library W)
    (G : LinkPrediction.globals) (epoch step : nat) (b : edge_batch)
    (best best1 final : scalar) (u u' w w' z z' : W) (ulog log zlog : list event)
    (g : NodeClassification.cora) (k : nat) (st : NodeClassification.locals) :
  run L (LinkPrediction.training_step G epoch (step, b) best) u = (Ok best1, u', ulog) ->
  run L (LinkPrediction.training_loop G) w = (Ok final, w', log) ->
  run L (NodeClassification.train_epochs k g NodeClassification.GCN_forward) z
    = (Ok st, z', zlog) ->
  (best1 = best \/ slt best best1) /\
  saved_on_strict_improvement (Fin 0) (evaluations log) /\
  exists rs accs,
    length rs = k /\
    without_prints zlog = EvCall (NewOptimizer Adam) (Ok tt) :: flat_map (epoch_trace g) rs /\
    Forall2 (fun r a => accs_of g (snd (fst r)) = Ok a) rs accs /\
    best_so_far accs st.
Proof.
  intros Hstep Hloop Htrain. split; [|split].
  - apply training_step_ok in Hstep
      as [(_ & -> & _)
         |(pre & v & t & tail & _ & _ & _ & _ & [(_ & -> & _)|(E & -> & _)])].
    + by left.
    + by left.
    + right. by apply scalar_ltb_spec.
  - apply training_loop_ok in Hloop as (_ & vs & Hvs & -> & _).
    by apply (annotate_uniform (LinkPrediction.valid_nids G <> [])).
  - apply train_epochs_ok in Htrain as (rs & accs & Hlen & Hlog & Haccs & ->).
    exists rs, accs. repeat split; try done.
    by apply (best_so_far_train g rs).
Qed.

Lemma C10_best_so_far_witness :
  (Fin 1 = Fin 0 \/ slt (Fin 0) (Fin 1)) /\
  saved_on_strict_improvement (Fin 0)
    (evaluations (snd (run (Sample.canned [0%Q; 1%Q] false 1000)
                         (LinkPrediction.training_loop Sample.globals) 0))) /\
  exists rs accs,
    length rs = 100 /\
    without_prints
      (snd (run (Sample.canned [0%Q; 1%Q] false 1000)
              (NodeClassification.train_epochs 100 Sample.two_nodes
                 NodeClassification.GCN_forward) 0))
    = EvCall (NewOptimizer Adam) (Ok tt) :: flat_map (epoch_trace Sample.two_nodes) rs /\
    Forall2 (fun r a => accs_of Sample.two_nodes (snd (fst r)) = Ok a) rs accs /\
    best_so_far accs (NodeClassification.Locals (Fin 1) (Fin 0)).
Proof.
  apply (C10_best_so_far (Sample.canned [0%Q; 1%Q] false 1000) Sample.globals
           0 499 Sample.ebatch (Fin 0) (Fin 1) (Fin 1)
           0 (snd (fst (run (Sample.canned [0%Q; 1%Q] false 1000)
                          (LinkPrediction.training_step Sample.globals 0
                             (499, Sample.ebatch) (Fin 0)) 0)))
           0 (snd (fst (run (Sample.canned [0%Q; 1%Q] false 1000)
                          (LinkPrediction.training_loop Sample.globals) 0)))
           0 (snd (fst (run (Sample.canned [0%Q; 1%Q] false 1000)
                          (NodeClassification.train_epochs 100 Sample.two_nodes
                             NodeClassification.GCN_forward) 0)))
           (snd (run (Sample.canned [0%Q; 1%Q] false 1000)
                   (LinkPrediction.training_step Sample.globals 0
                      (499, Sample.ebatch) (Fin 0)) 0))).
  - apply outcome_eta. vm_compute. reflexivity.
  - apply outcome_eta. vm_compute. reflexivity.
  - apply outcome_eta. vm_compute. reflexivity.
Defined.

(** ** Files *)

Section SaveFree.
Context (P : op -> bool) (HP : forall o, P o = true -> is_save o = true).






End SaveFree.







(** ** Control logic *)

Lemma model_outputs_app l1 l2 :
  model_outputs (l1 ++ l2) = model_outputs l1 ++ model_outputs l2.
Proof.
  induction l1 as [|ev l1 IH]; [done|].
  by_event ev. destruct r; simpl; [|done].
  destruct (String.eqb layer "conv2"); simpl; by rewrite IH.
Qed.

Section Inference.
Context {W : Type} (L : library W).

Lemma Model_forward_ok mfgs x w out w' log :
  run L (LinkPrediction.Model_forward mfgs x) w = (Ok out, w', log) ->
  model_outputs log = [out].
Proof.
  unfold LinkPrediction.Model_forward. cbn [run pbind call plift]. intros H.
  repeat run_step H. injection H as <- <- <-. reflexivity.
Qed.

Lemma inference_loop_ok (batches : list node_batch) :
  forall acc w res w' log,
    run L (foldM (fun (b : node_batch) (result : list tensor) =>
                    pbind (plift (LinkPrediction.input_features (n_mfgs b))) (fun inputs =>
                    pbind (LinkPrediction.Model_forward (n_mfgs b) inputs) (fun out =>
                    Ret (result ++ [out]))))
             batches acc) w = (Ok res, w', log) ->
    res = acc ++ model_outputs log /\
    length (model_outputs log) = length batches.
Proof.
  induction batches as [|b batches IH]; intros acc w res w' log H.
  - simpl in H. injection H as <- <- <-. by rewrite app_nil_r.
  - cbn [foldM] in H. peel H as acc1 w1 l1 H1.
    peel H1 as inputs w2 l2 H2. peel H1 as out w3 l3 H3.
    simpl in H1. injection H1 as <- <- <-.
    apply run_plift_ok in H2 as (_ & _ & ->).
    apply Model_forward_ok in H3.
    apply IH in H as [-> Hlen].
    rewrite !model_outputs_app, H3, app_nil_r. simpl.
    split; [by rewrite <- app_assoc|by rewrite Hlen].
Qed.

Lemma inference_ok w t w' log :
  run L LinkPrediction.inference w = (Ok t, w', log) ->
  exists batches rest,
    log = EvCall NodeDataLoaderIter (Ok batches) :: rest /\
    length (model_outputs rest) = length batches /\
    cat0 (model_outputs rest) = Ok t.
Proof.
  unfold LinkPrediction.inference. intros H.
  peel H as batches w1 l1 H1. peel H as result w2 l2 H2.
  apply run_call_ok in H1 as [_ ->].
  apply run_plift_ok in H as (Hcat & _ & ->).
  apply inference_loop_ok in H2 as [-> Hlen]. simpl in Hcat.
  rewrite app_nil_r. by exists batches, l2.
Qed.
End Inference.

Example evaluate_stops_early :
  length (snd (run (Sample.canned [1%Q; 0%Q] false 0)
                 (LinkPrediction.evaluate 2 (Tensor 1 [[7%Q]; [8%Q]; [9%Q]])
                    [1; 0; 0] [0] [0] [1; 2]) 0)) = 10.
Proof. vm_compute. reflexivity. Qed.

Example evaluate_uses_all_iterations :
  length (snd (run (Sample.canned [1%Q; 0%Q] true 0)
                 (LinkPrediction.evaluate 2 (Tensor 1 [[7%Q]; [8%Q]; [9%Q]])
                    [1; 0; 0] [0] [0] [1; 2]) 0)) = 3003.
Proof. vm_compute. reflexivity. Qed.

(** C3, as it was claimed: [evaluate] decides by itself, from the losses it
    reads, how many optimizer steps it takes.  With a constant loss it stops
    after the second step; with a loss that keeps moving it takes all 1000. *)
Lemma C3_counterexample :
  ~ data_independent
      (LinkPrediction.evaluate 2 (Tensor 1 [[7%Q]; [8%Q]; [9%Q]]) [1; 0; 0] [0] [0] [1; 2]).
Proof.
  intros H.
  specialize (H nat (Sample.canned [1%Q; 0%Q] false 0)
                (Sample.canned [1%Q; 0%Q] true 0) 0 0).
  rewrite evaluate_stops_early, evaluate_uses_all_iterations in H.
  assert (10 = 3003) as [=].
  apply H; eexists; vm_compute; reflexivity.
Qed.

(** C3.  [evaluate], [inference] and a step of the training loop are
    sequences of library calls that intercept no failure, with this control
    of their own: [evaluate] takes between 1 and 1000 optimizer steps and
    stops after the first one whose loss is within 1e-4 of the loss of the
    step before; [inference] collects the model output of every batch and
    returns their concatenation; a training step runs an evaluation exactly
    when the number of steps taken is a multiple of 500. *)
Theorem C3_control_of_its_own {W : Type} (L : library W)
    (G : LinkPrediction.globals) (epoch step : nat) (b : edge_batch)
    (nc : nat) (emb t : tensor) (label tr va te : list nat)
    (acc : scalar * scalar) (best best1 : scalar)
    (w1 w1' w2 w2' w3 w3' : W) (elog ilog slog : list event) :
  run L (LinkPrediction.evaluate nc emb label tr va te) w1 = (Ok acc, w1', elog) ->
  run L LinkPrediction.inference w2 = (Ok t, w2', ilog) ->
  run L (LinkPrediction.training_step G epoch (step, b) best) w3 = (Ok best1, w3', slog) ->
  (forall w0,
     propagates (run L (LinkPrediction.evaluate nc emb label tr va te) w0) /\
     propagates (run L LinkPrediction.inference w0) /\
     propagates (run L (LinkPrediction.training_step G epoch (step, b) best) w0)) /\
  (exists x y iters stopped pred,
     elog = EvCall (NewLinear (ncols emb) nc) (Ok tt)
            :: EvCall (NewOptimizer LBFGS) (Ok tt)
            :: flat_map (iter_trace x y) iters
            ++ (if stopped : bool
                then [EvCall (Print (MsgConverges (length iters - 1))) (Ok tt)]
                else [])
            ++ [EvCall (Classifier emb) (Ok pred)] /\
     iters <> [] /\
     early_stop None (map snd iters) 1000 stopped) /\
  (exists batches rest,
     ilog = EvCall NodeDataLoaderIter (Ok batches) :: rest /\
     length (model_outputs rest) = length batches /\
     cat0 (model_outputs rest) = Ok t) /\
  (evaluations slog <> [] <-> (step + 1) mod 500 = 0).
Proof.
  intros He Hi Hs. split; [|split; [|split]].
  - intros w0. split; [|split]; apply run_propagates.
    + apply catch_free_evaluate.
    + apply catch_free_inference.
    + apply catch_free_training_step.
  - apply evaluate_ok in He
      as (x & y & iters & stopped & pred & _ & _ & Hne & Hstop & -> & _).
    by exists x, y, iters, stopped, pred.
  - by apply inference_ok in Hi.
  - apply training_step_ok in Hs
      as [(Hquiet & _ & Hmod)|(pre & v & tacc & tail & Hmod & -> & Hquiet & _)].
    + rewrite <- (app_nil_r slog), evaluations_quiet by done. simpl. tauto.
    + rewrite evaluations_quiet by done. simpl. split; [done|discriminate].
Qed.

Lemma C3_control_of_its_own_witness :
  (forall w0,
     propagates (run (Sample.canned [1%Q; 0%Q] false 500)
                   (LinkPrediction.evaluate 2 (Tensor 1 [[7%Q]; [8%Q]; [9%Q]])
                      [1; 0; 0] [0] [0] [1; 2]) w0) /\
     propagates (run (Sample.canned [1%Q; 0%Q] false 500) LinkPrediction.inference w0) /\
     propagates (run (Sample.canned [1%Q; 0%Q] false 500)
                   (LinkPrediction.training_step Sample.globals 0
                      (499, Sample.ebatch) (Fin 0)) w0)) /\
  (exists x y iters stopped pred,
     snd (run (Sample.canned [1%Q; 0%Q] false 500)
            (LinkPrediction.evaluate 2 (Tensor 1 [[7%Q]; [8%Q]; [9%Q]])
               [1; 0; 0] [0] [0] [1; 2]) 0)
     = EvCall (NewLinear 1 2) (Ok tt)
       :: EvCall (NewOptimizer LBFGS) (Ok tt)
       :: flat_map (iter_trace x y) iters
       ++ (if stopped : bool
           then [EvCall (Print (MsgConverges (length iters - 1))) (Ok tt)]
           else [])
       ++ [EvCall (Classifier (Tensor 1 [[7%Q]; [8%Q]; [9%Q]])) (Ok pred)] /\
     iters <> [] /\
     early_stop None (map snd iters) 1000 stopped) /\
  (exists batches rest,
     snd (run (Sample.canned [1%Q; 0%Q] false 500) LinkPrediction.inference 0)
     = EvCall NodeDataLoaderIter (Ok batches) :: rest /\
     length (model_outputs rest) = length batches /\
     cat0 (model_outputs rest) = Ok (Tensor 2 [[1%Q; 0%Q]; [1%Q; 0%Q]; [1%Q; 0%Q]])) /\
  (evaluations
     (snd (run (Sample.canned [1%Q; 0%Q] false 500)
             (LinkPrediction.training_step Sample.globals 0
                (499, Sample.ebatch) (Fin 0)) 0)) <> []
   <-> (499 + 1) mod 500 = 0).
Proof.
  apply (C3_control_of_its_own (Sample.canned [1%Q; 0%Q] false 500) Sample.globals
           0 499 Sample.ebatch 2 (Tensor 1 [[7%Q]; [8%Q]; [9%Q]])
           (Tensor 2 [[1%Q; 0%Q]; [1%Q; 0%Q]; [1%Q; 0%Q]])
           [1; 0; 0] [0] [0] [1; 2] (Fin 0, Fin (2 # 2)) (Fin 0) (Fin 0)
           0 (snd (fst (run (Sample.canned [1%Q; 0%Q] false 500)
                          (LinkPrediction.evaluate 2 (Tensor 1 [[7%Q]; [8%Q]; [9%Q]])
                             [1; 0; 0] [0] [0] [1; 2]) 0)))
           0 (snd (fst (run (Sample.canned [1%Q; 0%Q] false 500)
                          LinkPrediction.inference 0)))
           0 (snd (fst (run (Sample.canned [1%Q; 0%Q] false 500)
                          (LinkPrediction.training_step Sample.globals 0
                             (499, Sample.ebatch) (Fin 0)) 0)))).
  - apply outcome_eta. vm_compute. reflexivity.
  - apply outcome_eta. vm_compute. reflexivity.
  - apply outcome_eta. vm_compute. reflexivity.
Defined.

(** ** The declared modules *)

Example gcn_is_two_layer : Inventory.two_layer [] Inventory.GCN = true.
Proof. reflexivity. Qed.

Example l4_model_layers_aggregate_once :
  Inventory.layer_aggregations (take 4 Inventory.classes) Inventory.L4_Model "conv1" = 1.
Proof. reflexivity. Qed.

(** C1, as it was claimed: the stochastic SAGEConv is a module of the
    repository with a single layer. *)
Lemma C1_counterexample :
  In (take 3 Inventory.classes, Inventory.SAGEConv_stochastic) Inventory.with_context /\
  Inventory.two_layer (take 3 Inventory.classes) Inventory.SAGEConv_stochastic = false.
Proof. split; [|reflexivity]. simpl. tauto. Qed.

(** C1.  Of the modules the notebooks declare, GCN and the two Models are
    two-layer modules: two submodules, each called once in the forward pass,
    each call performing one aggregation of the library.  The two SAGEConv
    and SAGEConvForBoth are single convolutions: one linear submodule and
    one call of [update_all].  DotPredictor has no submodule and does not
    aggregate.  None of them hands a function of its own to [update_all] or
    [apply_edges]. *)
Theorem C1_modules_by_shape (before : list Inventory.class_def) (c : Inventory.class_def) :
  In (before, c) Inventory.with_context ->
  Inventory.user_functions c = [] /\
  (((Inventory.cname c = "GCN" \/ Inventory.cname c = "Model") /\
    Inventory.two_layer before c = true)
   \/
   ((Inventory.cname c = "SAGEConv" \/ Inventory.cname c = "SAGEConvForBoth") /\
    Inventory.single_conv c = true)
   \/
   (Inventory.cname c = "DotPredictor" /\ Inventory.init c = [] /\
    Inventory.direct_aggregations c = 0)).
Proof.
  intros H. simpl in H.
  destruct H as [H|[H|[H|[H|[H|[H|[H|[]]]]]]]]; injection H as <- <-;
    (split; [reflexivity|]).
  - left. split; [by left|reflexivity].
  - left. split; [by right|reflexivity].
  - right. right. by repeat split.
  - right. left. split; [by left|reflexivity].
  - left. split; [by right|reflexivity].
  - right. left. split; [by left|reflexivity].
  - right. left. split; [by right|reflexivity].
Qed.

Lemma C1_modules_by_shape_witness :
  Inventory.user_functions Inventory.L4_Model = [] /\
  (((Inventory.cname Inventory.L4_Model = "GCN" \/
     Inventory.cname Inventory.L4_Model = "Model") /\
    Inventory.two_layer (take 4 Inventory.classes) Inventory.L4_Model = true)
   \/
   ((Inventory.cname Inventory.L4_Model = "SAGEConv" \/
     Inventory.cname Inventory.L4_Model = "SAGEConvForBoth") /\
    Inventory.single_conv Inventory.L4_Model = true)
   \/
   (Inventory.cname Inventory.L4_Model = "DotPredictor" /\
    Inventory.init Inventory.L4_Model = [] /\
    Inventory.direct_aggregations Inventory.L4_Model = 0)).
Proof.
  apply (C1_modules_by_shape (take 4 Inventory.classes) Inventory.L4_Model).
  simpl. tauto.
Defined.

(** * Further properties of the modules *)

(** ** DotPredictor *)

Lemma dot_predictor_eval (g : DGL.graph) (h : tensor) :
  fst (DotPredictor.forward h g) =
  if DGL.is_block (DGL.topo g) then Raise AssertionError
  else if (nrows h =? DGL.num_src_nodes (DGL.topo g)) && negb (ncols h =? 0)
       then Ok (edge_scores h (DGL.edges (DGL.topo g)))
       else Raise DGLError.
Proof.
  destruct g as [t d].
  unfold DotPredictor.forward, DGL.local_scope, DGL.bind, DGL.set_ndata,
    DGL.set_srcdata. simpl.
  destruct (DGL.is_block t) eqn:Hb; [done|].
  destruct (nrows h =? DGL.num_src_nodes t); [|done].
  unfold DGL.apply_edges_u_dot_v, DGL.dst_view. simpl.
  rewrite Hb, lookup_insert_eq, Nat.eqb_refl.
  destruct (ncols h =? 0); [done|]. simpl.
  unfold DGL.get_edata. simpl. rewrite lookup_insert_eq.
  unfold DGL.lift, DotPredictor.column0, DGL.u_dot_v, edge_scores. simpl.
  by rewrite map_map.
Qed.

Lemma edge_scores_length h es : length (edge_scores h es) = length es.
Proof. unfold edge_scores. apply length_map. Qed.


Example dot_predictor_without_columns :
  fst (DotPredictor.forward (Tensor 0 [[]; []; []]) Sample.triangle) = Raise DGLError.
Proof. vm_compute. reflexivity. Qed.

Example dot_predictor_on_triangle :
  fst (DotPredictor.forward Sample.triangle_h Sample.triangle) = Ok [2%Q; 6%Q; 3%Q].
Proof. vm_compute. reflexivity. Qed.

(** ** The stochastic SAGEConv on a block *)

Lemma scatter_fold_length x es :
  forall acc, length (fold_left (DGL.scatter_step x) es acc) = length acc.
Proof.
  induction es as [|e es IH]; intros acc; simpl; [done|].
  by rewrite IH, scatter_step_length.
Qed.



Lemma linear_shape (l : Linear) (x t : tensor) :
  linear l x = Ok t ->
  ncols x = in_features l /\ nrows t = nrows x /\ ncols t = out_features l.
Proof.
  unfold linear. destruct (Nat.eqb_spec (ncols x) (in_features l)); [|done].
  intros [= <-]. unfold nrows. simpl. by rewrite length_map.
Qed.


Example sageconv_block_without_columns :
  fst (L4.Stochastic.forward {| L4.Stochastic.linear_ := Sample.add2 |}
         (Tensor 0 [[]; []; []], Tensor 2 [[1%Q; 2%Q]; [3%Q; 4%Q]]) Sample.block)
  = Raise DGLError.
Proof. vm_compute. reflexivity. Qed.


(** ** The SAGEConv modules on a homogeneous graph *)



(** X4. On a homogeneous graph, where [srcdata] and [dstdata] are the same
    dictionary, the stochastic SAGEConv overwrites the source features with
    the destination features before it aggregates: given a pair, it raises
    [DGLError] when the first component does not have one row per node, and
    otherwise returns what the full-graph SAGEConv returns on the second
    component alone, whatever the first component holds. *)
Theorem sageconv_stochastic_on_full_graph
    (self : L4.Stochastic.SAGEConv) (full : L4.FullGraph.SAGEConv)
    (g : DGL.graph) (h_src h_dst : tensor) :
  L4.Stochastic.linear_ self = L4.FullGraph.linear_ full ->
  DGL.is_block (DGL.topo g) = false ->
  fst (L4.Stochastic.forward self (h_src, h_dst) g) =
  if nrows h_src =? DGL.num_src_nodes (DGL.topo g)
  then fst (L4.FullGraph.forward full h_dst g)
  else Raise DGLError.
Proof.
  intros Hlin Hhomo. destruct g as [t d]. simpl in *.
  assert (Hn : DGL.num_dst_nodes t = DGL.num_src_nodes t) by (by destruct t).
  unfold L4.Stochastic.forward, L4.FullGraph.forward, DGL.local_scope, DGL.bind,
    DGL.set_ndata. simpl. rewrite Hhomo.
  unfold DGL.set_srcdata at 1. simpl.
  destruct (nrows h_src =? DGL.num_src_nodes t); [|done].
  unfold DGL.set_dstdata, DGL.set_srcdata. simpl. rewrite Hhomo, Hn.
  destruct (nrows h_dst =? DGL.num_src_nodes t); [|done].
  unfold DGL.update_all_copy_u_mean. simpl.
  rewrite !lookup_insert_eq.
  destruct (ncols h_dst =? 0); [done|].
  rewrite Hhomo, Hn.
  unfold DGL.get_dstdata, DGL.get_ndata, DGL.dst_view. simpl.
  rewrite Hhomo. simpl. rewrite !lookup_insert_eq, Hlin.
  unfold DGL.lift.
  match goal with |- context [cat1 ?a ?b] => destruct (cat1 a b) as [x|e] end;
    simpl; [|done].
  by destruct (linear (L4.FullGraph.linear_ full) x).
Qed.

Example sageconv_stochastic_ignores_src :
  fst (L4.Stochastic.forward {| L4.Stochastic.linear_ := Sample.add2 |}
         (Tensor 1 [[100%Q]; [200%Q]; [300%Q]], Sample.triangle_h) Sample.triangle)
  = Ok (Tensor 1 [[4%Q]; [3%Q]; [5%Q]]).
Proof. vm_compute. reflexivity. Qed.

Example sageconv_stochastic_checks_src_rows :
  fst (L4.Stochastic.forward {| L4.Stochastic.linear_ := Sample.add2 |}
         (Tensor 1 [[100%Q]], Sample.triangle_h) Sample.triangle)
  = Raise DGLError.
Proof. vm_compute. reflexivity. Qed.

Lemma sageconv_stochastic_on_full_graph_witness :
  fst (L4.Stochastic.forward {| L4.Stochastic.linear_ := Sample.add2 |}
         (Tensor 1 [[100%Q]; [200%Q]; [300%Q]], Sample.triangle_h) Sample.triangle) =
  if nrows (Tensor 1 [[100%Q]; [200%Q]; [300%Q]])
       =? DGL.num_src_nodes (DGL.topo Sample.triangle)
  then fst (L4.FullGraph.forward {| L4.FullGraph.linear_ := Sample.add2 |}
              Sample.triangle_h Sample.triangle)
  else Raise DGLError.
Proof.
  apply (sageconv_stochastic_on_full_graph
           {| L4.Stochastic.linear_ := Sample.add2 |}
           {| L4.FullGraph.linear_ := Sample.add2 |}
           Sample.triangle (Tensor 1 [[100%Q]; [200%Q]; [300%Q]]) Sample.triangle_h);
    reflexivity.
Defined.



(** X6. On a block SAGEConvForBoth never returns, whatever its input: it
    reads the aggregated features through [g.ndata], which a block does
    not offer. *)
Theorem sageconv_forboth_fails_on_block (both : L4.ForBoth.SAGEConvForBoth)
    (g : DGL.graph) (h : L4.feat) :
  DGL.is_block (DGL.topo g) = true ->
  exists e, fst (L4.ForBoth.forward both h g) = Raise e.
Proof.
  intros Hblock. destruct g as [t d]. simpl in *.
  unfold L4.ForBoth.forward, DGL.local_scope, DGL.bind.
  destruct h as [h|h_src h_dst]; simpl;
    unfold DGL.set_srcdata; simpl;
    match goal with |- context [nrows ?x =? ?n] => destruct (nrows x =? n) end;
    try (by eexists);
    unfold DGL.update_all_copy_u_mean; simpl; rewrite lookup_insert_eq;
    match goal with |- context [ncols ?x =? 0] => destruct (ncols x =? 0) end;
    try (by eexists);
    unfold DGL.get_ndata; simpl; rewrite Hblock; by eexists.
Qed.

Lemma sageconv_forboth_fails_on_block_witness :
  exists e,
    fst (L4.ForBoth.forward {| L4.ForBoth.linear_ := Sample.add2 |}
           (L4.Pair Sample.block_src Sample.block_dst) Sample.block) = Raise e.
Proof.
  apply (sageconv_forboth_fails_on_block {| L4.ForBoth.linear_ := Sample.add2 |}
           Sample.block (L4.Pair Sample.block_src Sample.block_dst)).
  reflexivity.
Defined.

(** ** Message passing outside a scope *)



(** ** The two-layer model on message flow graphs *)

Lemma relu_nrows t : nrows (relu t) = nrows t.
Proof. unfold nrows, relu. simpl. by rewrite length_map. Qed.

Lemma take_rows_nrows n t : nrows (take_rows n t) = Nat.min n (nrows t).
Proof. unfold nrows, take_rows. simpl. by rewrite length_take. Qed.

(** A convolution that returns had features of the right heights, returns
    one row per destination node, and has put the graph back. *)
Lemma sageconv_returns (self : L4.Stochastic.SAGEConv) (g g' : DGL.graph)
    (h_src h_dst t : tensor) :
  L4.Stochastic.forward self (h_src, h_dst) g = (Ok t, g') ->
  nrows h_src = DGL.num_src_nodes (DGL.topo g) /\
  nrows h_dst = DGL.num_dst_nodes (DGL.topo g) /\
  nrows t = DGL.num_dst_nodes (DGL.topo g) /\
  ncols t = out_features (L4.Stochastic.linear_ self) /\
  g' = g.
Proof.
  intros H.
  assert (Hframe : frame_ok (L4.Stochastic.forward self (h_src, h_dst)) g)
    by (apply local_scope_frame; keeps).
  unfold frame_ok in Hframe. rewrite H in Hframe. subst g'.
  destruct g as [tp d]. simpl.
  unfold L4.Stochastic.forward, DGL.local_scope, DGL.bind in H.
  unfold DGL.set_srcdata at 1 in H. simpl in H.
  destruct (Nat.eqb_spec (nrows h_src) (DGL.num_src_nodes tp)) as [Hs|]; [|done].
  unfold DGL.set_dstdata at 1 in H. simpl in H.
  destruct (Nat.eqb_spec (nrows h_dst) (DGL.num_dst_nodes tp)) as [Hd|]; [|done].
  unfold DGL.update_all_copy_u_mean, DGL.get_dstdata, DGL.dst_view, DGL.lift in H.
  destruct (DGL.is_block tp) eqn:Hb; simpl in H;
    rewrite ?lookup_insert_eq in H; simpl in H;
    (match type of H with context [ncols ?x =? 0] =>
       destruct (ncols x =? 0); simpl in H; [done|] end);
    rewrite ?Hb in H; simpl in H;
    rewrite ?lookup_insert_eq in H; simpl in H;
    (match type of H with context [cat1 ?a ?b] =>
       destruct (cat1 a b) as [x|e] eqn:Ecat; simpl in H; [|done] end);
    (match type of H with context [linear ?l ?y] =>
       destruct (linear l y) as [out|e] eqn:Elin; simpl in H; [|done] end);
    injection H as <-;
    apply linear_shape in Elin as (_ & Hrows & Hcols);
    unfold cat1 in Ecat;
    (match type of Ecat with context [?a =? ?b] =>
       destruct (Nat.eqb_spec a b) as [Heq|]; [|done] end);
    injection Ecat as <-;
    repeat split; try done;
    rewrite Hrows; unfold nrows in *; cbn [rows]; rewrite length_zip_with;
    unfold DGL.copy_u_sum;
    rewrite length_imap, scatter_fold_length, length_replicate; lia.
Qed.

(** X8. When the two-layer model of the message passing notebook returns,
    the list held at least two graphs that chain: the input has one row per
    source node of the first, the destination nodes of each are among its
    source nodes, and the source nodes of the second are the destination
    nodes of the first.  The output has one row per destination node of the
    second graph and the output width of the second convolution, and the
    graphs are what they were. *)
Theorem l4_model_returns (self : L4Model.Model) (x t : tensor)
    (mfgs mfgs' : list DGL.graph) :
  L4Model.forward self x mfgs = (Ok t, mfgs') ->
  exists mfg0 mfg1,
    mfgs !! 0 = Some mfg0 /\ mfgs !! 1 = Some mfg1 /\
    nrows x = DGL.num_src_nodes (DGL.topo mfg0) /\
    DGL.num_dst_nodes (DGL.topo mfg0) <= DGL.num_src_nodes (DGL.topo mfg0) /\
    DGL.num_src_nodes (DGL.topo mfg1) = DGL.num_dst_nodes (DGL.topo mfg0) /\
    DGL.num_dst_nodes (DGL.topo mfg1) <= DGL.num_src_nodes (DGL.topo mfg1) /\
    nrows t = DGL.num_dst_nodes (DGL.topo mfg1) /\
    ncols t = out_features (L4.Stochastic.linear_ (L4Model.conv2 self)) /\
    mfgs' = mfgs.
Proof.
  unfold L4Model.forward. intros H.
  destruct (mfgs !! 0) as [mfg0|] eqn:E0; [|done].
  destruct (L4.Stochastic.forward (L4Model.conv1 self) _ mfg0) as [[h|e] g0] eqn:E1;
    [|done].
  apply sageconv_returns in E1 as (Hx & Hd0 & Hh & _ & ->).
  rewrite (list_insert_id mfgs 0 mfg0 E0) in H.
  destruct (mfgs !! 1) as [mfg1|] eqn:E1; [|done].
  destruct (L4.Stochastic.forward (L4Model.conv2 self) _ mfg1) as [r g1] eqn:E2.
  injection H as -> <-.
  apply sageconv_returns in E2 as (Hs1 & Hd1 & Ht & Hcols & ->).
  rewrite relu_nrows in Hs1. rewrite take_rows_nrows in Hd0, Hd1.
  rewrite relu_nrows in Hd1.
  exists mfg0, mfg1. repeat split; try done; try lia.
  by apply list_insert_id.
Qed.

Example l4_model_on_chained_blocks :
  L4Model.forward Sample2.model Sample.block_src [Sample.block; Sample2.block2]
  = (Ok (Tensor 1 [[(68 # 8)%Q]]), [Sample.block; Sample2.block2]).
Proof. vm_compute. reflexivity. Qed.

Lemma l4_model_returns_witness :
  exists mfg0 mfg1,
    [Sample.block; Sample2.block2] !! 0 = Some mfg0 /\
    [Sample.block; Sample2.block2] !! 1 = Some mfg1 /\
    nrows Sample.block_src = DGL.num_src_nodes (DGL.topo mfg0) /\
    DGL.num_dst_nodes (DGL.topo mfg0) <= DGL.num_src_nodes (DGL.topo mfg0) /\
    DGL.num_src_nodes (DGL.topo mfg1) = DGL.num_dst_nodes (DGL.topo mfg0) /\
    DGL.num_dst_nodes (DGL.topo mfg1) <= DGL.num_src_nodes (DGL.topo mfg1) /\
    nrows (Tensor 1 [[(68 # 8)%Q]]) = DGL.num_dst_nodes (DGL.topo mfg1) /\
    ncols (Tensor 1 [[(68 # 8)%Q]])
      = out_features (L4.Stochastic.linear_ (L4Model.conv2 Sample2.model)) /\
    [Sample.block; Sample2.block2] = [Sample.block; Sample2.block2].
Proof.
  apply (l4_model_returns Sample2.model Sample.block_src (Tensor 1 [[(68 # 8)%Q]])
           [Sample.block; Sample2.block2] [Sample.block; Sample2.block2]).
  vm_compute. reflexivity.
Defined.

(** ** More on [evaluate] and [inference] *)

Lemma optimizer_steps_app l1 l2 :
  optimizer_steps (l1 ++ l2) = optimizer_steps l1 + optimizer_steps l2.
Proof. unfold optimizer_steps. by rewrite List.filter_app, length_app. Qed.

Lemma optimizer_steps_iters x y iters :
  optimizer_steps (flat_map (iter_trace x y) iters) = length iters.
Proof.
  induction iters as [|it iters IH]; [done|].
  cbn [flat_map]. rewrite optimizer_steps_app, IH. reflexivity.
Qed.

(** The first iteration never meets the convergence test: the loss it is
    compared with is the initial infinity. *)
Lemma early_stop_two losses n stopped :
  early_stop None losses n stopped -> losses <> [] -> 2 <= n ->
  2 <= length losses <= n.
Proof.
  intros (Hle & _ & Hlast) Hne Hn. split; [|done].
  destruct stopped; [|lia].
  destruct Hlast as (l & p & Hpair & Hc).
  destruct losses as [|l1 [|l2 rest]]; [done| |simpl; lia].
  unfold loss_pair in Hpair. simpl in Hpair. by injection Hpair as <- <-.
Qed.

(** X9. A call of [evaluate] that returns has made at least two and at most
    1000 optimizer steps; when it made fewer than 1000 it has printed that
    it converged at the last of them. *)
Theorem evaluate_step_count {W : Type} (L : library W)
    (nc : nat) (emb : tensor) (label tr va te : list nat)
    (w w' : W) (acc : scalar * scalar) (log : list event) :
  run L (LinkPrediction.evaluate nc emb label tr va te) w = (Ok acc, w', log) ->
  2 <= optimizer_steps log <= 1000 /\
  (optimizer_steps log < 1000 ->
   In (EvCall (Print (MsgConverges (optimizer_steps log - 1))) (Ok tt)) log).
Proof.
  intros H.
  apply evaluate_ok in H
    as (x & y & iters & stopped & pred & _ & _ & Hne & Hstop & -> & _).
  assert (Hsteps : optimizer_steps
                     (EvCall (NewLinear (ncols emb) nc) (Ok tt)
                      :: EvCall (NewOptimizer LBFGS) (Ok tt)
                      :: flat_map (iter_trace x y) iters
                      ++ (if stopped
                          then [EvCall (Print (MsgConverges (length iters - 1))) (Ok tt)]
                          else [])
                      ++ [EvCall (Classifier emb) (Ok pred)]) = length iters).
  { change (optimizer_steps (?a :: ?b :: ?l)) with (optimizer_steps l).
    rewrite !optimizer_steps_app, optimizer_steps_iters.
    destruct stopped; unfold optimizer_steps; simpl; lia. }
  rewrite Hsteps.
  assert (Hlen : 2 <= length (map snd iters) <= 1000).
  { apply (early_stop_two _ _ stopped); [done| |lia]. by destruct iters. }
  rewrite length_map in Hlen. split; [done|]. intros Hlt.
  destruct stopped.
  - right. right. apply in_or_app. right. by left.
  - destruct Hstop as (_ & _ & Hall & _). rewrite length_map in Hall. lia.
Qed.

Lemma evaluate_step_count_witness :
  2 <= optimizer_steps
         (snd (run (Sample.canned [1%Q; 0%Q] false 0)
                 (LinkPrediction.evaluate 2 (Tensor 1 [[7%Q]; [8%Q]; [9%Q]])
                    [1; 0; 0] [0] [0] [1; 2]) 0)) <= 1000 /\
  (optimizer_steps
     (snd (run (Sample.canned [1%Q; 0%Q] false 0)
             (LinkPrediction.evaluate 2 (Tensor 1 [[7%Q]; [8%Q]; [9%Q]])
                [1; 0; 0] [0] [0] [1; 2]) 0)) < 1000 ->
   In (EvCall (Print (MsgConverges
                 (optimizer_steps
                    (snd (run (Sample.canned [1%Q; 0%Q] false 0)
                            (LinkPrediction.evaluate 2 (Tensor 1 [[7%Q]; [8%Q]; [9%Q]])
                               [1; 0; 0] [0] [0] [1; 2]) 0)) - 1))) (Ok tt))
      (snd (run (Sample.canned [1%Q; 0%Q] false 0)
              (LinkPrediction.evaluate 2 (Tensor 1 [[7%Q]; [8%Q]; [9%Q]])
                 [1; 0; 0] [0] [0] [1; 2]) 0))).
Proof.
  apply (evaluate_step_count (Sample.canned [1%Q; 0%Q] false 0)
           2 (Tensor 1 [[7%Q]; [8%Q]; [9%Q]]) [1; 0; 0] [0] [0] [1; 2] 0
           (snd (fst (run (Sample.canned [1%Q; 0%Q] false 0)
                        (LinkPrediction.evaluate 2 (Tensor 1 [[7%Q]; [8%Q]; [9%Q]])
                           [1; 0; 0] [0] [0] [1; 2]) 0)))
           (Fin 0, Fin (2 # 2))).
  apply outcome_eta. vm_compute. reflexivity.
Defined.

Lemma compute_loss_bad_index emb label tr e :
  gather_rows emb tr = Raise e -> LinkPrediction.compute_loss emb label tr = Throw e.
Proof. intros Hx. unfold LinkPrediction.compute_loss. by rewrite Hx. Qed.

(** X10. When a training index is outside the embedding, [evaluate] never
    returns, whatever the library answers, and the classifier is never
    applied outside [opt.step]. *)
Theorem evaluate_bad_train_index {W : Type} (L : library W)
    (nc : nat) (emb : tensor) (label tr va te : list nat) (e : exn) (w : W) :
  gather_rows emb tr = Raise e ->
  (exists e', fst (fst (run L (LinkPrediction.evaluate nc emb label tr va te) w)) = Raise e') /\
  log_avoids is_classifier (snd (run L (LinkPrediction.evaluate nc emb label tr va te) w)).
Proof.
  intros Hx. unfold LinkPrediction.evaluate.
  rewrite (fit_S emb label tr 999 0 None), (compute_loss_bad_index _ _ _ _ Hx).
  cbn [run pbind call plift].
  destruct (lib_call L (NewLinear _ _) w) as [[u1|e1] w1]; cbn [run pbind fst snd];
    [|split; [by eexists|by repeat constructor]].
  destruct (lib_call L (NewOptimizer LBFGS) w1) as [[u2|e2] w2]; cbn [run pbind fst snd];
    [|split; [by eexists|by repeat constructor]].
  destruct (lib_step L _ w2) as [[u3|e3] w3]; cbn [run pbind fst snd];
    (split; [by eexists|by repeat constructor]).
Qed.

Lemma evaluate_bad_train_index_witness :
  (exists e', fst (fst (run (Sample.canned [1%Q; 0%Q] false 0)
                          (LinkPrediction.evaluate 2 (Tensor 1 [[7%Q]; [8%Q]; [9%Q]])
                             [1; 0; 0] [3] [0] [1; 2]) 0)) = Raise e') /\
  log_avoids is_classifier
    (snd (run (Sample.canned [1%Q; 0%Q] false 0)
            (LinkPrediction.evaluate 2 (Tensor 1 [[7%Q]; [8%Q]; [9%Q]])
               [1; 0; 0] [3] [0] [1; 2]) 0)).
Proof.
  apply (evaluate_bad_train_index (Sample.canned [1%Q; 0%Q] false 0)
           2 (Tensor 1 [[7%Q]; [8%Q]; [9%Q]]) [1; 0; 0] [3] [0] [1; 2] IndexError 0).
  vm_compute. reflexivity.
Defined.



(** ** What [train] prints *)



Section Prints.
Context {W : Type} (L : library W) (g : NodeClassification.cora).


End Prints.



(** ** How often the training loop evaluates and saves *)

Section Counting.
Context {W : Type} (L : library W) (G : LinkPrediction.globals).

Lemma steps_count epoch (steps : list (nat * edge_batch)) :
  forall best w best' w' log,
    run L (foldM (LinkPrediction.training_step G epoch) steps best) w
      = (Ok best', w', log) ->
    length (evaluations log) = length (List.filter evaluation_due steps) /\
    length (file_writes log) = length (List.filter snd (evaluations log)).
Proof.
  induction steps as [|[step b] steps IH]; intros best w best' w' log H.
  - simpl in H. by injection H as <- <- <-.
  - cbn [foldM] in H. peel H as best1 w1 l1 H1.
    pose proof (steps_ok L G epoch steps _ _ _ _ _ H) as (Hnext & _).
    apply IH in H as (Hev & Hfw).
    apply training_step_ok in H1
      as [(Hquiet & -> & Hmod)
         |(pre & v & t & tail & Hmod & -> & Hquiet & Hfin
           & [(E & -> & ->)|(E & -> & sd & ->)])].
    + assert (Hdue : evaluation_due (step, b) = false).
      { unfold evaluation_due. cbn [fst]. by apply Nat.eqb_neq. }
      rewrite evaluations_quiet by done.
      rewrite file_writes_app, (file_writes_quiet l1)
        by (eapply log_avoids_weaken; [apply loud_not_save|done]).
      cbn [List.filter]. by rewrite Hdue.
    + assert (Hdue : evaluation_due (step, b) = true).
      { unfold evaluation_due. cbn [fst]. by apply Nat.eqb_eq. }
      rewrite <- app_assoc. cbn [app].
      rewrite evaluations_quiet by done.
      rewrite file_writes_app, (file_writes_quiet pre)
        by (eapply log_avoids_weaken; [apply loud_not_save|done]).
      cbn [List.filter]. rewrite Hdue. simpl. rewrite Hnext. simpl. lia.
    + assert (Hdue : evaluation_due (step, b) = true).
      { unfold evaluation_due. cbn [fst]. by apply Nat.eqb_eq. }
      rewrite <- app_assoc. cbn [app].
      rewrite evaluations_quiet by done.
      rewrite file_writes_app, (file_writes_quiet pre)
        by (eapply log_avoids_weaken; [apply loud_not_save|done]).
      cbn [List.filter]. rewrite Hdue. simpl. lia.
Qed.
End Counting.

Lemma due_enumerate (tq : list edge_batch) :
  forall j,
    length (List.filter evaluation_due (imap (fun i x => (j + i, x)) tq))
    = length (List.filter (fun i => (i + 1) mod 500 =? 0) (seq j (length tq))).
Proof.
  induction tq as [|b tq IH]; intros j; [done|].
  cbn [imap length seq List.filter]. unfold evaluation_due at 1. cbn [fst].
  rewrite Nat.add_0_r.
  rewrite (imap_ext _ (fun i x => (S j + i, x)))
    by (intros i x _; simpl; f_equal; lia).
  destruct ((j + 1) mod 500 =? 0); cbn [length]; by rewrite IH.
Qed.

Lemma due_count (n : nat) :
  length (List.filter (fun i => (i + 1) mod 500 =? 0) (seq 0 n)) = n / 500.
Proof.
  induction n as [|n IH]; [done|].
  rewrite seq_S, List.filter_app, length_app, IH. cbn [List.filter Nat.add].
  destruct (Nat.eqb_spec ((n + 1) mod 500) 0) as [E|E]; cbn [length];
    replace (S n) with (n + 1) by lia.
  - pose proof (Nat.div_mod_eq (n + 1) 500). pose proof (Nat.div_mod_eq n 500).
    pose proof (Nat.mod_upper_bound n 500). lia.
  - pose proof (Nat.div_mod_eq (n + 1) 500). pose proof (Nat.div_mod_eq n 500).
    pose proof (Nat.mod_upper_bound n 500).
    pose proof (Nat.mod_upper_bound (n + 1) 500). lia.
Qed.

Lemma annotate_saved vs :
  forall best,
    (List.filter snd (annotate best vs) = [] -> running_best best vs = best) /\
    (List.filter snd (annotate best vs) <> [] -> slt best (running_best best vs)).
Proof.
  induction vs as [|v vs IH]; intros best; cbn [annotate running_best List.filter snd].
  - done.
  - destruct (scalar_ltb best v) eqn:E; [|apply IH].
    split; [done|]. intros _. apply scalar_ltb_spec in E.
    destruct (running_best_mono vs v) as [->|Hlt]; [done|].
    destruct best, v as [|qv]; try done.
    destruct (running_best (Fin qv) vs); simpl in *; [done|lra].
Qed.

(** X13. A run of the training loop that returns has evaluated the model
    once for every 500 minibatches the data loader yielded, rounded down,
    and has written at most that many files. *)
Theorem loop_evaluates_every_500 {W : Type} (L : library W)
    (G : LinkPrediction.globals) (w w' : W) (final : scalar) (log : list event) :
  run L (LinkPrediction.training_loop G) w = (Ok final, w', log) ->
  exists tq rest,
    log = EvCall EdgeDataLoaderIter (Ok tq) :: rest /\
    length (evaluations log) = length tq / 500 /\
    length (file_writes log) <= length tq / 500.
Proof.
  unfold LinkPrediction.training_loop. cbn [seq foldM]. intros H.
  peel H as best1 w1 l1 H1. simpl in H. injection H as -> <- <-.
  unfold LinkPrediction.training_epoch in H1.
  peel H1 as tq w0 l0 H0. apply run_call_ok in H0 as [_ ->].
  apply steps_count in H1 as (Hev & Hfw).
  exists tq, rest. rewrite app_nil_r. split; [done|].
  cbn [app evaluations file_writes].
  unfold LinkPrediction.enumerate in Hev.
  pose proof (due_enumerate tq 0) as Hdue. cbn [Nat.add] in Hdue.
  rewrite Hdue, due_count in Hev.
  split; [done|]. rewrite Hfw, <- Hev. apply List.filter_length_le.
Qed.

Lemma loop_evaluates_every_500_witness :
  exists tq rest,
    snd (run (Sample.canned [0%Q; 1%Q] false 1000)
           (LinkPrediction.training_loop Sample.globals) 0)
    = EvCall EdgeDataLoaderIter (Ok tq) :: rest /\
    length (evaluations (snd (run (Sample.canned [0%Q; 1%Q] false 1000)
                                (LinkPrediction.training_loop Sample.globals) 0)))
    = length tq / 500 /\
    length (file_writes (snd (run (Sample.canned [0%Q; 1%Q] false 1000)
                                (LinkPrediction.training_loop Sample.globals) 0)))
    <= length tq / 500.
Proof.
  apply (loop_evaluates_every_500 (Sample.canned [0%Q; 1%Q] false 1000) Sample.globals
           0 (snd (fst (run (Sample.canned [0%Q; 1%Q] false 1000)
                          (LinkPrediction.training_loop Sample.globals) 0)))
           (Fin 1)).
  apply outcome_eta. vm_compute. reflexivity.
Defined.

(** X14. In a run of the training loop that returns, one file is written
    for each evaluation that was followed by a checkpoint; no file is
    written exactly when [best_accuracy] ends at its initial 0, and
    otherwise it ends above 0. *)
Theorem loop_checkpoint_iff_improved {W : Type} (L : library W)
    (G : LinkPrediction.globals) (w w' : W) (final : scalar) (log : list event) :
  run L (LinkPrediction.training_loop G) w = (Ok final, w', log) ->
  length (file_writes log) = length (List.filter snd (evaluations log)) /\
  (file_writes log = [] <-> final = Fin 0) /\
  (file_writes log <> [] <-> slt (Fin 0) final).
Proof.
  intros H.
  pose proof (training_loop_ok L G _ _ _ _ H) as (_ & vs & _ & Hevs & Hfinal).
  assert (Hfw : length (file_writes log) = length (List.filter snd (evaluations log))).
  { revert H. unfold LinkPrediction.training_loop. cbn [seq foldM]. intros H.
    peel H as best1 w1 l1 H1. simpl in H. injection H as -> <- <-.
    unfold LinkPrediction.training_epoch in H1.
    peel H1 as tq w0 l0 H0. apply run_call_ok in H0 as [_ ->].
    apply steps_count in H1 as (_ & Hfw).
    rewrite app_nil_r. exact Hfw. }
  split; [done|].
  destruct (annotate_saved vs (Fin 0)) as [Hnone Hsome].
  rewrite <- Hevs, <- Hfinal in Hnone, Hsome.
  assert (Hnil : file_writes log = [] <-> List.filter snd (evaluations log) = []).
  { split; intros E; apply length_zero_iff_nil; apply length_zero_iff_nil in E; lia. }
  assert (Hzero : slt (Fin 0) final -> final <> Fin 0).
  { intros Hlt ->. simpl in Hlt. lra. }
  destruct (List.filter snd (evaluations log)) as [|a l] eqn:E.
  - assert (Hf : final = Fin 0) by (by apply Hnone).
    split; [tauto|]. split; [tauto|]. rewrite Hf. simpl. lra.
  - assert (Hlt : slt (Fin 0) final) by (by apply Hsome).
    split.
    + split; [intros E'; apply Hnil in E'; done|]. intros E'. by apply Hzero in Hlt.
    + split; [done|]. intros _ E'. by apply Hnil in E'.
Qed.

Lemma loop_checkpoint_iff_improved_witness :
  length (file_writes (snd (run (Sample.canned [0%Q; 1%Q] false 1000)
                              (LinkPrediction.training_loop Sample.globals) 0)))
  = length (List.filter snd
              (evaluations (snd (run (Sample.canned [0%Q; 1%Q] false 1000)
                                   (LinkPrediction.training_loop Sample.globals) 0)))) /\
  (file_writes (snd (run (Sample.canned [0%Q; 1%Q] false 1000)
                       (LinkPrediction.training_loop Sample.globals) 0)) = []
   <-> Fin 1 = Fin 0) /\
  (file_writes (snd (run (Sample.canned [0%Q; 1%Q] false 1000)
                       (LinkPrediction.training_loop Sample.globals) 0)) <> []
   <-> slt (Fin 0) (Fin 1)).
Proof.
  apply (loop_checkpoint_iff_improved (Sample.canned [0%Q; 1%Q] false 1000) Sample.globals
           0 (snd (fst (run (Sample.canned [0%Q; 1%Q] false 1000)
                          (LinkPrediction.training_loop Sample.globals) 0)))).
  apply outcome_eta. vm_compute. reflexivity.
Defined.

(** ** The model and the loss of a training step *)

(** X15. With fewer than two graphs in [mfgs], the model of the link
    prediction notebook never returns, whatever the layers answer, and its
    second convolution is never reached. *)
Theorem model_forward_needs_two {W : Type} (L : library W)
    (mfgs : list DGL.graph) (x : tensor) (w : W) :
  length mfgs < 2 ->
  (exists e, fst (fst (run L (LinkPrediction.Model_forward mfgs x) w)) = Raise e) /\
  model_outputs (snd (run L (LinkPrediction.Model_forward mfgs x) w)) = [].
Proof.
  intros Hlen. destruct mfgs as [|g [|g' rest]]; [| |simpl in Hlen; lia].
  - split; [by exists IndexError|done].
  - unfold LinkPrediction.Model_forward, index.
    cbn [lookup list_lookup run pbind call plift].
    destruct (lib_call L _ w) as [[h|e] w1]; cbn [run pbind call plift fst snd].
    + split; [by exists IndexError|done].
    + split; [by exists e|done].
Qed.

Lemma model_forward_needs_two_witness :
  (exists e, fst (fst (run (Sample.canned [1%Q; 0%Q] false 0)
                         (LinkPrediction.Model_forward [Sample.mfg] Sample.triangle_h) 0))
             = Raise e) /\
  model_outputs (snd (run (Sample.canned [1%Q; 0%Q] false 0)
                        (LinkPrediction.Model_forward [Sample.mfg] Sample.triangle_h) 0)) = [].
Proof.
  apply (model_forward_needs_two (Sample.canned [1%Q; 0%Q] false 0)
           [Sample.mfg] Sample.triangle_h 0).
  simpl. lia.
Defined.

Lemma map_const {A B} (c : B) (l : list A) : map (fun _ => c) l = replicate (length l) c.
Proof. induction l as [|a l IH]; [done|]. simpl. by rewrite IH. Qed.

Lemma predictor_ok {W : Type} (L : library W) (g : DGL.graph) (h : tensor)
    (w w' : W) (score : list Q) (log : list event) :
  run L (LinkPrediction.predictor g h) w = (Ok score, w', log) ->
  DGL.is_block (DGL.topo g) = false /\
  nrows h = DGL.num_src_nodes (DGL.topo g) /\
  score = edge_scores h (DGL.edges (DGL.topo g)) /\
  log = [].
Proof.
  unfold LinkPrediction.predictor. intros H.
  apply run_plift_ok in H as (H & _ & ->).
  rewrite dot_predictor_eval in H.
  destruct (DGL.is_block (DGL.topo g)); [done|].
  destruct (Nat.eqb_spec (nrows h) (DGL.num_src_nodes (DGL.topo g))) as [E|E]; [|done].
  destruct (ncols h =? 0); [done|]. simpl in H.
  by injection H as <-.
Qed.

(** X16. In a training step that returns, the positive and the negative
    graph are homogeneous graphs with as many nodes as the model output has
    rows; the loss is the binary cross entropy of one dot-product score per
    edge, those of the positive graph labelled 1 and followed by those of
    the negative graph labelled 0; and that loss is the one
    back-propagated. *)
Theorem training_step_loss {W : Type} (L : library W)
    (G : LinkPrediction.globals) (epoch step : nat) (b : edge_batch)
    (best best' : scalar) (w w' : W) (log : list event) :
  run L (LinkPrediction.training_step G epoch (step, b) best) w = (Ok best', w', log) ->
  exists outputs loss,
    head (model_outputs log) = Some outputs /\
    DGL.is_block (DGL.topo (pos_graph b)) = false /\
    DGL.is_block (DGL.topo (neg_graph b)) = false /\
    nrows outputs = DGL.num_src_nodes (DGL.topo (pos_graph b)) /\
    nrows outputs = DGL.num_src_nodes (DGL.topo (neg_graph b)) /\
    In (EvCall (BCEWithLogits
                  (edge_scores outputs (DGL.edges (DGL.topo (pos_graph b)))
                   ++ edge_scores outputs (DGL.edges (DGL.topo (neg_graph b))))
                  (replicate (length (DGL.edges (DGL.topo (pos_graph b)))) 1%Q
                   ++ replicate (length (DGL.edges (DGL.topo (neg_graph b)))) 0%Q))
               (Ok loss)) log /\
    In (EvCall (Backward loss) (Ok tt)) log.
Proof.
  unfold LinkPrediction.training_step. intros H.
  peel H as inputs w1 l1 H1. peel H as outputs w2 l2 H2.
  peel H as pos w3 l3 H3. peel H as neg w4 l4 H4.
  peel H as loss w5 l5 H5. peel H as u6 w6 l6 H6.
  peel H as u7 w7 l7 H7.
  apply run_plift_ok in H1 as (_ & _ & ->).
  apply Model_forward_ok in H2.
  apply predictor_ok in H3 as (Hbp & Hnp & -> & ->).
  apply predictor_ok in H4 as (Hbn & Hnn & -> & ->).
  apply run_call_ok in H5 as [_ ->].
  apply (run_call_ok L (Backward loss) w6 u7) in H7 as [_ ->].
  cbn in u7. destruct u7.
  exists outputs, loss.
  rewrite !model_outputs_app, H2. cbn [app head].
  repeat split; try done.
  - rewrite !map_const, !edge_scores_length. cbn [app].
    apply in_or_app. right. by left.
  - cbn [app]. apply in_or_app. right. right.
    apply in_or_app. right. by left.
Qed.

Lemma training_step_loss_witness :
  exists outputs loss,
    head (model_outputs
            (snd (run (Sample.canned [1%Q; 0%Q] false 500)
                    (LinkPrediction.training_step Sample.globals 0
                       (0, Sample.ebatch) (Fin 0)) 0))) = Some outputs /\
    DGL.is_block (DGL.topo (pos_graph Sample.ebatch)) = false /\
    DGL.is_block (DGL.topo (neg_graph Sample.ebatch)) = false /\
    nrows outputs = DGL.num_src_nodes (DGL.topo (pos_graph Sample.ebatch)) /\
    nrows outputs = DGL.num_src_nodes (DGL.topo (neg_graph Sample.ebatch)) /\
    In (EvCall (BCEWithLogits
                  (edge_scores outputs (DGL.edges (DGL.topo (pos_graph Sample.ebatch)))
                   ++ edge_scores outputs (DGL.edges (DGL.topo (neg_graph Sample.ebatch))))
                  (replicate (length (DGL.edges (DGL.topo (pos_graph Sample.ebatch)))) 1%Q
                   ++ replicate (length (DGL.edges (DGL.topo (neg_graph Sample.ebatch)))) 0%Q))
               (Ok loss))
       (snd (run (Sample.canned [1%Q; 0%Q] false 500)
               (LinkPrediction.training_step Sample.globals 0
                  (0, Sample.ebatch) (Fin 0)) 0)) /\
    In (EvCall (Backward loss) (Ok tt))
       (snd (run (Sample.canned [1%Q; 0%Q] false 500)
               (LinkPrediction.training_step Sample.globals 0
                  (0, Sample.ebatch) (Fin 0)) 0)).
Proof.
  apply (training_step_loss (Sample.canned [1%Q; 0%Q] false 500) Sample.globals
           0 0 Sample.ebatch (Fin 0) (Fin 0) 0
           (snd (fst (run (Sample.canned [1%Q; 0%Q] false 500)
                        (LinkPrediction.training_step Sample.globals 0
                           (0, Sample.ebatch) (Fin 0)) 0)))).
  apply outcome_eta. vm_compute. reflexivity.
Defined.

(** ** The range of an accuracy *)

Lemma count_eq_le (a b : list nat) : count_eq a b <= length a.
Proof.
  unfold count_eq.
  etransitivity; [apply List.filter_length_le|].
  rewrite length_combine. lia.
Qed.

Lemma mean_eq_range (a b : list nat) :
  match mean_eq a b with
  | NaN => a = []
  | Fin q => a <> [] /\ (0 <= q <= 1)%Q
  end.
Proof.
  unfold mean_eq. destruct a as [|x a]; [done|].
  split; [done|].
  pose proof (count_eq_le (x :: a) b) as Hle.
  set (c := count_eq (x :: a) b) in *. set (n := length (x :: a)) in *.
  assert (Hn : 0 < n) by (subst n; simpl; lia).
  assert (Hpos : (0 < inject_Z (Z.of_nat n))%Q).
  { change 0%Q with (inject_Z 0). rewrite <- Zlt_Qlt. lia. }
  split.
  - apply Qle_shift_div_l; [done|]. rewrite Qmult_0_l.
    change 0%Q with (inject_Z 0). rewrite <- Zle_Qle. lia.
  - apply Qle_shift_div_r; [done|]. rewrite Qmult_1_l.
    rewrite <- Zle_Qle. lia.
Qed.

(** X17. Each of the two accuracies that [evaluate] returns is a number
    between 0 and 1 when its index set is not empty, and is not a number
    when it is. *)
Theorem evaluate_accuracy_range {W : Type} (L : library W)
    (nc : nat) (emb : tensor) (label tr va te : list nat)
    (w w' : W) (valid_acc test_acc : scalar) (log : list event) :
  run L (LinkPrediction.evaluate nc emb label tr va te) w
    = (Ok (valid_acc, test_acc), w', log) ->
  match valid_acc with
  | NaN => va = []
  | Fin q => va <> [] /\ (0 <= q <= 1)%Q
  end /\
  match test_acc with
  | NaN => te = []
  | Fin q => te <> [] /\ (0 <= q <= 1)%Q
  end.
Proof.
  intros H.
  apply evaluate_ok in H as (x & y & iters & stopped & pred & _ & _ & _ & _ & _ & Hacc).
  injection Hacc as -> ->. unfold probe_accuracy.
  split.
  - pose proof (mean_eq_range (map (fun i => default 0 (label !! i)) va)
                  (map (fun i => argmax (default [] (rows pred !! i))) va)) as Hr.
    destruct (mean_eq _ _); [by destruct va|].
    destruct Hr as [Hne Hq]. split; [by destruct va|done].
  - pose proof (mean_eq_range (map (fun i => default 0 (label !! i)) te)
                  (map (fun i => argmax (default [] (rows pred !! i))) te)) as Hr.
    destruct (mean_eq _ _); [by destruct te|].
    destruct Hr as [Hne Hq]. split; [by destruct te|done].
Qed.

Lemma evaluate_accuracy_range_witness :
  ([0] <> [] /\ (0 <= 0 <= 1)%Q) /\ ([1; 2] <> [] /\ (0 <= 2 # 2 <= 1)%Q).
Proof.
  apply (evaluate_accuracy_range (Sample.canned [1%Q; 0%Q] false 0)
           2 (Tensor 1 [[7%Q]; [8%Q]; [9%Q]]) [1; 0; 0] [0] [0] [1; 2] 0
           (snd (fst (run (Sample.canned [1%Q; 0%Q] false 0)
                        (LinkPrediction.evaluate 2 (Tensor 1 [[7%Q]; [8%Q]; [9%Q]])
                           [1; 0; 0] [0] [0] [1; 2]) 0)))
           (Fin 0) (Fin (2 # 2))
           (snd (run (Sample.canned [1%Q; 0%Q] false 0)
                   (LinkPrediction.evaluate 2 (Tensor 1 [[7%Q]; [8%Q]; [9%Q]])
                      [1; 0; 0] [0] [0] [1; 2]) 0))).
  apply outcome_eta. vm_compute. reflexivity.
Defined.
